(** * teldrive-bot: the channel ingestion pipeline

    A shallow embedding of the four copies of the Telegram channel
    listener of this repository

      - [BotHandler]  : internal/tgc/bot_handler.go
      - [Standalone]  : internal/tgc/standalone_bot.go
      - [SimpleBot]   : backup_2025_05_10/simplebot_main.go
      - [Integrated]  : backup_2025_05_10_final/integrated_bot.go

    and of the wiring in cmd/run.go, followed by the properties of the
    pipeline that the specification states about them, and by further
    properties of the handlers, of the start-up code (the port, the
    token, the session key) and of the maintenance programs (the parent
    fix, the cleanup of duplicates, the categorizers).

    Conventions.  Go's [int64] is a [Z] with the wrap-around written out
    ([Int64.wrap]).  A Go [string] is a Rocq [string] (a sequence of
    bytes).  Interfaces of the gotd/td library become inductive types
    with one constructor per implementation the handlers distinguish; a
    nil interface value or nil pointer is [None].  The handlers have no
    result: they act on the database, on the UUID generator, on the
    clock and on the logger.  These four are the fields of the [World]
    threaded through the state monad [M].  The Unicode case tables of the
    Go toolchain, which [strings.ToLower] consults for a string with a
    byte outside ASCII, are a parameter ([unicode.Tables]); the examples
    are run with the tables of [Sample]. *)

From Stdlib Require Import ZArith String Ascii List Bool Lia DecimalString.
From Stdlib Require Import NArith Permutation.
From Stdlib Require DecimalFacts DecimalPos DecimalN DecimalZ.
Import ListNotations.

Local Open Scope string_scope.
Local Open Scope Z_scope.

(* ================================================================== *)
(** * Go base types and library functions *)
(* ================================================================== *)

(** ** int64 *)

Module Int64.

Definition min : Z := - 2 ^ 63.
Definition max : Z := 2 ^ 63 - 1.

Definition in_range (z : Z) : Prop := min <= z <= max.

(** Two's complement reduction of a mathematical integer. *)
Definition wrap (z : Z) : Z := (z + 2 ^ 63) mod 2 ^ 64 - 2 ^ 63.

(** [-x] and [a - b] on int64 values. *)
Definition neg (x : Z) : Z := wrap (- x).
Definition sub (a b : Z) : Z := wrap (a - b).

(** [a % b] on int64 values, for [b <> 0]: truncated remainder. *)
Definition rem (a b : Z) : Z := wrap (Z.rem a b).

End Int64.

(** ** Slices of a string: [s[i:]] and [s[:i]].

    Go panics when the bound exceeds the length; the handlers only slice
    at an index they have just computed inside the string, or take a
    prefix of the 36 bytes of a UUID. *)

Definition slice_from (s : string) (i : nat) : string :=
  substring i (String.length s - i) s.

Definition slice_to (s : string) (i : nat) : string :=
  substring 0 i s.

(** ** package unicode

    The case tables of the Unicode version of the Go toolchain enter the
    programs in one place: [strings.Map(unicode.ToLower, s)], to which
    [strings.ToLower] hands every string with a byte outside ASCII.  The
    tables belong to the toolchain, not to this repository: they are a
    parameter of the model, a class so that the handlers need not pass it
    around. *)

Module unicode.

Class Tables : Type := {
  (** [strings.Map(unicode.ToLower, s)] *)
  Map_ToLower : string -> string
}.

End unicode.

(** ** package strings *)

Module strings.

(** [strings.Contains(s, substr)] *)
Fixpoint Contains (s substr : string) : bool :=
  prefix substr s ||
  match s with
  | EmptyString => false
  | String _ rest => Contains rest substr
  end.

(** [strings.LastIndex(s, substr)]: the byte index of the last
    occurrence, [-1] when there is none.  [at_] is the index of the
    first byte of [s] in the whole string. *)
Fixpoint LastIndex_at (s substr : string) (at_ : Z) : Z :=
  match s with
  | EmptyString => if prefix substr EmptyString then at_ else -1
  | String _ rest =>
      let later := LastIndex_at rest substr (at_ + 1) in
      if 0 <=? later then later
      else if prefix substr s then at_ else -1
  end.

Definition LastIndex (s substr : string) : Z := LastIndex_at s substr 0.

(** [c < utf8.RuneSelf] for every byte [c] of [s] *)
Fixpoint isASCII (s : string) : bool :=
  match s with
  | EmptyString => true
  | String c rest => (nat_of_ascii c <? 128)%nat && isASCII rest
  end.

(** ['A' <= c && c <= 'Z'] for some byte [c] of [s] *)
Fixpoint hasUpper (s : string) : bool :=
  match s with
  | EmptyString => false
  | String c rest =>
      let n := nat_of_ascii c in
      ((65 <=? n)%nat && (n <=? 90)%nat) || hasUpper rest
  end.

(** [c += 'a' - 'A'] for the bytes ['A' <= c && c <= 'Z'] *)
Definition lower_byte (c : ascii) : ascii :=
  let n := nat_of_ascii c in
  if (65 <=? n)%nat && (n <=? 90)%nat then ascii_of_nat (n + 32) else c.

Fixpoint lower_bytes (s : string) : string :=
  match s with
  | EmptyString => EmptyString
  | String c rest => String (lower_byte c) (lower_bytes rest)
  end.

(** [strings.ToLower(s)]: a string of ASCII bytes is returned as it is
    when it has no upper-case letter, and with its upper-case letters
    lowered when it has; any other string goes through the Unicode
    tables. *)
Definition ToLower {tables : unicode.Tables} (s : string) : string :=
  if isASCII s then
    if negb (hasUpper s) then s else lower_bytes s
  else unicode.Map_ToLower s.

End strings.

(** ** package path/filepath (Unix: the separator is the slash) *)

Module filepath.

Definition IsPathSeparator (c : ascii) : bool := Ascii.eqb c "/"%char.

Fixpoint has_separator (s : string) : bool :=
  match s with
  | EmptyString => false
  | String c rest => IsPathSeparator c || has_separator rest
  end.

(** The suffix that [Ext] returns, when there is one: it starts at the
    last dot of the last element of the path. *)
Fixpoint ext_suffix (path : string) : option string :=
  match path with
  | EmptyString => None
  | String c rest =>
      match ext_suffix rest with
      | Some e => Some e
      | None =>
          if has_separator rest then None
          else if Ascii.eqb c "."%char then Some path
          else None
      end
  end.

(** [filepath.Ext(path)] *)
Definition Ext (path : string) : string :=
  match ext_suffix path with
  | Some e => e
  | None => EmptyString
  end.

(** [path] without its trailing separators, [None] when nothing else
    is left. *)
Fixpoint strip_trailing (path : string) : option string :=
  match path with
  | EmptyString => None
  | String c rest =>
      match strip_trailing rest with
      | Some r => Some (String c r)
      | None => if IsPathSeparator c then None
                else Some (String c EmptyString)
      end
  end.

(** What follows the last separator. *)
Fixpoint last_element (path : string) : string :=
  match path with
  | EmptyString => EmptyString
  | String c rest =>
      if has_separator rest then last_element rest
      else if IsPathSeparator c then rest
      else path
  end.

(** [filepath.Base(path)] *)
Definition Base (path : string) : string :=
  match path with
  | EmptyString => "."
  | _ =>
      match strip_trailing path with
      | None => "/"
      | Some p => last_element p
      end
  end.

End filepath.

(** ** packages fmt and strconv, on decimal numbers *)

Module fmt.

(** [fmt.Sprintf("%d", n)] *)
Definition Sprintf_d (n : Z) : string := NilEmpty.string_of_int (Z.to_int n).

End fmt.

Module strconv.

Definition is_digit (c : ascii) : bool :=
  let n := nat_of_ascii c in (48 <=? n)%nat && (n <=? 57)%nat.

Fixpoint digits_value (s : string) (acc : Z) : option Z :=
  match s with
  | EmptyString => Some acc
  | String c rest =>
      if is_digit c then
        digits_value rest (10 * acc + (Z.of_nat (nat_of_ascii c) - 48))
      else None
  end.

Definition in_int64 (v : option Z) : option Z :=
  match v with
  | Some z => if (Int64.min <=? z) && (z <=? Int64.max) then Some z else None
  | None => None
  end.

(** [strconv.ParseInt(s, 10, 64)]; [None] is a non-nil error. *)
Definition ParseInt (s : string) : option Z :=
  match s with
  | EmptyString => None
  | String c rest =>
      if Ascii.eqb c "-"%char then
        match rest with
        | EmptyString => None
        | _ => in_int64 (option_map Z.opp (digits_value rest 0))
        end
      else if Ascii.eqb c "+"%char then
        match rest with
        | EmptyString => None
        | _ => in_int64 (digits_value rest 0)
        end
      else in_int64 (digits_value s 0)
  end.

End strconv.

(* ================================================================== *)
(** * Channel identifiers *)
(* ================================================================== *)

(** The mapping from the configured channel id to the id that inbound
    messages carry, as botUpdateHandler.Handle, StandaloneBotHandler.Start,
    standaloneUpdateHandler.handleChannelMessage and the integrated
    handler all write it:
<<
    actual := channelId
    if channelId < 0 {
        if channelId < -1000000000000 {
            actual = -channelId - 1000000000000
        } else if channelId < -1000000 {
            actual = -channelId - 1000000
        }
    }
>> *)
Definition normalize (channelId : Z) : Z :=
  if channelId <? 0 then
    if channelId <? -1000000000000 then
      Int64.sub (Int64.neg channelId) 1000000000000
    else if channelId <? -1000000 then
      Int64.sub (Int64.neg channelId) 1000000
    else channelId
  else channelId.

(** The two classes of channel of the platform. *)
Inductive ChannelClass : Type := Broadcast | Legacy.

(** The conversion of a positive configured id in runApplication
    (cmd/run.go): [actualChannelID = -1000000000000 - conf.Bot.ChannelId]. *)
Definition to_bot_format (ChannelId : Z) : Z :=
  if 0 <? ChannelId then Int64.sub (-1000000000000) ChannelId
  else ChannelId.

(** Modelled from the spec: the source has no function from an internal id
    to the public one, apart from the broadcast case in runApplication
    above.  The specification gives [public = -(10^12 + internal)] for the
    broadcast class and [public = -(10^6 + internal)] for the legacy
    class. *)
Definition denormalize (internalId : Z) (class : ChannelClass) : Z :=
  match class with
  | Broadcast => Int64.wrap (- (10 ^ 12 + internalId))
  | Legacy => Int64.wrap (- (10 ^ 6 + internalId))
  end.

(** The internal ids whose public encoding exists: it is an int64 and it
    lies in the range of its class, below [-10^12] for the broadcast
    class, in [[-10^12, -10^6)] for the legacy class. *)
Definition valid_internal (class : ChannelClass) (x : Z) : Prop :=
  match class with
  | Broadcast => 0 < x /\ Int64.min <= - (10 ^ 12 + x)
  | Legacy => 0 < x /\ - 10 ^ 12 <= - (10 ^ 6 + x)
  end.

(** The two documented ranges of a configured id. *)
Definition in_broadcast_range (c : Z) : Prop := Int64.min <= c < - 10 ^ 12.
Definition in_legacy_range (c : Z) : Prop := - 10 ^ 12 <= c < - 10 ^ 6.
Definition outside_ranges (c : Z) : Prop := - 10 ^ 6 <= c <= Int64.max.

(* ================================================================== *)
(** * The platform's data: package tg of gotd/td *)
(* ================================================================== *)

Module tg.

(** [tg.PeerClass] *)
Inductive PeerClass : Type :=
| PeerUser (UserID : Z)
| PeerChat (ChatID : Z)
| PeerChannel (ChannelID : Z).

(** [tg.DocumentAttributeClass] *)
Inductive DocumentAttributeClass : Type :=
| DocumentAttributeImageSize (W H : Z)
| DocumentAttributeAnimated
| DocumentAttributeSticker
| DocumentAttributeVideo (Duration : Z)
| DocumentAttributeAudio (Duration : Z)
| DocumentAttributeFilename (FileName : string)
| DocumentAttributeHasStickers.

(** [tg.DocumentClass] *)
Inductive DocumentClass : Type :=
| DocumentEmpty (ID : Z)
| Document (ID : Z) (Size : Z) (Attributes : list DocumentAttributeClass).

(** [tg.MessageMediaClass]; the document of a [MessageMediaDocument]
    is optional. *)
Inductive MessageMediaClass : Type :=
| MessageMediaEmpty
| MessageMediaPhoto
| MessageMediaGeo
| MessageMediaContact
| MessageMediaUnsupported
| MessageMediaDocument (document : option DocumentClass)
| MessageMediaWebPage.

(** [tg.MessageClass]; the media of a [Message] is optional. *)
Inductive MessageClass : Type :=
| MessageEmpty (ID : Z)
| Message (ID : Z) (PeerID : PeerClass) (Media : option MessageMediaClass)
          (Date : Z)
| MessageService (ID : Z) (PeerID : PeerClass).

(** [tg.UpdateClass] *)
Inductive UpdateClass : Type :=
| UpdateNewMessage (message : MessageClass)
| UpdateNewChannelMessage (message : MessageClass)
| UpdateEditChannelMessage (message : MessageClass)
| UpdateDeleteChannelMessages (ChannelID : Z) (Messages : list Z)
| UpdateChannelTooLong (ChannelID : Z)
| UpdateChannel (ChannelID : Z).

(** [tg.UpdatesClass] *)
Inductive UpdatesClass : Type :=
| UpdatesTooLong
| UpdateShortMessage (ID UserID : Z) (text : string)
| UpdateShortChatMessage (ID FromID ChatID : Z) (text : string)
| UpdateShort (update : UpdateClass) (Date : Z)
| UpdatesCombined (updates : list UpdateClass)
| Updates (updates : list UpdateClass)
| UpdateShortSentMessage (ID : Z).

End tg.

(** The loop over [document.Attributes] that every handler starts with:
    the name of the first filename attribute, the empty string when
    there is none. *)
Fixpoint findFileName (Attributes : list tg.DocumentAttributeClass) : string :=
  match Attributes with
  | [] => ""
  | tg.DocumentAttributeFilename FileName :: _ => FileName
  | _ :: rest => findFileName rest
  end.

Definition isFilename (a : tg.DocumentAttributeClass) : bool :=
  match a with
  | tg.DocumentAttributeFilename _ => true
  | _ => false
  end.

(* ================================================================== *)
(** * Time *)
(* ================================================================== *)

Module time.

(** A [time.Time], as far as the layout the handlers print needs it. *)
Record Time : Type := mkTime {
  year : nat; month : nat; day : nat;
  hour : nat; minute : nat; second : nat
}.

Definition digit (n : nat) : ascii := ascii_of_nat (48 + n mod 10).

Definition pad2 (n : nat) : string :=
  String (digit (n / 10)) (String (digit n) EmptyString).

Definition pad4 (n : nat) : string :=
  String (digit (n / 1000)) (String (digit (n / 100)) (pad2 n)).

(** [t.Format("20060102_150405")] *)
Definition Format_20060102_150405 (t : Time) : string :=
  (pad4 (year t) ++ pad2 (month t) ++ pad2 (day t) ++ "_" ++
   pad2 (hour t) ++ pad2 (minute t) ++ pad2 (second t))%string.

End time.

(* ================================================================== *)
(** * The catalog: models.File and the statements sent to the store *)
(* ================================================================== *)

Module models.

(** [models.File], with the fields the handlers fill.  The parts are
    always the empty list, sent as the literal [[]]. *)
Record File : Type := mkFile {
  ID : string;
  Name : string;
  Type_ : string;
  MimeType : string;
  Size : option Z;
  Category : string;
  Encrypted : bool;
  UserId : Z;
  Status : string;
  ChannelId : option Z;
  ParentId : option string;
  CreatedAt : time.Time;
  UpdatedAt : time.Time
}.

Definition with_Name (f : File) (n : string) : File :=
  mkFile (ID f) n (Type_ f) (MimeType f) (Size f) (Category f)
         (Encrypted f) (UserId f) (Status f) (ChannelId f) (ParentId f)
         (CreatedAt f) (UpdatedAt f).

Definition with_ID (f : File) (i : string) : File :=
  mkFile i (Name f) (Type_ f) (MimeType f) (Size f) (Category f)
         (Encrypted f) (UserId f) (Status f) (ChannelId f) (ParentId f)
         (CreatedAt f) (UpdatedAt f).

End models.

(** The two INSERT statements of the handlers, with their arguments.

    [InsertFile] is the statement of BotHandler, Standalone and SimpleBot
    over the fourteen columns id, name, type, mime_type, size, category,
    encrypted, user_id, status, channel_id, parent_id, created_at,
    updated_at, parts.

    [InsertBasic] is the statement of Integrated over the nine columns
    id, name, size, type, user_id, parent_id, mime_type, created_at,
    updated_at. *)
Inductive Stmt : Type :=
| InsertFile (file : models.File)
| InsertBasic (id name : string) (size : Z) (type : string) (user_id : Z)
              (parent_id : option string) (mime_type : string)
              (created_at updated_at : time.Time).

(** A row of teldrive.files as a statement gives it; [None] is a NULL or
    a column the statement does not list. *)
Record Row : Type := mkRow {
  row_id : string;
  row_name : string;
  row_type : string;
  row_mime_type : string;
  row_size : option Z;
  row_category : option string;
  row_encrypted : option bool;
  row_user_id : Z;
  row_status : option string;
  row_channel_id : option Z;
  row_parent_id : option string;
  row_created_at : time.Time;
  row_updated_at : time.Time
}.

Definition stmt_row (q : Stmt) : Row :=
  match q with
  | InsertFile f =>
      mkRow (models.ID f) (models.Name f) (models.Type_ f)
            (models.MimeType f) (models.Size f) (Some (models.Category f))
            (Some (models.Encrypted f)) (models.UserId f)
            (Some (models.Status f)) (models.ChannelId f)
            (models.ParentId f) (models.CreatedAt f) (models.UpdatedAt f)
  | InsertBasic id name size type user_id parent_id mime_type created updated =>
      mkRow id name type mime_type (Some size) None None user_id None None
            parent_id created updated
  end.

(** The result of [db.Exec]: [Error] is [None] for nil, else the text of
    [err.Error()]. *)
Record ExecResult : Type := mkExecResult {
  Error : option string;
  RowsAffected : Z
}.

(** The store, as the handlers use a [*gorm.DB]. *)
Class Store (S : Type) : Type := {
  (** [db.Raw("SELECT 1").Scan(&result).Error] *)
  SelectOne : S -> option string;
  (** [db.Exec(sql, args...)] *)
  Exec : S -> Stmt -> S * ExecResult;
  (** [db.Table("teldrive.files").Where("name = ? AND user_id = ?", name,
      user).First(&f).Error] *)
  FirstByName : S -> string -> Z -> option string;
  (** the rows of teldrive.files *)
  catalog : S -> list Row
}.

(** A statement that fails leaves the rows as they were. *)
Class StoreLaws (S : Type) `{Store S} : Prop := {
  Exec_error_catalog :
    forall (s s' : S) (q : Stmt) (r : ExecResult),
      Exec s q = (s', r) -> Error r <> None -> catalog s' = catalog s
}.

(* ================================================================== *)
(** * The world of a handler and its monad *)
(* ================================================================== *)

Inductive Level : Type := Warn | Err.

(** The world: the store, the statements executed so far (oldest first),
    the entries logged at level Warn or Error (oldest first), the UUID
    generator and the clock.  The generator and the clock are a sequence
    of values and the position of the next one.  Entries logged at level
    Info or Debug and the debug files the handlers append to are not part
    of the model. *)
Record World (S : Type) : Type := mkWorld {
  db : S;
  execs : list Stmt;
  logs : list (Level * string);
  uuid_src : nat -> string;
  uuid_pos : nat;
  clock_src : nat -> time.Time;
  clock_pos : nat
}.

Arguments mkWorld {S}.
Arguments db {S}.
Arguments execs {S}.
Arguments logs {S}.
Arguments uuid_src {S}.
Arguments uuid_pos {S}.
Arguments clock_src {S}.
Arguments clock_pos {S}.

Section Effects.

Context {S : Type} `{Store S} {tables : unicode.Tables}.

Definition M (A : Type) : Type := World S -> A * World S.

Definition ret {A : Type} (a : A) : M A := fun w => (a, w).

Definition bind {A B : Type} (m : M A) (k : A -> M B) : M B :=
  fun w => let (a, w') := m w in k a w'.

(** [uuid.New().String()] *)
Definition uuid_New : M string :=
  fun w =>
    (uuid_src w (uuid_pos w),
     mkWorld (db w) (execs w) (logs w) (uuid_src w) (Datatypes.S (uuid_pos w))
             (clock_src w) (clock_pos w)).

(** [time.Now()] *)
Definition time_Now : M time.Time :=
  fun w =>
    (clock_src w (clock_pos w),
     mkWorld (db w) (execs w) (logs w) (uuid_src w) (uuid_pos w)
             (clock_src w) (Datatypes.S (clock_pos w))).

Definition db_SelectOne : M (option string) :=
  fun w => (SelectOne (db w), w).

Definition db_FirstByName (name : string) (user : Z) : M (option string) :=
  fun w => (FirstByName (db w) name user, w).

Definition db_Exec (q : Stmt) : M ExecResult :=
  fun w =>
    let (s', r) := Exec (db w) q in
    (r, mkWorld s' (execs w ++ [q])%list (logs w) (uuid_src w) (uuid_pos w)
                (clock_src w) (clock_pos w)).

Definition logger (lvl : Level) (msg : string) : M unit :=
  fun w =>
    (tt, mkWorld (db w) (execs w) (logs w ++ [(lvl, msg)])%list (uuid_src w)
                 (uuid_pos w) (clock_src w) (clock_pos w)).

(** [for _, x := range xs { body }] *)
Fixpoint forEach {A : Type} (xs : list A) (body : A -> M unit) : M unit :=
  match xs with
  | [] => ret tt
  | x :: rest => bind (body x) (fun _ => forEach rest body)
  end.

End Effects.

Declare Scope go_scope.
Delimit Scope go_scope with go.
Notation "x <- m ;; k" := (bind m (fun x => k))
  (at level 100, m at next level, right associativity) : go_scope.
Notation "m ;;; k" := (bind m (fun _ => k))
  (at level 100, right associativity) : go_scope.
Local Open Scope go_scope.

(** The owner of every entry the handlers create. *)
Definition ingesting_user : Z := 7331706161.

Definition octet_stream : string := "application/octet-stream".

(** [*tg.PeerChannel] as the dynamic type of [msg.PeerID]. *)
Definition isPeerChannel (p : tg.PeerClass) : bool :=
  match p with
  | tg.PeerChannel _ => true
  | _ => false
  end.

(* ================================================================== *)
(** * internal/tgc/standalone_bot.go *)
(* ================================================================== *)

Module Standalone.
Section Handler.

Context {S : Type} `{Store S} {tables : unicode.Tables}.

(** [h.bot.channelId] *)
Variable channelId : Z.

Definition duplicate_key : string :=
  "duplicate key value violates unique constraint".

(** [processDocument(ctx, doc, channelID)]; [document] is
    [doc.Document]. *)
Definition processDocument (document : option tg.DocumentClass)
           (channelID : Z) : M unit :=
  match document with
  | Some (tg.Document _ Size Attributes) =>
      let fileName := findFileName Attributes in
      if String.eqb fileName "" then
        logger Warn "Document has no filename attribute"
      else
        let size := Size in
        fileID <- uuid_New ;;
        created <- time_Now ;;
        updated <- time_Now ;;
        let file :=
          models.mkFile fileID fileName "file" octet_stream (Some size)
                        "document" false ingesting_user "active"
                        (Some channelID) None created updated in
        ping <- db_SelectOne ;;
        match ping with
        | Some _ => logger Err "Database connection test failed"
        | None =>
            r <- db_Exec (InsertFile file) ;;
            match Error r with
            | Some err =>
                if strings.Contains err duplicate_key then
                  now <- time_Now ;;
                  let timestamp := time.Format_20060102_150405 now in
                  let originalName := models.Name file in
                  let file :=
                    models.with_Name file
                      (originalName ++ "_" ++ timestamp)%string in
                  newID <- uuid_New ;;
                  let file := models.with_ID file newID in
                  r2 <- db_Exec (InsertFile file) ;;
                  match Error r2 with
                  | Some _ =>
                      logger Err "Failed to insert file with modified name"
                  | None => ret tt
                  end
                else
                  logger Err "Failed to insert file into database"
            | None => ret tt
            end
        end
  | _ => logger Err "Failed to cast document to *tg.Document"
  end.

(** [handleChannelMessage(ctx, update)]; [message] is
    [update.Message]. *)
Definition handleChannelMessage (message : tg.MessageClass) : M unit :=
  match message with
  | tg.Message _ PeerID Media _ =>
      match PeerID with
      | tg.PeerChannel channelID =>
          let actualConfiguredChannelID := normalize channelId in
          if (channelID =? channelId) ||
             (channelID =? actualConfiguredChannelID) then
            match Media with
            | Some (tg.MessageMediaDocument document) =>
                processDocument document channelID
            | _ => ret tt
            end
          else ret tt
      | _ => ret tt
      end
  | _ => logger Err "Failed to cast message to *tg.Message"
  end.

(** [Handle(ctx, updates)] *)
Definition Handle (updates : tg.UpdatesClass) : M unit :=
  match updates with
  | tg.Updates us =>
      forEach us (fun update =>
        match update with
        | tg.UpdateNewChannelMessage message => handleChannelMessage message
        | _ => ret tt
        end)
  | tg.UpdateShort update _ =>
      match update with
      | tg.UpdateNewChannelMessage message => handleChannelMessage message
      | _ => ret tt
      end
  | _ => ret tt
  end.

End Handler.
End Standalone.

(* ================================================================== *)
(** * internal/tgc/bot_handler.go *)
(* ================================================================== *)

Module BotHandler.
Section Handler.

Context {S : Type} `{Store S} {tables : unicode.Tables}.

(** [h.channelId] *)
Variable channelId : Z.

(** The checks at the head of [Start]; [None] when they pass and the
    client is created. *)
Definition Start_validate (botToken : string) : option string :=
  if String.eqb botToken "" then Some "bot token is required"
  else if channelId =? 0 then Some "channel ID is required"
  else None.

(** [handleNewMessage(ctx, update)]; [message] is [update.Message]. *)
Definition handleNewMessage (message : tg.MessageClass) : M unit :=
  match message with
  | tg.Message _ _ Media _ =>
      match Media with
      | Some (tg.MessageMediaDocument doc) =>
          match doc with
          | Some (tg.Document _ Size Attributes) =>
              let fileName := findFileName Attributes in
              if String.eqb fileName "" then
                logger Warn "Document has no filename attribute"
              else
                let size := Size in
                let channelID := channelId in
                fileID <- uuid_New ;;
                created <- time_Now ;;
                updated <- time_Now ;;
                let file :=
                  models.mkFile fileID fileName "file" octet_stream
                                (Some size) "document" false ingesting_user
                                "active" (Some channelID) None created
                                updated in
                ping <- db_SelectOne ;;
                match ping with
                | Some _ => logger Err "Database connection test failed"
                | None =>
                    r <- db_Exec (InsertFile file) ;;
                    match Error r with
                    | Some _ =>
                        logger Err "Failed to insert file into database"
                    | None => ret tt
                    end
                end
          | _ => logger Err "Failed to cast document to *tg.Document"
          end
      | _ => ret tt
      end
  | _ => logger Err "Failed to cast message to *tg.Message"
  end.

(** The body of the loop of [Handle] over the updates of a batch. *)
Definition Handle_update (update : tg.UpdateClass) : M unit :=
  match update with
  | tg.UpdateNewChannelMessage (tg.Message ID PeerID Media Date) =>
      match PeerID with
      | tg.PeerChannel channelID =>
          let actualConfiguredChannelID := normalize channelId in
          if (channelID =? channelId) ||
             (channelID =? actualConfiguredChannelID) then
            handleNewMessage (tg.Message ID PeerID Media Date)
          else ret tt
      | _ => ret tt
      end
  | _ => ret tt
  end.

(** [Handle(ctx, updates)] *)
Definition Handle (updates : tg.UpdatesClass) : M unit :=
  match updates with
  | tg.Updates us => forEach us Handle_update
  | tg.UpdateShort _ _ => ret tt
  | tg.UpdatesTooLong => ret tt
  | _ => ret tt
  end.

End Handler.
End BotHandler.

(* ================================================================== *)
(** * backup_2025_05_10_final/integrated_bot.go *)
(* ================================================================== *)

Module Integrated.
Section Handler.

Context {S : Type} `{Store S} {tables : unicode.Tables}.

(** [h.bot.channelId] and [h.bot.parentId] *)
Variable channelId : Z.
Variable parentId : string.

(** The switch of [processDocument] on the lower-cased extension. *)
Definition mimeTypeOfExt (ext : string) : string :=
  let e := strings.ToLower ext in
  if String.eqb e ".jpg" || String.eqb e ".jpeg" then "image/jpeg"
  else if String.eqb e ".png" then "image/png"
  else if String.eqb e ".gif" then "image/gif"
  else if String.eqb e ".pdf" then "application/pdf"
  else if String.eqb e ".mp4" then "video/mp4"
  else if String.eqb e ".mp3" then "audio/mpeg"
  else if String.eqb e ".txt" then "text/plain"
  else if String.eqb e ".doc" || String.eqb e ".docx" then
    "application/msword"
  else if String.eqb e ".xls" || String.eqb e ".xlsx" then
    "application/vnd.ms-excel"
  else if String.eqb e ".zip" then "application/zip"
  else if String.eqb e ".exe" then "application/x-msdownload"
  else octet_stream.

(** "Determine mime type based on file extension" *)
Definition mimeTypeFor (fileName : string) : string :=
  let ext := filepath.Ext fileName in
  if negb (String.eqb ext "") then mimeTypeOfExt ext else octet_stream.

(** The name given to a document when an entry of its name exists. *)
Definition uniqueName (fileName timestamp uniqueID : string) : string :=
  let idx := strings.LastIndex fileName "." in
  let ext := if 0 <=? idx then slice_from fileName (Z.to_nat idx)
             else "" in
  let baseName := if 0 <=? idx then slice_to fileName (Z.to_nat idx)
                  else fileName in
  (baseName ++ "_" ++ timestamp ++ "_" ++ uniqueID ++ ext)%string.

(** [processDocument(ctx, doc, channelID)] *)
Definition processDocument (document : option tg.DocumentClass)
           (channelID : Z) : M unit :=
  match document with
  | Some (tg.Document _ Size Attributes) =>
      let fileName := findFileName Attributes in
      if String.eqb fileName "" then
        logger Warn "Document has no filename attribute"
      else
        err <- db_FirstByName fileName ingesting_user ;;
        fileName <-
          match err with
          | None =>
              now <- time_Now ;;
              let timestamp := time.Format_20060102_150405 now in
              u <- uuid_New ;;
              let uniqueID := slice_to u 8 in
              ret (uniqueName fileName timestamp uniqueID)
          | Some _ => ret fileName
          end ;;
        let size := Size in
        fileID <- uuid_New ;;
        let parentIDValue :=
          if negb (String.eqb parentId "") then Some parentId else None in
        let mimeType := mimeTypeFor fileName in
        created <- time_Now ;;
        updated <- time_Now ;;
        result <- db_Exec (InsertBasic fileID fileName size "file"
                                       ingesting_user parentIDValue mimeType
                                       created updated) ;;
        match Error result with
        | Some _ => logger Err "Failed to insert file into database"
        | None =>
            if RowsAffected result =? 0 then
              logger Warn "No rows affected when inserting file"
            else ret tt
        end
  | _ => logger Err "Failed to cast document to *tg.Document"
  end.

(** [handleChannelMessage(ctx, update)] *)
Definition handleChannelMessage (message : tg.MessageClass) : M unit :=
  match message with
  | tg.Message _ PeerID Media _ =>
      match PeerID with
      | tg.PeerChannel channelID =>
          let actualConfiguredChannelID := normalize channelId in
          if (channelID =? channelId) ||
             (channelID =? actualConfiguredChannelID) then
            match Media with
            | Some (tg.MessageMediaDocument document) =>
                processDocument document channelID
            | _ => ret tt
            end
          else ret tt
      | _ => ret tt
      end
  | _ => logger Err "Failed to cast message to *tg.Message"
  end.

(** [Handle(ctx, updates)] *)
Definition Handle (updates : tg.UpdatesClass) : M unit :=
  match updates with
  | tg.Updates us =>
      forEach us (fun update =>
        match update with
        | tg.UpdateNewChannelMessage message => handleChannelMessage message
        | _ => ret tt
        end)
  | tg.UpdateShort update _ =>
      match update with
      | tg.UpdateNewChannelMessage message => handleChannelMessage message
      | _ => ret tt
      end
  | _ => ret tt
  end.

End Handler.
End Integrated.

(* ================================================================== *)
(** * backup_2025_05_10/simplebot_main.go *)
(* ================================================================== *)

Module SimpleBot.
Section Handler.

Context {S : Type} `{Store S} {tables : unicode.Tables}.

(** [h.channelID] and [h.parentID] *)
Variable channelID_conf : Z.
Variable parentID : string.

(** [mime.TypeByExtension], the table of the Go library and of the
    host system. *)
Variable TypeByExtension : string -> string.

Definition duplicate_key : string := "duplicate key value".

(** "Get MIME type from the document": the loop over the attributes. *)
Fixpoint mimeTypeOf (Attributes : list tg.DocumentAttributeClass) : string :=
  match Attributes with
  | [] => octet_stream
  | tg.DocumentAttributeFilename FileName :: _ =>
      let ext := filepath.Ext FileName in
      let mimeType := TypeByExtension ext in
      if String.eqb mimeType "" then octet_stream else mimeType
  | _ :: rest => mimeTypeOf rest
  end.

(** [processDocument(ctx, doc, channelID)] *)
Definition processDocument (document : option tg.DocumentClass)
           (channelID : Z) : M unit :=
  match document with
  | Some (tg.Document _ Size Attributes) =>
      let fileName := findFileName Attributes in
      if String.eqb fileName "" then
        logger Warn "Document has no filename attribute"
      else
        let size := Size in
        let mimeType := mimeTypeOf Attributes in
        fileID <- uuid_New ;;
        created <- time_Now ;;
        updated <- time_Now ;;
        let file :=
          models.mkFile fileID fileName "file" mimeType (Some size)
                        "document" false ingesting_user "active"
                        (Some channelID) (Some parentID) created updated in
        ping <- db_SelectOne ;;
        match ping with
        | Some _ => logger Err "Database connection test failed"
        | None =>
            r <- db_Exec (InsertFile file) ;;
            match Error r with
            | Some err =>
                if strings.Contains err duplicate_key then
                  now <- time_Now ;;
                  let timestamp := time.Format_20060102_150405 now in
                  u <- uuid_New ;;
                  let randomSuffix := slice_to u 8 in
                  let newFileName :=
                    (fileName ++ "_" ++ timestamp ++ "_" ++ randomSuffix)%string in
                  newID <- uuid_New ;;
                  let file := models.with_ID file newID in
                  let file := models.with_Name file newFileName in
                  r2 <- db_Exec (InsertFile file) ;;
                  match Error r2 with
                  | Some err2 =>
                      if strings.Contains err2 duplicate_key then
                        newID2 <- uuid_New ;;
                        let file := models.with_ID file newID2 in
                        u2 <- uuid_New ;;
                        let randomName :=
                          (slice_to u2 12 ++ "_" ++ filepath.Base fileName)%string in
                        let file := models.with_Name file randomName in
                        r3 <- db_Exec (InsertFile file) ;;
                        match Error r3 with
                        | Some _ =>
                            logger Err "Failed to insert file with random name"
                        | None => ret tt
                        end
                      else
                        logger Err "Failed to insert file with modified name"
                  | None => ret tt
                  end
                else
                  logger Err "Failed to insert file into database"
            | None => ret tt
            end
        end
  | _ => logger Err "Failed to cast document to *tg.Document"
  end.

(** The configured id as [handleChannelMessage] compares it with the id
    of a message: the decimal digits after a leading 100. *)
Definition actualConfiguredID : Z :=
  if channelID_conf <? 0 then
    if channelID_conf <=? -1000000000 then
      let strID := fmt.Sprintf_d (Int64.neg channelID_conf) in
      if (3 <? String.length strID)%nat && String.eqb (slice_to strID 3) "100"
      then
        match strconv.ParseInt (slice_from strID 3) with
        | Some actualID => actualID
        | None => Int64.rem (Int64.neg channelID_conf) 1000000000
        end
      else Int64.rem (Int64.neg channelID_conf) 1000000000
    else Int64.neg channelID_conf
  else channelID_conf.

(** [handleChannelMessage(ctx, update)] *)
Definition handleChannelMessage (message : tg.MessageClass) : M unit :=
  match message with
  | tg.Message _ PeerID Media _ =>
      match PeerID with
      | tg.PeerChannel channelID =>
          if channelID =? actualConfiguredID then
            match Media with
            | Some (tg.MessageMediaDocument document) =>
                processDocument document channelID
            | _ => ret tt
            end
          else ret tt
      | _ => ret tt
      end
  | _ => logger Err "Failed to cast message to *tg.Message"
  end.

(** [Handle(ctx, updates)] *)
Definition Handle (updates : tg.UpdatesClass) : M unit :=
  match updates with
  | tg.Updates us =>
      forEach us (fun update =>
        match update with
        | tg.UpdateNewChannelMessage message => handleChannelMessage message
        | _ => ret tt
        end)
  | tg.UpdateShort update _ =>
      match update with
      | tg.UpdateNewChannelMessage message => handleChannelMessage message
      | _ => ret tt
      end
  | _ => ret tt
  end.

End Handler.
End SimpleBot.

(* ================================================================== *)
(** * cmd/run.go: the handlers runApplication starts *)
(* ================================================================== *)

Module run.

(** [conf.Bot] *)
Record BotConfig : Type := mkBotConfig {
  BotToken : string;
  ChannelId : Z;
  ParentId : string;
  Enabled : bool
}.

(** The channel id given to [NewBotHandler]. *)
Definition botHandler_channelId (conf : BotConfig) : Z := ChannelId conf.

(** The channel id and parent id given to [NewIntegratedBotHandler],
    when the integrated bot is enabled. *)
Definition integratedBot_args (conf : BotConfig) : option (Z * string) :=
  if Enabled conf then
    Some (to_bot_format (ChannelId conf), ParentId conf)
  else None.

End run.

(* ================================================================== *)
(** * Replaying statements against a store *)
(* ================================================================== *)

Section Replay.

Context {S : Type} `{Store S} {tables : unicode.Tables}.

(** The store after a sequence of statements. *)
Fixpoint replay (s : S) (qs : list Stmt) : S :=
  match qs with
  | [] => s
  | q :: rest => replay (fst (Exec s q)) rest
  end.

(** The answer is an error whose text has [key] in it. *)
Definition collides (key : string) (r : ExecResult) : bool :=
  match Error r with
  | Some err => strings.Contains err key
  | None => false
  end.


End Replay.

(* ================================================================== *)
(** * A store to run the handlers on *)
(* ================================================================== *)

(** A table with a unique index on the name, a primary key on the id and
    a foreign key from the parent to the id of a folder, behind a
    connection that is up or down.  The errors carry the texts of
    PostgreSQL, without the quotes around the constraint names. *)
Module Pg.

Record State : Type := mkState {
  table : list Row;
  online : bool
}.

Definition connection_refused : string :=
  "failed to connect to host: connection refused".

Definition unique_violation : string :=
  "ERROR: duplicate key value violates unique constraint unique_file (SQLSTATE 23505)".

Definition pkey_violation : string :=
  "ERROR: duplicate key value violates unique constraint files_pkey (SQLSTATE 23505)".

Definition foreign_key_violation : string :=
  "ERROR: insert or update on table files violates foreign key constraint files_parent_id_fkey (SQLSTATE 23503)".

Definition record_not_found : string := "record not found".

Definition has_id (t : list Row) (id : string) : bool :=
  existsb (fun x => String.eqb (row_id x) id) t.

Definition has_name (t : list Row) (name : string) : bool :=
  existsb (fun x => String.eqb (row_name x) name) t.

Definition is_folder (id : string) (x : Row) : bool :=
  String.eqb (row_id x) id && String.eqb (row_type x) "folder".

Definition parent_missing (t : list Row) (r : Row) : bool :=
  match row_parent_id r with
  | Some p => negb (existsb (is_folder p) t)
  | None => false
  end.

Definition exec (s : State) (q : Stmt) : State * ExecResult :=
  let r := stmt_row q in
  if negb (online s) then (s, mkExecResult (Some connection_refused) 0)
  else if parent_missing (table s) r then
    (s, mkExecResult (Some foreign_key_violation) 0)
  else if has_id (table s) (row_id r) then
    (s, mkExecResult (Some pkey_violation) 0)
  else if has_name (table s) (row_name r) then
    (s, mkExecResult (Some unique_violation) 0)
  else (mkState (table s ++ [r]) (online s), mkExecResult None 1).

Definition selectOne (s : State) : option string :=
  if online s then None else Some connection_refused.

Definition firstByName (s : State) (name : string) (user : Z) : option string :=
  if negb (online s) then Some connection_refused
  else if existsb (fun x => String.eqb (row_name x) name &&
                            (row_user_id x =? user)) (table s)
  then None else Some record_not_found.

#[global] Instance store : Store State := {
  SelectOne := selectOne;
  Exec := exec;
  FirstByName := firstByName;
  catalog := table
}.

End Pg.

(** A second store: a standby that answers the connection test and the
    lookups, and turns every write down. *)
Module Standby.

Record State : Type := mkState {
  table : list Row
}.

Definition read_only : string :=
  "ERROR: cannot execute INSERT in a read-only transaction (SQLSTATE 25006)".

Definition exec (s : State) (q : Stmt) : State * ExecResult :=
  (s, mkExecResult (Some read_only) 0).

Definition firstByName (s : State) (name : string) (user : Z) : option string :=
  if existsb (fun x => String.eqb (row_name x) name &&
                       (row_user_id x =? user)) (table s)
  then None else Some Pg.record_not_found.

#[global] Instance store : Store State := {
  SelectOne := fun _ => None;
  Exec := exec;
  FirstByName := firstByName;
  catalog := table
}.

End Standby.

(** Worlds to run the handlers in. *)
Module Sample.

Definition digits8 (n : nat) : string :=
  (time.pad4 (n / 100 / 100) ++ time.pad4 n)%string.

(** The n-th UUID of the sample generator: 36 bytes, distinct for
    distinct n below 10^8. *)
Definition uuid (n : nat) : string :=
  (digits8 n ++ "-0000-4000-8000-000000000000")%string.

(** The clock: 10 May 2025, 12:00:00, one second per reading. *)
Definition clock (n : nat) : time.Time :=
  time.mkTime 2025 5 10 12 (n / 60) (n mod 60).

Definition world (rows : list Row) (up : bool) : World Pg.State :=
  mkWorld (Pg.mkState rows up) [] [] uuid 0%nat clock 0%nat.


(** An entry of the given name, as an earlier ingestion left it. *)
Definition entry (id name : string) : Row :=
  mkRow id name "file" octet_stream (Some 1) (Some "document") (Some false)
        ingesting_user (Some "active") (Some 2523726746) None
        (clock 0) (clock 0).

(** A directory of the catalog. *)
Definition folder (id name : string) : Row :=
  mkRow id name "folder" "drive/folder" None None None ingesting_user
        (Some "active") None None (clock 0) (clock 0).

Definition document (name : string) (size : Z) : option tg.DocumentClass :=
  Some (tg.Document 77 size
          [tg.DocumentAttributeImageSize 10 10;
           tg.DocumentAttributeFilename name]).

Definition message (peer : tg.PeerClass) (name : string) : tg.MessageClass :=
  tg.Message 1 peer (Some (tg.MessageMediaDocument (document name 1024)))
             1746878400.

(** The Kelvin sign U+212A and the capital I with a dot above U+0130, in
    UTF-8: the two letters outside ASCII whose lower case is an ASCII
    letter (k and i). *)
Definition kelvin : string := String "226" (String "132" (String "170" "")).
Definition dotted_I : string := String "196" (String "176" "").

(** The Unicode tables of the examples: they lower the ASCII letters and
    these two letters, and keep every other byte. *)
Fixpoint lower_sample (s : string) : string :=
  match s with
  | EmptyString => EmptyString
  | String c rest =>
      if prefix kelvin s then
        match rest with
        | String _ (String _ rest') => String "k" (lower_sample rest')
        | _ => EmptyString
        end
      else if prefix dotted_I s then
        match rest with
        | String _ rest' => String "i" (lower_sample rest')
        | _ => EmptyString
        end
      else String (strings.lower_byte c) (lower_sample rest)
  end.

Definition tables : unicode.Tables := {|
  unicode.Map_ToLower := lower_sample
|}.

End Sample.

(* ================================================================== *)
(** * The vocabulary of the properties *)
(* ================================================================== *)

(** The message an update carries. *)
Definition carried_message (u : tg.UpdateClass) : option tg.MessageClass :=
  match u with
  | tg.UpdateNewMessage m => Some m
  | tg.UpdateNewChannelMessage m => Some m
  | tg.UpdateEditChannelMessage m => Some m
  | _ => None
  end.

(** The update carries a message whose peer is a user or a basic group. *)
Definition from_non_channel (u : tg.UpdateClass) : bool :=
  match carried_message u with
  | Some (tg.Message _ PeerID _ _) => negb (isPeerChannel PeerID)
  | _ => false
  end.

Definition direct_messages : list tg.UpdateClass :=
  [tg.UpdateNewMessage (Sample.message (tg.PeerUser 42) "report.pdf");
   tg.UpdateNewChannelMessage (Sample.message (tg.PeerChat 7) "notes.txt")].

(** The test of BotHandler, Standalone and Integrated on the channel id
    of a message: "Check both the direct ID and the processed ID". *)
Definition accepts (channelId channelID : Z) : bool :=
  (channelID =? channelId) || (channelID =? normalize channelId).

(** A channel message that this test turns away. *)
Definition turned_away (channelId : Z) (u : tg.UpdateClass) : bool :=
  match u with
  | tg.UpdateNewChannelMessage (tg.Message _ (tg.PeerChannel channelID) _ _) =>
      negb (accepts channelId channelID)
  | _ => false
  end.

(** A message of a channel other than the bound one: its channel id, in
    the internal encoding and so positive, is not the normalized form of
    the configured id. *)
Definition from_other_channel (channelId : Z) (u : tg.UpdateClass) : bool :=
  match u with
  | tg.UpdateNewChannelMessage (tg.Message _ (tg.PeerChannel channelID) _ _) =>
      (0 <? channelID) && negb (channelID =? normalize channelId)
  | _ => false
  end.

Definition foreign_messages : list tg.UpdateClass :=
  [tg.UpdateNewChannelMessage
     (Sample.message (tg.PeerChannel 1111111111) "report.pdf");
   tg.UpdateNewChannelMessage
     (Sample.message (tg.PeerChannel 2523726747) "notes.txt")].

(** ** The writer: a plan of statements, retried on collision *)

Section Attempts.

Context {S : Type} `{Store S} {tables : unicode.Tables}.

(** The statements of [plan] are executed in order; the next one is
    executed only when the answer to the one before is a collision.
    The result is the statements executed, each with its answer. *)
Fixpoint attempts (key : string) (s : S) (plan : list Stmt)
  : list (Stmt * ExecResult) :=
  match plan with
  | [] => []
  | q :: rest =>
      (q, snd (Exec s q)) ::
      (if collides key (snd (Exec s q)) then attempts key (fst (Exec s q)) rest
       else [])
  end.

(** What a handler logs after its last statement. *)
Definition report (w : World S) (last_answer : option ExecResult)
  : list (Level * string) -> Prop :=
  fun entries =>
    match last_answer with
    | Some r =>
        match Error r with
        | Some _ => exists msg, entries = (logs w ++ [(Err, msg)])%list
        | None => entries = logs w \/
                  exists msg, entries = (logs w ++ [(Warn, msg)])%list
        end
    | None => True
    end.

(** [w'] is [w] after the plan: statements and store as [attempts] gives
    them, and the failure of the last statement logged as an error. *)
Definition follows (key : string) (plan : list Stmt) (w w' : World S) : Prop :=
  let tr := attempts key (db w) plan in
  execs w' = (execs w ++ map fst tr)%list /\
  db w' = replay (db w) (map fst tr) /\
  report w (option_map snd (last (map Some tr) None)) (logs w').

End Attempts.

(** The n-th id the generator gives from the world [w] on, and the n-th
    reading of the clock. *)
Definition uuid_at {S : Type} (w : World S) (n : nat) : string :=
  uuid_src w (n + uuid_pos w)%nat.

Definition time_at {S : Type} (w : World S) (n : nat) : time.Time :=
  clock_src w (n + clock_pos w)%nat.

(** The plan of SimpleBot for a document: the entry under its name, then
    under the name followed by a timestamp and eight bytes of a UUID, then
    under twelve bytes of a UUID followed by the base name. *)
Definition SimpleBot_plan {S : Type} (w : World S) (parentID mimeType : string)
    (fileName : string) (size channelID : Z) : list Stmt :=
  let first :=
    models.mkFile (uuid_at w 0) fileName "file" mimeType (Some size)
                  "document" false ingesting_user "active" (Some channelID)
                  (Some parentID) (time_at w 0) (time_at w 1) in
  let second :=
    models.with_Name (models.with_ID first (uuid_at w 2))
      (fileName ++ "_" ++ time.Format_20060102_150405 (time_at w 2) ++ "_" ++
       slice_to (uuid_at w 1) 8)%string in
  let third :=
    models.with_Name (models.with_ID second (uuid_at w 3))
      (slice_to (uuid_at w 4) 12 ++ "_" ++ filepath.Base fileName)%string in
  [InsertFile first; InsertFile second; InsertFile third].

(** The plan of Standalone: the entry under its name, then under the name
    followed by a timestamp. *)
Definition Standalone_plan {S : Type} (w : World S)
    (fileName : string) (size channelID : Z) : list Stmt :=
  let first :=
    models.mkFile (uuid_at w 0) fileName "file" octet_stream (Some size)
                  "document" false ingesting_user "active" (Some channelID)
                  None (time_at w 0) (time_at w 1) in
  let second :=
    models.with_ID
      (models.with_Name first
         (fileName ++ "_" ++ time.Format_20060102_150405 (time_at w 2))%string)
      (uuid_at w 1) in
  [InsertFile first; InsertFile second].

(** The plan of BotHandler: one statement, with the configured channel
    id. *)
Definition BotHandler_plan {S : Type} (w : World S) (channelId : Z)
    (fileName : string) (size : Z) : list Stmt :=
  [InsertFile
     (models.mkFile (uuid_at w 0) fileName "file" octet_stream (Some size)
                    "document" false ingesting_user "active" (Some channelId)
                    None (time_at w 0) (time_at w 1))].

(** The plan of Integrated: one statement; when an entry of the name
    exists for the user, the name is made unique first, which takes a
    reading of the clock and an id of the generator. *)
Definition Integrated_plan {S : Type} `{Store S} {tables : unicode.Tables} (w : World S)
    (parentId : string) (fileName : string) (size : Z) : list Stmt :=
  let parentIDValue :=
    if negb (String.eqb parentId EmptyString) then Some parentId else None in
  match FirstByName (db w) fileName ingesting_user with
  | None =>
      let name :=
        Integrated.uniqueName fileName
          (time.Format_20060102_150405 (time_at w 0))
          (slice_to (uuid_at w 0) 8) in
      [InsertBasic (uuid_at w 1) name size "file" ingesting_user parentIDValue
                   (Integrated.mimeTypeFor name) (time_at w 1) (time_at w 2)]
  | Some _ =>
      [InsertBasic (uuid_at w 0) fileName size "file" ingesting_user
                   parentIDValue (Integrated.mimeTypeFor fileName)
                   (time_at w 0) (time_at w 1)]
  end.



(** The shapes other than [Updates] and [UpdateShort]: every handler
    drops them. *)
Definition other_shape (updates : tg.UpdatesClass) : bool :=
  match updates with
  | tg.UpdatesTooLong => true
  | tg.UpdateShortMessage _ _ _ => true
  | tg.UpdateShortChatMessage _ _ _ _ => true
  | tg.UpdateShortSentMessage _ => true
  | tg.UpdatesCombined _ => true
  | _ => false
  end.

(** The fields every handler fills in the same way: the kind, the size
    of the document, the owner, and an id of the generator. *)
Definition common_fields {S : Type} (w : World S) (Size : Z) (q : Stmt) : Prop :=
  let r := stmt_row q in
  row_type r = "file" /\
  row_size r = Some Size /\
  row_user_id r = ingesting_user /\
  exists n, row_id r = uuid_at w n.

(** The parent a handler with a parent setting gives: NULL for the empty
    setting in Integrated. *)
Definition parent_of (parentId : string) : option string :=
  if negb (String.eqb parentId EmptyString) then Some parentId else None.

(* ================================================================== *)
(** * Further vocabulary *)
(* ================================================================== *)

(** The media of a message is a document. *)
Definition is_document (Media : option tg.MessageMediaClass) : bool :=
  match Media with
  | Some (tg.MessageMediaDocument _) => true
  | _ => false
  end.

(** The document of a media is a [*tg.Document]. *)
Definition is_full_document (document : option tg.DocumentClass) : bool :=
  match document with
  | Some (tg.Document _ _ _) => true
  | _ => false
  end.

(** The update is an [UpdateNewChannelMessage]. *)
Definition is_channel_update (u : tg.UpdateClass) : bool :=
  match u with
  | tg.UpdateNewChannelMessage _ => true
  | _ => false
  end.

(** A world with one more entry in its log. *)
Definition logged {S : Type} (w : World S) (lvl : Level) (msg : string) : World S :=
  mkWorld (db w) (execs w) (logs w ++ [(lvl, msg)])%list (uuid_src w)
          (uuid_pos w) (clock_src w) (clock_pos w).

(** A world after [ids] ids of the generator and [readings] readings of
    the clock. *)
Definition advanced {S : Type} (w : World S) (ids readings : nat) : World S :=
  mkWorld (db w) (execs w) (logs w) (uuid_src w) (ids + uuid_pos w)%nat
          (clock_src w) (readings + clock_pos w)%nat.

(** A world after the statement [q], answered by the store [s']. *)
Definition executed {S : Type} (w : World S) (q : Stmt) (s' : S) : World S :=
  mkWorld s' (execs w ++ [q])%list (logs w) (uuid_src w) (uuid_pos w)
          (clock_src w) (clock_pos w).

(** [q] is the first statement of a plan. *)
Definition first_statement (plan : list Stmt) (q : Stmt) : Prop :=
  exists rest, plan = q :: rest.

(** The byte [c] does not occur in [s]. *)
Fixpoint lacks (c : ascii) (s : string) : bool :=
  match s with
  | EmptyString => true
  | String a rest => negb (Ascii.eqb a c) && lacks c rest
  end.


(* ================================================================== *)
(** * Start-up: the port, the token prefix, the session key *)
(* ================================================================== *)

(** The outcome of a piece of code that may panic. *)
Inductive Outcome (A : Type) : Type :=
| Panic : Outcome A
| Done : A -> Outcome A.

Arguments Panic {A}.
Arguments Done {A} _.

(** [s[:i]] with the bounds check of Go: a panic when [i] exceeds the
    length. *)
Definition checked_slice_to (s : string) (i : nat) : Outcome string :=
  if (i <=? String.length s)%nat then Done (slice_to s i) else Panic.

Module startup.

(** cmd/run.go, [findAvailablePort].  [Listen addr] tells whether
    [net.Listen("tcp", addr)] returns a listener (which is closed again)
    rather than an error.

    The loop, with a bound on its iterations: [None] when the bound is
    reached, [Some None] when the loop ends without a port, [Some (Some
    port)] when it returns [port]. *)
Fixpoint findAvailablePort_loop (Listen : string -> bool) (fuel : nat)
    (startPort port : Z) : option (option Z) :=
  match fuel with
  | O => None
  | S fuel' =>
      if port <? Int64.wrap (startPort + 100) then
        let addr := (":" ++ fmt.Sprintf_d port)%string in
        if Listen addr then Some (Some port)
        else findAvailablePort_loop Listen fuel' startPort (Int64.wrap (port + 1))
      else Some None
  end.

(** [findAvailablePort(startPort)]: the port and the error. *)
Definition findAvailablePort (Listen : string -> bool) (fuel : nat)
    (startPort : Z) : option (Z * option string) :=
  match findAvailablePort_loop Listen fuel startPort startPort with
  | None => None
  | Some (Some port) => Some (port, None)
  | Some None =>
      Some (0, Some ("no available ports found between " ++
                     fmt.Sprintf_d startPort ++ " and " ++
                     fmt.Sprintf_d (Int64.wrap (startPort + 100)))%string)
  end.

(** The port of the server after the head of [runApplication]; [Panic]
    stands for [lg.Fatalw], which ends the process. *)
Definition serverPort (Listen : string -> bool) (fuel : nat)
    (configured : Z) : option (Outcome Z) :=
  match findAvailablePort Listen fuel configured with
  | None => None
  | Some (_, Some _) => Some Panic
  | Some (port, None) =>
      Some (Done (if negb (port =? configured) then port else configured))
  end.

(** [conf.Bot.BotToken[:10] + "..."], the prefix [runApplication] logs
    when the integrated bot is enabled; [Done None] when it is not. *)
Definition runApplication_token_prefix (conf : run.BotConfig)
    : Outcome (option string) :=
  if run.Enabled conf then
    match checked_slice_to (run.BotToken conf) 10 with
    | Panic => Panic
    | Done p => Done (Some (p ++ "...")%string)
    end
  else Done None.

(** [h.botToken[:10] + "..."], logged first by
    [StandaloneBotHandler.Start]. *)
Definition Standalone_token_prefix (botToken : string) : Outcome string :=
  match checked_slice_to botToken 10 with
  | Panic => Panic
  | Done p => Done (p ++ "...")%string
  end.

(** [tokenPrefix] of [BotHandler.Start]. *)
Definition BotHandler_tokenPrefix (botToken : string) : Outcome string :=
  if (10 <? String.length botToken)%nat then checked_slice_to botToken 10
  else if (0 <? String.length botToken)%nat then Done botToken
  else Done EmptyString.

(** [strings.Split(s, sep)] for a separator of one byte. *)
Fixpoint Split (s : string) (sep : ascii) : list string :=
  match s with
  | EmptyString => [EmptyString]
  | String c rest =>
      if Ascii.eqb c sep then EmptyString :: Split rest sep
      else
        match Split rest sep with
        | first :: others => String c first :: others
        | [] => [String c EmptyString]
        end
  end.

(** [strings.Join(elems, sep)] for a separator of one byte. *)
Fixpoint Join (elems : list string) (sep : ascii) : string :=
  match elems with
  | [] => EmptyString
  | [e] => e
  | e :: rest => (e ++ String sep (Join rest sep))%string
  end.

(** [strings.Split(token, ":")[0]] of [BotClient]: the bot id the session
    is stored under; [Panic] when the index is out of range. *)
Definition BotClient_botID (token : string) : Outcome string :=
  match Split token ":"%char with
  | botID :: _ => Done botID
  | [] => Panic
  end.

End startup.

(* ================================================================== *)
(** * The maintenance programs *)
(* ================================================================== *)

(** backup_2025_05_10/simplebot_main.go, second program: the files
    without a parent are given one, fifty at a time. *)
Module parentfix.

Definition batchSize : nat := 50.

(** [l[i:end]] for [i <= end <= len(l)]. *)
Definition slice {A : Type} (l : list A) (i end_ : nat) : list A :=
  firstn (end_ - i) (skipn i l).

(** The loop [for i := 0; i < len(filesToUpdate); i += batchSize], with
    a bound on its iterations ([None] when it is reached): the lists of
    ids of the UPDATE statements it sends, in order.  An error of the
    statement is logged and the loop goes on, so the statements do not
    depend on the answers. *)
Fixpoint updateLoop (fuel i : nat) (filesToUpdate : list models.File)
    : option (list (list string)) :=
  match fuel with
  | O => None
  | S fuel' =>
      if (i <? List.length filesToUpdate)%nat then
        let end_ := (i + batchSize)%nat in
        let end_ :=
          if (List.length filesToUpdate <? end_)%nat
          then List.length filesToUpdate else end_ in
        let batch := slice filesToUpdate i end_ in
        let fileIDs := map models.ID batch in
        match updateLoop fuel' (i + batchSize) filesToUpdate with
        | Some later => Some (fileIDs :: later)
        | None => None
        end
      else Some []
  end.

(** [if len(filesToUpdate) > 0 { ... }] *)
Definition updateParents (fuel : nat) (filesToUpdate : list models.File)
    : option (list (list string)) :=
  if (0 <? List.length filesToUpdate)%nat
  then updateLoop fuel 0 filesToUpdate
  else Some [].

End parentfix.

(** backup_2025_05_10/dbcleanup_main.go: of the files with one name the
    first keeps it, the others are renamed. *)
Module dbcleanup.

(** [db.Table("teldrive.files").Where("id = ?", id).Updates(map{"name":
    name, "user_id": user_id})] *)
Record Updates : Type := mkUpdates {
  where_id : string;
  set_name : string;
  set_user_id : Z
}.



End dbcleanup.

(** The categorizers: backup_2025_05_10_final/autocategorize_main.go and
    cmd/foldercat/main.go (the loops of foldercat are also those of
    unnamed/part_000, which sends its UPDATE through [db.Exec]).

    [categories] is a Go map; the order in which [range] visits it is
    not fixed, so the loops take the order as an argument: a list with
    the entries of the map.  [dryRun] is the flag -dry-run, true unless
    the program is started with -dry-run=false. *)
Module categorize.
Section Loops.

Context {tables : unicode.Tables}.

(** [for _, validExt := range extensions { if ext == validExt { ...;
    break } }]: whether the body runs. *)
Fixpoint matched (ext : string) (extensions : list string) : bool :=
  match extensions with
  | [] => false
  | validExt :: rest =>
      if String.eqb ext validExt then true else matched ext rest
  end.

(** The body of the loop over the files, for one file: the loop over the
    categories, which goes on after a match.  The result is the list of
    the statements [Where("id = ?", file.ID).Update("parent_id", dirID)]
    sent, as pairs of the id and [dirID], in order; a statement is sent
    only [if !dryRun].  [categoryDirs] is the map from the category to
    the id of its directory (the empty string for a category without
    one).  An error of a statement is logged and the loop goes on. *)
Fixpoint moves_of_file (dryRun : bool) (order : list (string * list string))
    (categoryDirs : string -> string) (file : models.File)
    : list (string * string) :=
  match order with
  | [] => []
  | (category, extensions) :: rest =>
      let ext := strings.ToLower (filepath.Ext (models.Name file)) in
      if matched ext extensions then
        let dirID := categoryDirs category in
        ((if negb dryRun then [(models.ID file, dirID)] else [])
           ++ moves_of_file dryRun rest categoryDirs file)%list
      else moves_of_file dryRun rest categoryDirs file
  end.

(** [for _, file := range files] *)
Definition moves (dryRun : bool) (order : list (string * list string))
    (categoryDirs : string -> string) (files : list models.File)
    : list (string * string) :=
  flat_map (moves_of_file dryRun order categoryDirs) files.

(** The same loop over the categories, for the counter of
    cmd/foldercat/main.go: [categorized++] at every match, with
    [dryRun] on or off. *)
Fixpoint categorized_of_file (order : list (string * list string))
    (file : models.File) : nat :=
  match order with
  | [] => 0%nat
  | (category, extensions) :: rest =>
      let ext := strings.ToLower (filepath.Ext (models.Name file)) in
      if matched ext extensions
      then Datatypes.S (categorized_of_file rest file)
      else categorized_of_file rest file
  end.

(** The branch [if parentFolder != ""] of foldercat: every file found is
    moved to the folder given with -parent, and the categories are not
    looked at. *)
Definition moves_to_parent (dryRun : bool) (parentFolder : string)
    (files : list models.File) : list (string * string) :=
  flat_map (fun file =>
              if negb dryRun then [(models.ID file, parentFolder)] else [])
           files.

(** The statements that move files in a run of foldercat.
    [parentFound] tells whether the folder given with -parent was found
    (the program ends when it was not); [files] is the answer to the
    query for the files of the folder given with -folder, or of the
    root. *)
Definition foldercat_moves (dryRun : bool) (parentFolder : string)
    (parentFound : bool) (order : list (string * list string))
    (categoryDirs : string -> string) (files : list models.File)
    : list (string * string) :=
  if negb (String.eqb parentFolder "") then
    if parentFound then moves_to_parent dryRun parentFolder files else []
  else moves dryRun order categoryDirs files.

End Loops.

(** The categories of a map with [ext] in their list, in the order of the
    map. *)
Definition categories_of (order : list (string * list string)) (ext : string)
    : list string :=
  map fst (filter (fun entry => matched ext (snd entry)) order).

(** The directory a file is in after the statements of a run, none of
    which failed: that of the last statement for it. *)
Definition final_dir (ms : list (string * string)) : option string :=
  option_map snd (last (map Some ms) None).

(** The extensions of a map. *)
Definition extensions_of (table : list (string * list string)) : list string :=
  flat_map snd table.

(** autocategorize_main.go *)
Definition autocategorize_categories : list (string * list string) :=
  [ ("Images",    [".jpg"; ".jpeg"; ".png"; ".gif"; ".bmp"; ".webp"]);
    ("Documents", [".pdf"; ".doc"; ".docx"; ".xls"; ".xlsx"; ".ppt"; ".pptx"; ".txt"]);
    ("Videos",    [".mp4"; ".avi"; ".mkv"; ".mov"; ".wmv"; ".flv"]);
    ("Audio",     [".mp3"; ".wav"; ".ogg"; ".flac"; ".aac"]);
    ("Archives",  [".zip"; ".rar"; ".7z"; ".tar"; ".gz"]) ].

(** cmd/foldercat/main.go and unnamed/part_000 *)
Definition foldercat_categories : list (string * list string) :=
  [ ("1080p",    [".mp4"; ".mkv"; ".avi"]);
    ("4K",       [".mp4"; ".mkv"]);
    ("Audio",    [".mp3"; ".wav"; ".flac"; ".ogg"]);
    ("PDFs",     [".pdf"]);
    ("Office",   [".doc"; ".docx"; ".xls"; ".xlsx"; ".ppt"; ".pptx"]);
    ("Text",     [".txt"; ".md"; ".csv"]);
    ("Photos",   [".jpg"; ".jpeg"; ".png"]);
    ("Graphics", [".gif"; ".bmp"; ".webp"; ".svg"]);
    ("Archives", [".zip"; ".rar"; ".7z"; ".tar"; ".gz"]);
    ("Code",     [".py"; ".js"; ".html"; ".css"; ".go"; ".java"]) ].

End categorize.

(* ================================================================== *)
(** * Decimal digits *)
(* ================================================================== *)

(** The digit [r] in front of the digits [t]. *)
Definition digit_uint (r : N) (t : Decimal.uint) : Decimal.uint :=
  match N.to_nat r with
  | 0%nat => Decimal.D0 t
  | 1%nat => Decimal.D1 t
  | 2%nat => Decimal.D2 t
  | 3%nat => Decimal.D3 t
  | 4%nat => Decimal.D4 t
  | 5%nat => Decimal.D5 t
  | 6%nat => Decimal.D6 t
  | 7%nat => Decimal.D7 t
  | 8%nat => Decimal.D8 t
  | _ => Decimal.D9 t
  end.

(** The [k] low digits of [x], the lowest first, in front of [tail]. *)
Fixpoint low_digits (k : nat) (x : N) (tail : Decimal.uint) : Decimal.uint :=
  match k with
  | O => tail
  | S k' => digit_uint (x mod 10) (low_digits k' (x / 10) tail)
  end.

(** The [k] low digits of [x], the highest first, in front of [acc]. *)
Fixpoint high_digits (k : nat) (x : N) (acc : Decimal.uint) : Decimal.uint :=
  match k with
  | O => acc
  | S k' => high_digits k' (x / 10) (digit_uint (x mod 10) acc)
  end.

(* ================================================================== *)
(** * Properties *)
(* ================================================================== *)

(** ** int64 arithmetic *)

Lemma wrap_in_range (z : Z) : Int64.in_range z -> Int64.wrap z = z.
Proof.
  unfold Int64.in_range, Int64.wrap, Int64.min, Int64.max.
  intros Hz.
  rewrite Z.mod_small by lia.
  lia.
Qed.

Lemma wrap_range (z : Z) : Int64.in_range (Int64.wrap z).
Proof.
  unfold Int64.in_range, Int64.wrap, Int64.min, Int64.max.
  pose proof (Z.mod_pos_bound (z + 2 ^ 63) (2 ^ 64)).
  lia.
Qed.

(** Subtraction after a wrapped operand is subtraction modulo 2^64. *)
Lemma wrap_sub_wrap (a b : Z) : Int64.wrap (Int64.wrap a - b) = Int64.wrap (a - b).
Proof.
  unfold Int64.wrap.
  f_equal.
  replace ((a + 2 ^ 63) mod 2 ^ 64 - 2 ^ 63 - b + 2 ^ 63)
    with ((a + 2 ^ 63) mod 2 ^ 64 - b) by ring.
  replace (a - b + 2 ^ 63) with ((a + 2 ^ 63) - b) by ring.
  rewrite Zminus_mod_idemp_l.
  reflexivity.
Qed.

Lemma sub_neg (c k : Z) : Int64.sub (Int64.neg c) k = Int64.wrap (- c - k).
Proof. unfold Int64.sub, Int64.neg. apply wrap_sub_wrap. Qed.

(** ** The channel id mapping *)

Lemma normalize_broadcast (c : Z) :
  c < - 10 ^ 12 -> normalize c = Int64.wrap (- c - 10 ^ 12).
Proof.
  intros Hc. unfold normalize.
  assert (H0 : (c <? 0) = true) by (apply Z.ltb_lt; lia).
  assert (H1 : (c <? -1000000000000) = true) by (apply Z.ltb_lt; lia).
  rewrite H0, H1. apply sub_neg.
Qed.

Lemma normalize_legacy (c : Z) :
  - 10 ^ 12 <= c < - 10 ^ 6 -> normalize c = Int64.wrap (- c - 10 ^ 6).
Proof.
  intros Hc. unfold normalize.
  assert (H0 : (c <? 0) = true) by (apply Z.ltb_lt; lia).
  assert (H1 : (c <? -1000000000000) = false) by (apply Z.ltb_ge; lia).
  assert (H2 : (c <? -1000000) = true) by (apply Z.ltb_lt; lia).
  rewrite H0, H1, H2. apply sub_neg.
Qed.

Lemma normalize_identity (c : Z) : - 10 ^ 6 <= c -> normalize c = c.
Proof.
  intros Hc. unfold normalize.
  destruct (c <? 0) eqn:H0; [|reflexivity].
  assert (H1 : (c <? -1000000000000) = false) by (apply Z.ltb_ge; lia).
  assert (H2 : (c <? -1000000) = false) by (apply Z.ltb_ge; lia).
  rewrite H1, H2. reflexivity.
Qed.

(** The conversion of runApplication is the broadcast encoding. *)
Lemma to_bot_format_broadcast (x : Z) :
  0 < x -> to_bot_format x = denormalize x Broadcast.
Proof.
  intros Hx. unfold to_bot_format, denormalize, Int64.sub.
  assert (H0 : (0 <? x) = true) by (apply Z.ltb_lt; lia).
  rewrite H0. f_equal. lia.
Qed.

(** C1.  For every valid broadcast-class internal id x the mapping of the
    handlers takes the public id -(10^12 + x) back to x, and for every
    valid legacy-class internal id x it takes -(10^6 + x) back to x. *)
Theorem normalize_denormalize (class : ChannelClass) (x : Z) :
  valid_internal class x -> normalize (denormalize x class) = x.
Proof.
  destruct class; unfold valid_internal, denormalize; intros [Hpos Hlow].
  - assert (Hr : Int64.in_range (- (10 ^ 12 + x)))
      by (unfold Int64.in_range, Int64.min, Int64.max in *; lia).
    rewrite (wrap_in_range _ Hr).
    rewrite normalize_broadcast by lia.
    replace (- - (10 ^ 12 + x) - 10 ^ 12) with x by ring.
    apply wrap_in_range.
    unfold Int64.in_range, Int64.min, Int64.max in *; lia.
  - assert (Hr : Int64.in_range (- (10 ^ 6 + x)))
      by (unfold Int64.in_range, Int64.min, Int64.max in *; lia).
    rewrite (wrap_in_range _ Hr).
    rewrite normalize_legacy by lia.
    replace (- - (10 ^ 6 + x) - 10 ^ 6) with x by ring.
    apply wrap_in_range.
    unfold Int64.in_range, Int64.min, Int64.max in *; lia.
Qed.

Lemma normalize_denormalize_witness :
  valid_internal Broadcast 2523726746 /\
  normalize (denormalize 2523726746 Broadcast) = 2523726746.
Proof.
  assert (Hv : valid_internal Broadcast 2523726746)
    by (unfold valid_internal, Int64.min; lia).
  split; [exact Hv | exact (normalize_denormalize Broadcast 2523726746 Hv)].
Defined.

(** The bound of the legacy class is sharp: one past it, the public id
    falls in the broadcast range and comes back as another id. *)
Lemma legacy_bound_sharp :
  normalize (denormalize (10 ^ 12 - 10 ^ 6 + 1) Legacy) = 1.
Proof. vm_compute. reflexivity. Qed.

(** So is the bound of the broadcast class: one past it, the public id
    is no int64 and the wrapped value is positive. *)
Lemma broadcast_bound_sharp :
  normalize (denormalize (2 ^ 63 - 10 ^ 12 + 1) Broadcast) = 2 ^ 63 - 1.
Proof. vm_compute. reflexivity. Qed.

(** ** Loops over a batch *)

Section Loops.

Context {S : Type} `{Store S} {tables : unicode.Tables}.

Lemma forEach_skip {A : Type} (body : A -> M unit) (xs : list A) (w : World S) :
  (forall x, In x xs -> body x w = (tt, w)) -> forEach xs body w = (tt, w).
Proof.
  induction xs as [|x rest IH]; intros Hskip.
  - reflexivity.
  - simpl. unfold bind.
    rewrite (Hskip x) by (left; reflexivity).
    apply IH. intros y Hy. apply Hskip. right. exact Hy.
Qed.

Lemma forEach_single {A : Type} (body : A -> M unit) (x : A) (w : World S) :
  forEach [x] body w = body x w.
Proof.
  simpl. unfold bind, ret.
  destruct (body x w) as [[] w']. reflexivity.
Qed.

(** The updates of a batch are handled one after the other. *)
Lemma forEach_app {A : Type} (body : A -> M unit) (xs ys : list A) (w : World S) :
  forEach (xs ++ ys) body w = forEach ys body (snd (forEach xs body w)).
Proof.
  revert w. induction xs as [|x rest IH]; intros w.
  - reflexivity.
  - simpl. unfold bind.
    destruct (body x w) as [u w1]. apply IH.
Qed.

End Loops.

(** ** Messages that are not from a channel *)

Section NonChannel.

Context {S : Type} `{Store S} {tables : unicode.Tables}.
Variables (channelId : Z) (parentId : string).
Variable TypeByExtension : string -> string.

Ltac peer_cases u :=
  destruct u as [m|m|m| | |]; try discriminate; try reflexivity;
  destruct m as [|? p ? ?|]; try discriminate; try reflexivity;
  destruct p; try discriminate; reflexivity.

Lemma Standalone_non_channel (u : tg.UpdateClass) (w : World S) :
  from_non_channel u = true ->
  match u with
  | tg.UpdateNewChannelMessage m => Standalone.handleChannelMessage channelId m
  | _ => ret tt
  end w = (tt, w).
Proof. unfold from_non_channel. intros Hu. peer_cases u. Qed.

Lemma BotHandler_non_channel (u : tg.UpdateClass) (w : World S) :
  from_non_channel u = true -> BotHandler.Handle_update channelId u w = (tt, w).
Proof. unfold from_non_channel. intros Hu. peer_cases u. Qed.

Lemma Integrated_non_channel (u : tg.UpdateClass) (w : World S) :
  from_non_channel u = true ->
  match u with
  | tg.UpdateNewChannelMessage m =>
      Integrated.handleChannelMessage channelId parentId m
  | _ => ret tt
  end w = (tt, w).
Proof. unfold from_non_channel. intros Hu. peer_cases u. Qed.

Lemma SimpleBot_non_channel (u : tg.UpdateClass) (w : World S) :
  from_non_channel u = true ->
  match u with
  | tg.UpdateNewChannelMessage m =>
      SimpleBot.handleChannelMessage channelId parentId TypeByExtension m
  | _ => ret tt
  end w = (tt, w).
Proof. unfold from_non_channel. intros Hu. peer_cases u. Qed.

End NonChannel.

(** C10.  A batch of updates whose messages all come from a user or a basic
    group, or a short update with such a message, leaves the world as it
    was in each of the four handlers: nothing is executed on the store, no
    id is drawn, nothing is logged at level Warn or Error, whatever the
    media of the messages. *)
Theorem non_channel_ignored {S : Type} `{Store S} {tables : unicode.Tables}
    (channelId : Z) (parentId : string) (TypeByExtension : string -> string)
    (us : list tg.UpdateClass) (w : World S) :
  forallb from_non_channel us = true ->
  Standalone.Handle channelId (tg.Updates us) w = (tt, w) /\
  BotHandler.Handle channelId (tg.Updates us) w = (tt, w) /\
  Integrated.Handle channelId parentId (tg.Updates us) w = (tt, w) /\
  SimpleBot.Handle channelId parentId TypeByExtension (tg.Updates us) w = (tt, w) /\
  forall u Date, In u us ->
    Standalone.Handle channelId (tg.UpdateShort u Date) w = (tt, w) /\
    BotHandler.Handle channelId (tg.UpdateShort u Date) w = (tt, w) /\
    Integrated.Handle channelId parentId (tg.UpdateShort u Date) w = (tt, w) /\
    SimpleBot.Handle channelId parentId TypeByExtension (tg.UpdateShort u Date) w
      = (tt, w).
Proof.
  intros Hus. rewrite forallb_forall in Hus.
  repeat split.
  - apply forEach_skip. intros u Hu. apply Standalone_non_channel; auto.
  - apply forEach_skip. intros u Hu. apply BotHandler_non_channel; auto.
  - apply forEach_skip. intros u Hu. apply Integrated_non_channel; auto.
  - apply forEach_skip. intros u Hu. apply SimpleBot_non_channel; auto.
  - apply (Standalone_non_channel channelId u w); auto.
  - apply (Integrated_non_channel channelId parentId u w); auto.
  - apply (SimpleBot_non_channel channelId parentId TypeByExtension u w); auto.
Qed.

Lemma non_channel_ignored_witness :
  Standalone.Handle (-1002523726746) (tg.Updates direct_messages)
                    (Sample.world [] true) = (tt, Sample.world [] true).
Proof.
  apply (non_channel_ignored (tables := Sample.tables)
           (-1002523726746) "" (fun _ => EmptyString)
           direct_messages (Sample.world [] true)).
  reflexivity.
Defined.

(** ** The channel filter *)

Lemma accepts_false (channelId channelID : Z) :
  channelID <> channelId -> channelID <> normalize channelId ->
  accepts channelId channelID = false.
Proof.
  intros H1 H2. unfold accepts.
  apply orb_false_iff. split; apply Z.eqb_neq; assumption.
Qed.

Section Filter.

Context {S : Type} `{Store S} {tables : unicode.Tables}.
Variables (channelId : Z) (parentId : string).

Ltac filter_cases u :=
  destruct u as [m|m|m| | |]; try discriminate;
  destruct m as [|? p ? ?|]; try discriminate;
  destruct p as [| |ch]; try discriminate.

Lemma Standalone_turned_away (u : tg.UpdateClass) (w : World S) :
  turned_away channelId u = true ->
  match u with
  | tg.UpdateNewChannelMessage m => Standalone.handleChannelMessage channelId m
  | _ => ret tt
  end w = (tt, w).
Proof.
  intros Hu. filter_cases u.
  simpl in *. unfold accepts in Hu.
  destruct ((ch =? channelId) || (ch =? normalize channelId));
    [discriminate | reflexivity].
Qed.

Lemma BotHandler_turned_away (u : tg.UpdateClass) (w : World S) :
  turned_away channelId u = true ->
  BotHandler.Handle_update channelId u w = (tt, w).
Proof.
  intros Hu. filter_cases u.
  simpl in *. unfold accepts in Hu.
  destruct ((ch =? channelId) || (ch =? normalize channelId));
    [discriminate | reflexivity].
Qed.

Lemma Integrated_turned_away (u : tg.UpdateClass) (w : World S) :
  turned_away channelId u = true ->
  match u with
  | tg.UpdateNewChannelMessage m =>
      Integrated.handleChannelMessage channelId parentId m
  | _ => ret tt
  end w = (tt, w).
Proof.
  intros Hu. filter_cases u.
  simpl in *. unfold accepts in Hu.
  destruct ((ch =? channelId) || (ch =? normalize channelId));
    [discriminate | reflexivity].
Qed.

End Filter.

(** For an id in the internal encoding the two tests of the filter are
    one: a positive id that is the configured id is its normalized form
    too. *)
Lemma accepts_internal (channelId channelID : Z) :
  0 < channelID ->
  accepts channelId channelID = (channelID =? normalize channelId).
Proof.
  intros Hpos. unfold accepts.
  destruct (Z.eqb_spec channelID channelId) as [Heq|Hne]; [|reflexivity].
  subst channelId. rewrite normalize_identity by lia.
  rewrite Z.eqb_refl. reflexivity.
Qed.

Lemma from_other_channel_turned_away (channelId : Z) (u : tg.UpdateClass) :
  from_other_channel channelId u = true -> turned_away channelId u = true.
Proof.
  destruct u as [m|m|m| | |]; try discriminate.
  destruct m as [|? p ? ?|]; try discriminate.
  destruct p as [| |ch]; try discriminate.
  simpl. intros Hu. apply andb_true_iff in Hu. destruct Hu as [Hpos Hne].
  apply Z.ltb_lt in Hpos. rewrite (accepts_internal _ _ Hpos). exact Hne.
Qed.

(** C2.  A channel message whose channel id, in the internal encoding, is
    not the normalized form of the configured id is dropped by BotHandler,
    Standalone and Integrated: a batch of such messages, or a short update
    with one, leaves the world as it was, so that nothing is executed on
    the store. *)
Theorem unmatched_channel_dropped {S : Type} `{Store S} {tables : unicode.Tables}
    (channelId : Z) (parentId : string)
    (us : list tg.UpdateClass) (w : World S) :
  forallb (from_other_channel channelId) us = true ->
  Standalone.Handle channelId (tg.Updates us) w = (tt, w) /\
  BotHandler.Handle channelId (tg.Updates us) w = (tt, w) /\
  Integrated.Handle channelId parentId (tg.Updates us) w = (tt, w) /\
  forall u Date, In u us ->
    Standalone.Handle channelId (tg.UpdateShort u Date) w = (tt, w) /\
    Integrated.Handle channelId parentId (tg.UpdateShort u Date) w = (tt, w).
Proof.
  intros Hus. rewrite forallb_forall in Hus.
  assert (Haway : forall u, In u us -> turned_away channelId u = true)
    by (intros u Hu; apply from_other_channel_turned_away; auto).
  split; [|split; [|split]].
  - apply forEach_skip. intros u Hu. apply Standalone_turned_away; auto.
  - apply forEach_skip. intros u Hu. apply BotHandler_turned_away; auto.
  - apply forEach_skip. intros u Hu. apply Integrated_turned_away; auto.
  - intros u Date Hu. split.
    + apply (Standalone_turned_away channelId u w); auto.
    + apply (Integrated_turned_away channelId parentId u w); auto.
Qed.

Lemma unmatched_channel_dropped_witness :
  BotHandler.Handle (-1002523726746) (tg.Updates foreign_messages)
                    (Sample.world [] true) = (tt, Sample.world [] true).
Proof.
  apply (unmatched_channel_dropped (tables := Sample.tables) (-1002523726746) "" foreign_messages
                                   (Sample.world [] true)).
  vm_compute. reflexivity.
Defined.

(** SimpleBot has a mapping of its own, on the decimal digits of the
    configured id, and compares with its result only.  It agrees with
    [normalize] on the usual broadcast ids and differs on a legacy id. *)
Lemma SimpleBot_mapping_differs :
  SimpleBot.actualConfiguredID (-1002523726746) = normalize (-1002523726746) /\
  SimpleBot.actualConfiguredID (-1000005) = 1000005 /\
  normalize (-1000005) = 5.
Proof. repeat split; vm_compute; reflexivity. Qed.

(** The filter also lets through a message whose channel id is the
    configured id as it is written.  The platform sends no such id when
    the configured id is in the public encoding: here the configured id is
    -1002523726746, its normalized form is 2523726746, and a message that
    came with the channel id -1002523726746 would be ingested. *)
Lemma direct_match_is_ingested :
  let configured := -1002523726746 in
  let u := tg.UpdateNewChannelMessage
             (Sample.message (tg.PeerChannel configured) "report.pdf") in
  let w' := snd (Standalone.Handle configured (tg.Updates [u])
                                   (Sample.world [] true)) in
  configured <> normalize configured /\
  length (execs w') = 1%nat /\
  map row_name (catalog (db w')) = ["report.pdf"].
Proof.
  cbv zeta. split; [|split].
  - vm_compute. discriminate.
  - vm_compute. reflexivity.
  - vm_compute. reflexivity.
Qed.

(** ** Ids outside the two ranges *)

(** C4, as the specification states it, fails: 5 is in neither range, yet
    Start raises no error for it, the mapping returns it as it is, and a
    message of channel 5 is ingested. *)
Lemma positive_id_passes_through :
  let u := tg.UpdateNewChannelMessage
             (Sample.message (tg.PeerChannel 5) "report.pdf") in
  let w' := snd (BotHandler.Handle 5 (tg.Updates [u]) (Sample.world [] true)) in
  outside_ranges 5 /\
  BotHandler.Start_validate 5 "7331706161:token" = None /\
  normalize 5 = 5 /\
  map row_name (catalog (db w')) = ["report.pdf"].
Proof.
  cbv zeta. split; [|split; [|split]].
  - unfold outside_ranges, Int64.max. lia.
  - vm_compute. reflexivity.
  - vm_compute. reflexivity.
  - vm_compute. reflexivity.
Qed.

(** C4, amended.  For a configured id outside the two ranges the mapping
    returns the id as it is, without an error, and the filter compares
    messages with it; the only id Start turns down is 0. *)
Theorem normalize_outside_ranges (c : Z) :
  outside_ranges c ->
  normalize c = c /\
  (forall channelID, accepts c channelID = (channelID =? c)) /\
  (forall botToken, botToken <> EmptyString ->
     BotHandler.Start_validate c botToken =
       if c =? 0 then Some "channel ID is required" else None).
Proof.
  intros [Hlow Hhigh].
  assert (Hn : normalize c = c) by (apply normalize_identity; exact Hlow).
  split; [exact Hn|split].
  - intros channelID. unfold accepts. rewrite Hn. apply orb_diag.
  - intros botToken Htok. unfold BotHandler.Start_validate.
    destruct (String.eqb_spec botToken EmptyString) as [E|_];
      [contradiction | reflexivity].
Qed.

Lemma normalize_outside_ranges_witness :
  normalize 2523726746 = 2523726746 /\
  (forall channelID, accepts 2523726746 channelID = (channelID =? 2523726746)) /\
  (forall botToken, botToken <> EmptyString ->
     BotHandler.Start_validate 2523726746 botToken =
       if 2523726746 =? 0 then Some "channel ID is required" else None).
Proof.
  apply (normalize_outside_ranges 2523726746).
  unfold outside_ranges, Int64.max. lia.
Defined.

(** ** Documents without a file name *)

Lemma findFileName_none (Attributes : list tg.DocumentAttributeClass) :
  existsb isFilename Attributes = false -> findFileName Attributes = EmptyString.
Proof.
  induction Attributes as [|a rest IH]; simpl; intros Hno.
  - reflexivity.
  - apply orb_false_iff in Hno. destruct Hno as [Ha Hrest].
    destruct a; simpl in Ha; try discriminate; apply IH; exact Hrest.
Qed.

(** C8.  A message of the bound channel whose media is a document with no
    filename attribute is classified by the warning "Document has no
    filename attribute" and nothing else happens: no statement is executed
    and the store is the one before.  This holds for the message handlers
    of BotHandler, Standalone and Integrated and for processDocument of
    SimpleBot. *)
Theorem missing_filename_no_entry {S : Type} `{Store S} {tables : unicode.Tables}
    (channelId : Z) (parentId : string) (TypeByExtension : string -> string)
    (msgID docID Size channelID Date : Z)
    (Attributes : list tg.DocumentAttributeClass) (w : World S) :
  accepts channelId channelID = true ->
  existsb isFilename Attributes = false ->
  let document := Some (tg.Document docID Size Attributes) in
  let message :=
    tg.Message msgID (tg.PeerChannel channelID)
               (Some (tg.MessageMediaDocument document)) Date in
  let classified := logger Warn "Document has no filename attribute" w in
  Standalone.handleChannelMessage channelId message w = classified /\
  BotHandler.Handle_update channelId (tg.UpdateNewChannelMessage message) w
    = classified /\
  Integrated.handleChannelMessage channelId parentId message w = classified /\
  SimpleBot.processDocument parentId TypeByExtension document channelID w
    = classified /\
  execs (snd classified) = execs w /\
  db (snd classified) = db w /\
  uuid_pos (snd classified) = uuid_pos w.
Proof.
  intros Hacc Hno. cbv zeta.
  pose proof (findFileName_none Attributes Hno) as Hname.
  unfold accepts in Hacc.
  unfold Standalone.handleChannelMessage, BotHandler.Handle_update,
    Integrated.handleChannelMessage, BotHandler.handleNewMessage,
    Standalone.processDocument, Integrated.processDocument,
    SimpleBot.processDocument.
  rewrite Hacc, Hname. simpl.
  repeat split; reflexivity.
Qed.

Lemma missing_filename_no_entry_witness :
  Standalone.handleChannelMessage (-1002523726746)
    (tg.Message 9 (tg.PeerChannel 2523726746)
       (Some (tg.MessageMediaDocument
                (Some (tg.Document 77 4096
                         [tg.DocumentAttributeImageSize 640 480;
                          tg.DocumentAttributeAnimated])))) 1746878400)
    (Sample.world [] true)
  = logger Warn "Document has no filename attribute" (Sample.world [] true).
Proof.
  apply (missing_filename_no_entry (tables := Sample.tables) (-1002523726746) "" (fun _ => EmptyString)
           9 77 4096 2523726746 1746878400
           [tg.DocumentAttributeImageSize 640 480; tg.DocumentAttributeAnimated]
           (Sample.world [] true)).
  - vm_compute. reflexivity.
  - reflexivity.
Defined.

(** ** The handlers follow their plans *)

(** One step of a handler: unfold the monad, then split on the answer of
    the store to the next statement. *)
Ltac run_monad :=
  cbv beta iota zeta delta
    [bind ret uuid_New time_Now db_SelectOne db_FirstByName db_Exec logger
     uuid_at time_at collides follows report];
  cbn [db execs logs uuid_src uuid_pos clock_src clock_pos models.Name
       attempts replay map last option_map fst snd Error RowsAffected Nat.add].

Ltac next_answer :=
  match goal with
  | |- context [Exec ?s ?q] =>
      let s' := fresh "s" in
      let e := fresh "e" in
      let n := fresh "n" in
      let E := fresh "E" in
      destruct (Exec s q) as [s' [[e|] n]] eqn:E; run_monad
  end.

Ltac split_on_key :=
  match goal with
  | |- context [strings.Contains ?e ?k] =>
      let C := fresh "C" in
      destruct (strings.Contains e k) eqn:C; run_monad
  end.

Ltac finish_run :=
  repeat split; rewrite <- ?app_assoc; cbn [app]; eauto.

Section Refinement.

Context {S : Type} `{Store S} {tables : unicode.Tables}.

Lemma eqb_empty_false (s : string) : s <> EmptyString -> String.eqb s EmptyString = false.
Proof. intros Hs. apply String.eqb_neq. exact Hs. Qed.

Lemma SimpleBot_follows (parentID : string) (TypeByExtension : string -> string)
    (docID Size channelID : Z) (Attributes : list tg.DocumentAttributeClass)
    (w : World S) :
  findFileName Attributes <> EmptyString ->
  SelectOne (db w) = None ->
  follows SimpleBot.duplicate_key
    (SimpleBot_plan w parentID (SimpleBot.mimeTypeOf TypeByExtension Attributes)
                    (findFileName Attributes) Size channelID)
    w
    (snd (SimpleBot.processDocument parentID TypeByExtension
            (Some (tg.Document docID Size Attributes)) channelID w)).
Proof.
  intros Hname Hping.
  unfold SimpleBot.processDocument, SimpleBot_plan.
  rewrite (eqb_empty_false _ Hname).
  run_monad. rewrite Hping. run_monad.
  next_answer; [split_on_key|]; [| finish_run | finish_run].
  next_answer; [split_on_key|]; [| finish_run | finish_run].
  next_answer; try split_on_key; finish_run.
Qed.

Lemma Standalone_follows (docID Size channelID : Z)
    (Attributes : list tg.DocumentAttributeClass) (w : World S) :
  findFileName Attributes <> EmptyString ->
  SelectOne (db w) = None ->
  follows Standalone.duplicate_key
    (Standalone_plan w (findFileName Attributes) Size channelID)
    w
    (snd (Standalone.processDocument
            (Some (tg.Document docID Size Attributes)) channelID w)).
Proof.
  intros Hname Hping.
  unfold Standalone.processDocument, Standalone_plan.
  rewrite (eqb_empty_false _ Hname).
  run_monad. rewrite Hping. run_monad.
  next_answer; [split_on_key|]; [| finish_run | finish_run].
  next_answer; try split_on_key; finish_run.
Qed.

End Refinement.

(** ** What every plan guarantees *)

Section Plans.

Context {S : Type} `{Store S} {tables : unicode.Tables}.

Lemma attempts_length (key : string) (plan : list Stmt) (s : S) :
  (length (attempts key s plan) <= length plan)%nat.
Proof.
  revert s. induction plan as [|q rest IH]; intros s; simpl.
  - apply Nat.le_refl.
  - destruct (collides key (snd (Exec s q))).
    + apply le_n_S. apply IH.
    + simpl. apply le_n_S. apply Nat.le_0_l.
Qed.

(** The statements executed are the first statements of the plan. *)
Lemma attempts_prefix (key : string) (plan : list Stmt) (s : S) :
  exists rest, plan = (map fst (attempts key s plan) ++ rest)%list.
Proof.
  revert s. induction plan as [|q rest IH]; intros s; simpl.
  - exists []. reflexivity.
  - destruct (collides key (snd (Exec s q))).
    + destruct (IH (fst (Exec s q))) as [tl Htl].
      exists tl. simpl. f_equal. exact Htl.
    + exists rest. reflexivity.
Qed.








End Plans.

Section SinglePlans.

Context {S : Type} `{Store S} {tables : unicode.Tables}.

Lemma BotHandler_follows (key : string) (channelId msgID docID Size Date : Z)
    (PeerID : tg.PeerClass) (Attributes : list tg.DocumentAttributeClass)
    (w : World S) :
  findFileName Attributes <> EmptyString ->
  SelectOne (db w) = None ->
  follows key
    (BotHandler_plan w channelId (findFileName Attributes) Size)
    w
    (snd (BotHandler.handleNewMessage channelId
            (tg.Message msgID PeerID
               (Some (tg.MessageMediaDocument
                        (Some (tg.Document docID Size Attributes)))) Date) w)).
Proof.
  intros Hname Hping.
  unfold BotHandler.handleNewMessage, BotHandler_plan.
  rewrite (eqb_empty_false _ Hname).
  run_monad. rewrite Hping. run_monad.
  destruct (Exec (db w) _) as [s [[e|] n]]; run_monad;
    try (destruct (strings.Contains e key)); run_monad; finish_run.
Qed.

Lemma Integrated_follows (key : string) (parentId : string)
    (docID Size channelID : Z) (Attributes : list tg.DocumentAttributeClass)
    (w : World S) :
  findFileName Attributes <> EmptyString ->
  follows key
    (Integrated_plan w parentId (findFileName Attributes) Size)
    w
    (snd (Integrated.processDocument parentId
            (Some (tg.Document docID Size Attributes)) channelID w)).
Proof.
  intros Hname.
  unfold Integrated.processDocument, Integrated_plan.
  rewrite (eqb_empty_false _ Hname).
  run_monad.
  destruct (FirstByName (db w) (findFileName Attributes) ingesting_user);
    run_monad.
  - destruct (Exec (db w) _) as [st [[e|] n]]; run_monad;
      try (destruct (strings.Contains e key)); run_monad;
      try (destruct (n =? 0)); run_monad; finish_run.
  - destruct (Exec (db w) _) as [st [[e|] n]]; run_monad;
      try (destruct (strings.Contains e key)); run_monad;
      try (destruct (n =? 0)); run_monad; finish_run.
Qed.

End SinglePlans.

(** The store of the samples keeps its rows when a statement fails. *)
#[global] Instance Pg_laws : StoreLaws Pg.State.
Proof.
  constructor. intros s s' q r Hexec Herr.
  simpl in Hexec. unfold Pg.exec in Hexec.
  destruct (negb (Pg.online s));
    [injection Hexec as <- _; reflexivity|].
  destruct (Pg.parent_missing (Pg.table s) (stmt_row q));
    [injection Hexec as <- _; reflexivity|].
  destruct (Pg.has_id (Pg.table s) (row_id (stmt_row q)));
    [injection Hexec as <- _; reflexivity|].
  destruct (Pg.has_name (Pg.table s) (row_name (stmt_row q)));
    [injection Hexec as <- _; reflexivity|].
  injection Hexec as _ <-. simpl in Herr. contradiction.
Qed.

(** The standby keeps its rows: it takes no write. *)
#[global] Instance Standby_laws : StoreLaws Standby.State.
Proof.
  constructor. intros s s' q r Hexec _.
  simpl in Hexec. unfold Standby.exec in Hexec.
  injection Hexec as <- _. reflexivity.
Qed.

(** ** Errors that are no collision *)




(** ** The retries *)

(** C3, as the specification states it, fails.  The first retry does not
    keep the extension: for x.txt SimpleBot retries under a name whose
    extension, as filepath.Ext gives it, is no longer .txt.  And
    Standalone has no second retry: when the name of its first retry is
    taken too it gives up after two statements. *)
Lemma retry_name_loses_extension :
  let name_of := fun q => row_name (stmt_row q) in
  let w := Sample.world [Sample.folder "dir" "inbox";
                         Sample.entry "a" "x.txt"] true in
  let w' := snd (SimpleBot.processDocument "dir" (fun _ => "text/plain")
                   (Sample.document "x.txt" 5) 2523726746 w) in
  let v := Sample.world [Sample.entry "a" "x.txt";
                         Sample.entry "b" "x.txt_20250510_120002"] true in
  let v' := snd (Standalone.processDocument (Sample.document "x.txt" 5)
                                            2523726746 v) in
  map name_of (execs w') = ["x.txt"; "x.txt_20250510_120002_00000001"] /\
  filepath.Ext "x.txt" = ".txt" /\
  filepath.Ext "x.txt_20250510_120002_00000001"
    = ".txt_20250510_120002_00000001" /\
  map name_of (execs v') = ["x.txt"; "x.txt_20250510_120002"] /\
  logs v' = [(Err, "Failed to insert file with modified name")] /\
  catalog (db v') = catalog (db v).
Proof.
  cbv zeta. repeat split; vm_compute; reflexivity.
Qed.

(** C3, amended.  For a document with a file name and a store that
    answers the connection test, SimpleBot follows a plan of three
    statements and Standalone a plan of two, going on to the next
    statement only when the answer is an error with the duplicate-key text
    in it, and executing nothing once the plan is at its end.  The names
    are: the file name; then the file name followed by an underscore and a
    timestamp, and in SimpleBot by another underscore and eight bytes of a
    new UUID, all after the extension; then, in SimpleBot, twelve bytes of
    a new UUID, an underscore and the base name of the file name.  Every
    statement has an id of its own from the generator. *)
Theorem retry_protocol {S : Type} `{Store S}
    (parentID : string) (TypeByExtension : string -> string)
    (docID Size channelID : Z) (Attributes : list tg.DocumentAttributeClass)
    (w : World S) :
  findFileName Attributes <> EmptyString ->
  SelectOne (db w) = None ->
  let fileName := findFileName Attributes in
  let document := Some (tg.Document docID Size Attributes) in
  let stamp := time.Format_20060102_150405 (time_at w 2) in
  let name_of := fun q => row_name (stmt_row q) in
  let id_of := fun q => row_id (stmt_row q) in
  let simple :=
    SimpleBot_plan w parentID (SimpleBot.mimeTypeOf TypeByExtension Attributes)
                   fileName Size channelID in
  let alone := Standalone_plan w fileName Size channelID in
  follows SimpleBot.duplicate_key simple w
    (snd (SimpleBot.processDocument parentID TypeByExtension document
                                    channelID w)) /\
  map name_of simple =
    [fileName;
     (fileName ++ "_" ++ stamp ++ "_" ++ slice_to (uuid_at w 1) 8)%string;
     (slice_to (uuid_at w 4) 12 ++ "_" ++ filepath.Base fileName)%string] /\
  map id_of simple = [uuid_at w 0; uuid_at w 2; uuid_at w 3] /\
  follows Standalone.duplicate_key alone w
    (snd (Standalone.processDocument document channelID w)) /\
  map name_of alone = [fileName; (fileName ++ "_" ++ stamp)%string] /\
  map id_of alone = [uuid_at w 0; uuid_at w 1].
Proof.
  intros Hname Hping. cbv zeta.
  split; [apply SimpleBot_follows; assumption|].
  split; [reflexivity|].
  split; [reflexivity|].
  split; [apply Standalone_follows; assumption|].
  split; reflexivity.
Qed.

Lemma retry_protocol_witness :
  let w := Sample.world [Sample.folder "dir" "inbox";
                         Sample.entry "a" "x.txt"] true in
  let attrs := [tg.DocumentAttributeFilename "x.txt"] in
  findFileName attrs <> EmptyString /\
  SelectOne (db w) = None /\
  follows SimpleBot.duplicate_key
    (SimpleBot_plan w "dir" (SimpleBot.mimeTypeOf (fun _ => "text/plain") attrs)
                    (findFileName attrs) 5 2523726746)
    w
    (snd (SimpleBot.processDocument "dir" (fun _ => "text/plain")
            (Some (tg.Document 77 5 attrs)) 2523726746 w)).
Proof.
  cbv zeta.
  assert (Hname : findFileName [tg.DocumentAttributeFilename "x.txt"]
                  <> EmptyString) by (simpl; discriminate).
  assert (Hping : SelectOne (db (Sample.world [Sample.folder "dir" "inbox";
                                               Sample.entry "a" "x.txt"] true))
                  = None) by reflexivity.
  split; [exact Hname|split; [exact Hping|]].
  exact (proj1 (retry_protocol "dir" (fun _ => "text/plain") 77 5 2523726746
                  [tg.DocumentAttributeFilename "x.txt"]
                  (Sample.world [Sample.folder "dir" "inbox";
                                 Sample.entry "a" "x.txt"] true) Hname Hping)).
Defined.

(** ** The shapes of an update *)

Section Shapes.

Context {S : Type} `{Store S} {tables : unicode.Tables}.
Variables (channelId : Z) (parentId : string).
Variable TypeByExtension : string -> string.

(** In Standalone, Integrated and SimpleBot a short update is handled as
    the batch of its one update. *)
Lemma Standalone_short_as_batch (u : tg.UpdateClass) (Date : Z) (w : World S) :
  Standalone.Handle channelId (tg.UpdateShort u Date) w
  = Standalone.Handle channelId (tg.Updates [u]) w.
Proof.
  unfold Standalone.Handle. rewrite forEach_single. reflexivity.
Qed.

Lemma Integrated_short_as_batch (u : tg.UpdateClass) (Date : Z) (w : World S) :
  Integrated.Handle channelId parentId (tg.UpdateShort u Date) w
  = Integrated.Handle channelId parentId (tg.Updates [u]) w.
Proof.
  unfold Integrated.Handle. rewrite forEach_single. reflexivity.
Qed.

Lemma SimpleBot_short_as_batch (u : tg.UpdateClass) (Date : Z) (w : World S) :
  SimpleBot.Handle channelId parentId TypeByExtension (tg.UpdateShort u Date) w
  = SimpleBot.Handle channelId parentId TypeByExtension (tg.Updates [u]) w.
Proof.
  unfold SimpleBot.Handle. rewrite forEach_single. reflexivity.
Qed.

(** The updates of a batch are handled in their order, one at a time. *)
Lemma Standalone_batch_in_order (us vs : list tg.UpdateClass) (w : World S) :
  Standalone.Handle channelId (tg.Updates (us ++ vs)) w
  = Standalone.Handle channelId (tg.Updates vs)
      (snd (Standalone.Handle channelId (tg.Updates us) w)).
Proof. unfold Standalone.Handle. apply forEach_app. Qed.

Lemma other_shapes_dropped (updates : tg.UpdatesClass) (w : World S) :
  other_shape updates = true ->
  Standalone.Handle channelId updates w = (tt, w) /\
  BotHandler.Handle channelId updates w = (tt, w) /\
  Integrated.Handle channelId parentId updates w = (tt, w) /\
  SimpleBot.Handle channelId parentId TypeByExtension updates w = (tt, w).
Proof.
  destruct updates; simpl; intros Hc; try discriminate; repeat split.
Qed.

End Shapes.

(** C7.  BotHandler does not unpack a short update: whatever the update
    in it, the world is left as it was.  A document message of the bound
    channel is ingested when it comes in a batch and is lost when it comes
    in a short update, while Standalone ingests it from the short update
    too. *)
Theorem BotHandler_drops_short_updates :
  (forall (S : Type) (store : Store S) (channelId : Z)
          (update : tg.UpdateClass) (Date : Z) (w : World S),
      BotHandler.Handle channelId (tg.UpdateShort update Date) w = (tt, w)) /\
  let configured := -1002523726746 in
  let u := tg.UpdateNewChannelMessage
             (Sample.message (tg.PeerChannel 2523726746) "report.pdf") in
  let w := Sample.world [] true in
  let names := fun w' : World Pg.State => map row_name (catalog (db w')) in
  names (snd (BotHandler.Handle configured (tg.Updates [u]) w))
    = ["report.pdf"] /\
  names (snd (BotHandler.Handle configured (tg.UpdateShort u 1746878400) w))
    = [] /\
  names (snd (Standalone.Handle configured (tg.UpdateShort u 1746878400) w))
    = ["report.pdf"].
Proof.
  split.
  - intros. reflexivity.
  - cbv zeta. repeat split; vm_compute; reflexivity.
Qed.

(** ** The MIME type *)

(** The table of Integrated on some names. *)
Lemma mimeTypeFor_samples {tables : unicode.Tables} :
  Integrated.mimeTypeFor "report.pdf" = "application/pdf" /\
  Integrated.mimeTypeFor "Photo.JPG" = "image/jpeg" /\
  Integrated.mimeTypeFor "notes.txt" = "text/plain" /\
  Integrated.mimeTypeFor "archive.tar.gz" = octet_stream /\
  Integrated.mimeTypeFor "README" = octet_stream.
Proof. repeat split; vm_compute; reflexivity. Qed.

(** A name without extension gets the generic type. *)
Lemma mimeTypeFor_no_extension {tables : unicode.Tables} (fileName : string) :
  filepath.Ext fileName = EmptyString ->
  Integrated.mimeTypeFor fileName = octet_stream.
Proof. unfold Integrated.mimeTypeFor. intros ->. reflexivity. Qed.

(** C5.  For the document report.pdf of the bound channel, with an empty
    catalog, Standalone and BotHandler each create one entry of type
    application/octet-stream: they give this type to every document.
    Integrated creates one entry of type application/pdf. *)
Theorem report_pdf_mime_type {tables : unicode.Tables} :
  let configured := -1002523726746 in
  let m := Sample.message (tg.PeerChannel 2523726746) "report.pdf" in
  let w := Sample.world [] true in
  let typed := fun w' : World Pg.State =>
                 map (fun r => (row_name r, row_mime_type r)) (catalog (db w')) in
  typed (snd (Standalone.handleChannelMessage configured m w))
    = [("report.pdf", "application/octet-stream")] /\
  typed (snd (BotHandler.Handle_update configured
                (tg.UpdateNewChannelMessage m) w))
    = [("report.pdf", "application/octet-stream")] /\
  typed (snd (Integrated.handleChannelMessage configured "" m w))
    = [("report.pdf", "application/pdf")].
Proof.
  cbv zeta. repeat split; vm_compute; reflexivity.
Qed.

(** Standalone and BotHandler give the generic type to every document,
    Integrated the type of its table for the name it inserts. *)
Lemma plans_mime_type {S : Type} `{Store S} {tables : unicode.Tables} (w : World S)
    (channelId channelID Size : Z) (parentId fileName : string) :
  Forall (fun q => row_mime_type (stmt_row q) = octet_stream)
         (Standalone_plan w fileName Size channelID) /\
  Forall (fun q => row_mime_type (stmt_row q) = octet_stream)
         (BotHandler_plan w channelId fileName Size) /\
  Forall (fun q => row_mime_type (stmt_row q)
                   = Integrated.mimeTypeFor (row_name (stmt_row q)))
         (Integrated_plan w parentId fileName Size).
Proof.
  split; [|split].
  - repeat constructor.
  - repeat constructor.
  - unfold Integrated_plan.
    destruct (FirstByName (db w) fileName ingesting_user); repeat constructor.
Qed.

(** ** The fields of an entry *)

Section Fields.

Context {S : Type} `{Store S} {tables : unicode.Tables}.

(** A statement executed in a world that follows a plan was executed
    before or is a statement of the plan. *)
Lemma follows_In (key : string) (plan : list Stmt) (w w' : World S) (q : Stmt) :
  follows key plan w w' -> In q (execs w') -> In q (execs w) \/ In q plan.
Proof.
  intros (Hexecs & _ & _) Hq.
  rewrite Hexecs in Hq. apply in_app_or in Hq.
  destruct Hq as [Hq|Hq]; [left; exact Hq|right].
  destruct (attempts_prefix key plan (db w)) as [rest Hrest].
  rewrite Hrest. apply in_or_app. left. exact Hq.
Qed.

(** The first statement of a plan is executed, under any key. *)
Lemma follows_first (key : string) (q0 : Stmt) (rest : list Stmt)
    (w w' : World S) :
  follows key (q0 :: rest) w w' ->
  exists later, execs w' = (execs w ++ q0 :: later)%list.
Proof.
  intros (Hexecs & _ & _). simpl in Hexecs.
  eexists. exact Hexecs.
Qed.

End Fields.

(** C6, as the specification states it, fails.  With the parent
    directory 0196a580-e141-70f1-b269-b8846e881142 in the configuration,
    the entry BotHandler creates has no parent: BotHandler has no parent
    setting ("Set to root directory so it appears in the main view").  The
    entry of Integrated has the parent, and neither status nor channel id
    among its columns. *)
Lemma BotHandler_entry_at_root :
  let tables := Sample.tables in
  let dir := "0196a580-e141-70f1-b269-b8846e881142" in
  let conf := run.mkBotConfig "7331706161:token" (-1002523726746) dir true in
  let m := Sample.message (tg.PeerChannel 2523726746) "report.pdf" in
  let w := Sample.world [Sample.folder dir "uploads"] true in
  let files := fun w' : World Pg.State =>
    filter (fun r => String.eqb (row_type r) "file") (catalog (db w')) in
  let by_bot :=
    files (snd (BotHandler.Handle (run.botHandler_channelId conf)
                  (tg.Updates [tg.UpdateNewChannelMessage m]) w)) in
  let by_integrated :=
    files (snd (Integrated.Handle (-1002523726746) (run.ParentId conf)
                  (tg.Updates [tg.UpdateNewChannelMessage m]) w)) in
  run.integratedBot_args conf = Some (-1002523726746, dir) /\
  map row_parent_id by_bot = [None] /\
  map row_channel_id by_bot = [Some (-1002523726746)] /\
  map row_parent_id by_integrated = [Some dir] /\
  map row_status by_integrated = [None] /\
  map row_channel_id by_integrated = [None].
Proof.
  cbv zeta. repeat split; vm_compute; reflexivity.
Qed.

(** C6, amended.  For a document with a file name and a store that
    answers the connection test, every statement a handler executes has
    the kind file, the size of the document, the owner 7331706161 and an
    id of the generator, and the first statement of Standalone, BotHandler
    and SimpleBot has the name of the document.  The parent is the parent
    setting in SimpleBot and in Integrated (NULL when the setting is
    empty), and NULL in Standalone and BotHandler, which have no such
    setting.  Standalone and SimpleBot write the status active and the
    channel id of the message, BotHandler the status active. *)
Theorem entry_fields {S : Type} `{Store S} {tables : unicode.Tables}
    (channelId : Z) (parentId : string) (TypeByExtension : string -> string)
    (msgID docID Size channelID Date : Z) (PeerID : tg.PeerClass)
    (Attributes : list tg.DocumentAttributeClass) (w : World S) (q : Stmt) :
  findFileName Attributes <> EmptyString ->
  SelectOne (db w) = None ->
  let fileName := findFileName Attributes in
  let document := Some (tg.Document docID Size Attributes) in
  let message :=
    tg.Message msgID PeerID (Some (tg.MessageMediaDocument document)) Date in
  let r := stmt_row q in
  let alone := snd (Standalone.processDocument document channelID w) in
  let bot := snd (BotHandler.handleNewMessage channelId message w) in
  let simple := snd (SimpleBot.processDocument parentId TypeByExtension
                                               document channelID w) in
  let integrated := snd (Integrated.processDocument parentId document
                                                    channelID w) in
  (In q (execs alone) ->
   In q (execs w) \/
   (common_fields w Size q /\ row_parent_id r = None /\
    row_status r = Some "active" /\ row_channel_id r = Some channelID)) /\
  (In q (execs bot) ->
   In q (execs w) \/
   (common_fields w Size q /\ row_parent_id r = None /\
    row_status r = Some "active")) /\
  (In q (execs simple) ->
   In q (execs w) \/
   (common_fields w Size q /\ row_parent_id r = Some parentId /\
    row_status r = Some "active" /\ row_channel_id r = Some channelID)) /\
  (In q (execs integrated) ->
   In q (execs w) \/
   (common_fields w Size q /\ row_parent_id r = parent_of parentId)) /\
  (exists q0 later, execs alone = (execs w ++ q0 :: later)%list /\
                    row_name (stmt_row q0) = fileName) /\
  (exists q0 later, execs bot = (execs w ++ q0 :: later)%list /\
                    row_name (stmt_row q0) = fileName) /\
  (exists q0 later, execs simple = (execs w ++ q0 :: later)%list /\
                    row_name (stmt_row q0) = fileName).
Proof.
  intros Hname Hping. cbv zeta.
  pose proof (Standalone_follows docID Size channelID Attributes w Hname Hping)
    as Ha.
  pose proof (BotHandler_follows EmptyString channelId msgID docID Size Date
                PeerID Attributes w Hname Hping) as Hb.
  pose proof (SimpleBot_follows parentId TypeByExtension docID Size channelID
                Attributes w Hname Hping) as Hs.
  pose proof (Integrated_follows EmptyString parentId docID Size channelID
                Attributes w Hname) as Hi.
  repeat match goal with |- _ /\ _ => split end.
  - intros Hq. destruct (follows_In _ _ _ _ q Ha Hq) as [Hold|Hplan];
      [left; exact Hold|right].
    simpl in Hplan.
    destruct Hplan as [<-|[<-|[]]]; unfold common_fields; simpl;
      repeat split; eexists; reflexivity.
  - intros Hq. destruct (follows_In _ _ _ _ q Hb Hq) as [Hold|Hplan];
      [left; exact Hold|right].
    simpl in Hplan.
    destruct Hplan as [<-|[]]; unfold common_fields; simpl;
      repeat split; eexists; reflexivity.
  - intros Hq. destruct (follows_In _ _ _ _ q Hs Hq) as [Hold|Hplan];
      [left; exact Hold|right].
    simpl in Hplan.
    destruct Hplan as [<-|[<-|[<-|[]]]]; unfold common_fields; simpl;
      repeat split; eexists; reflexivity.
  - intros Hq. destruct (follows_In _ _ _ _ q Hi Hq) as [Hold|Hplan];
      [left; exact Hold|right].
    unfold Integrated_plan in Hplan.
    destruct (FirstByName (db w) (findFileName Attributes) ingesting_user);
      simpl in Hplan; destruct Hplan as [<-|[]];
      unfold common_fields, parent_of; simpl;
      repeat split; eexists; reflexivity.
  - destruct (follows_first _ _ _ _ _ Ha) as [later Hl].
    eexists; exists later; split; [exact Hl|reflexivity].
  - destruct (follows_first _ _ _ _ _ Hb) as [later Hl].
    eexists; exists later; split; [exact Hl|reflexivity].
  - destruct (follows_first _ _ _ _ _ Hs) as [later Hl].
    eexists; exists later; split; [exact Hl|reflexivity].
Qed.

Lemma entry_fields_witness :
  let w := Sample.world [] true in
  let attrs := [tg.DocumentAttributeFilename "report.pdf"] in
  let q := InsertFile
             (models.mkFile (Sample.uuid 0) "report.pdf" "file" octet_stream
                (Some 1024) "document" false ingesting_user "active"
                (Some 2523726746) None (Sample.clock 0) (Sample.clock 1)) in
  findFileName attrs <> EmptyString /\
  SelectOne (db w) = None /\
  In q (execs (snd (Standalone.processDocument
                      (Some (tg.Document 77 1024 attrs)) 2523726746 w))) /\
  (In q (execs w) \/
   (common_fields w 1024 q /\ row_parent_id (stmt_row q) = None /\
    row_status (stmt_row q) = Some "active" /\
    row_channel_id (stmt_row q) = Some 2523726746)).
Proof.
  cbv zeta.
  assert (Hname : findFileName [tg.DocumentAttributeFilename "report.pdf"]
                  <> EmptyString) by (simpl; discriminate).
  assert (Hping : SelectOne (db (Sample.world [] true)) = None) by reflexivity.
  assert (Hin : In (InsertFile
             (models.mkFile (Sample.uuid 0) "report.pdf" "file" octet_stream
                (Some 1024) "document" false ingesting_user "active"
                (Some 2523726746) None (Sample.clock 0) (Sample.clock 1)))
            (execs (snd (Standalone.processDocument
                      (Some (tg.Document 77 1024
                               [tg.DocumentAttributeFilename "report.pdf"]))
                      2523726746 (Sample.world [] true)))))
    by (vm_compute; left; reflexivity).
  split; [exact Hname|split; [exact Hping|split; [exact Hin|]]].
  exact (proj1 (entry_fields (tables := Sample.tables) 0 "" (fun _ => EmptyString) 1 77 1024 2523726746
                  1746878400 (tg.PeerChannel 2523726746)
                  [tg.DocumentAttributeFilename "report.pdf"]
                  (Sample.world [] true) _ Hname Hping) Hin).
Defined.

(* ================================================================== *)
(** * Further properties of the handlers *)
(* ================================================================== *)

(** ** The mapping of channel ids *)



(** X2.  With a positive channel id x in the configuration, both
    handlers runApplication starts accept, among the messages whose
    channel id is in the internal encoding, exactly those of channel x:
    BotHandler, which gets x as it is, and the integrated bot, which gets
    -10^12 - x. *)
Theorem started_handlers_accept (conf : run.BotConfig) (channelID : Z) :
  0 < run.ChannelId conf ->
  Int64.min <= - 10 ^ 12 - run.ChannelId conf ->
  run.Enabled conf = true ->
  0 < channelID ->
  accepts (run.botHandler_channelId conf) channelID
    = (channelID =? run.ChannelId conf) /\
  exists c, run.integratedBot_args conf = Some (c, run.ParentId conf) /\
            c = - 10 ^ 12 - run.ChannelId conf /\
            accepts c channelID = (channelID =? run.ChannelId conf).
Proof.
  intros Hx Hfit Hen Hch.
  split.
  - unfold run.botHandler_channelId.
    rewrite (accepts_internal _ _ Hch).
    rewrite normalize_identity by lia. reflexivity.
  - unfold run.integratedBot_args. rewrite Hen.
    assert (Hconv : to_bot_format (run.ChannelId conf)
                    = - 10 ^ 12 - run.ChannelId conf).
    { unfold to_bot_format, Int64.sub.
      assert (H0 : (0 <? run.ChannelId conf) = true) by (apply Z.ltb_lt; lia).
      rewrite H0. change (-1000000000000) with (- 10 ^ 12).
      apply wrap_in_range.
      unfold Int64.in_range, Int64.min, Int64.max in *; lia. }
    exists (to_bot_format (run.ChannelId conf)).
    split; [reflexivity|split; [exact Hconv|]].
    rewrite (accepts_internal _ _ Hch). rewrite Hconv.
    rewrite normalize_broadcast by lia.
    rewrite wrap_in_range
      by (unfold Int64.in_range, Int64.min, Int64.max in *; lia).
    f_equal. lia.
Qed.

Lemma started_handlers_accept_witness :
  let conf := run.mkBotConfig "7331706161:token" 2523726746 "" true in
  accepts (run.botHandler_channelId conf) 2523726746
    = (2523726746 =? run.ChannelId conf) /\
  exists c, run.integratedBot_args conf = Some (c, run.ParentId conf) /\
            c = - 10 ^ 12 - run.ChannelId conf /\
            accepts c 2523726746 = (2523726746 =? run.ChannelId conf).
Proof.
  cbv zeta.
  apply (started_handlers_accept
           (run.mkBotConfig "7331706161:token" 2523726746 "" true) 2523726746).
  - simpl. lia.
  - simpl. unfold Int64.min. lia.
  - reflexivity.
  - lia.
Defined.

(** ** The file name of a document *)

(** X3.  The name of a document is that of its first filename
    attribute, whatever attributes come before or after it; a document
    has a name only if such an attribute is among its attributes. *)
Theorem findFileName_first (before after : list tg.DocumentAttributeClass)
    (FileName : string) :
  existsb isFilename before = false ->
  findFileName (before ++ tg.DocumentAttributeFilename FileName :: after)
    = FileName /\
  (forall Attributes,
     findFileName Attributes <> EmptyString ->
     In (tg.DocumentAttributeFilename (findFileName Attributes)) Attributes).
Proof.
  intros Hno. split.
  - induction before as [|a rest IH]; simpl in *.
    + reflexivity.
    + apply orb_false_iff in Hno. destruct Hno as [Ha Hrest].
      destruct a; simpl in Ha; try discriminate; apply IH; exact Hrest.
  - induction Attributes as [|a rest IH]; simpl; intros Hname.
    + contradiction.
    + destruct a; try (right; apply IH; exact Hname).
      left. reflexivity.
Qed.

Lemma findFileName_first_witness :
  findFileName ([tg.DocumentAttributeImageSize 640 480; tg.DocumentAttributeAnimated]
                ++ tg.DocumentAttributeFilename "clip.gif"
                :: [tg.DocumentAttributeFilename "other.gif"]) = "clip.gif".
Proof.
  apply (findFileName_first
           [tg.DocumentAttributeImageSize 640 480; tg.DocumentAttributeAnimated]
           [tg.DocumentAttributeFilename "other.gif"] "clip.gif").
  reflexivity.
Defined.

(** ** Messages that are dropped before any insert *)

(** X4.  A channel message whose media is missing or is not a document
    (a text, a photo, a location) changes nothing in any of the four
    handlers, from whatever channel it comes: no statement, no id drawn,
    nothing logged at Warn or Error. *)
Theorem non_document_ignored {S : Type} `{Store S} {tables : unicode.Tables}
    (channelId : Z) (parentId : string) (TypeByExtension : string -> string)
    (msgID Date : Z) (PeerID : tg.PeerClass)
    (Media : option tg.MessageMediaClass) (w : World S) :
  is_document Media = false ->
  let message := tg.Message msgID PeerID Media Date in
  Standalone.handleChannelMessage channelId message w = (tt, w) /\
  BotHandler.Handle_update channelId (tg.UpdateNewChannelMessage message) w
    = (tt, w) /\
  Integrated.handleChannelMessage channelId parentId message w = (tt, w) /\
  SimpleBot.handleChannelMessage channelId parentId TypeByExtension message w
    = (tt, w).
Proof.
  intros Hmedia. cbv zeta.
  unfold Standalone.handleChannelMessage, BotHandler.Handle_update,
    Integrated.handleChannelMessage, SimpleBot.handleChannelMessage,
    BotHandler.handleNewMessage.
  destruct PeerID as [u|g|ch]; try (repeat split; reflexivity).
  destruct ((ch =? channelId) || (ch =? normalize channelId));
    destruct (ch =? SimpleBot.actualConfiguredID channelId);
    destruct Media as [[| | | | |d|]|]; try discriminate;
    repeat split; reflexivity.
Qed.

Lemma non_document_ignored_witness :
  Standalone.handleChannelMessage (-1002523726746)
    (tg.Message 5 (tg.PeerChannel 2523726746) (Some tg.MessageMediaPhoto)
                1746878400)
    (Sample.world [] true) = (tt, Sample.world [] true).
Proof.
  apply (non_document_ignored (tables := Sample.tables) (-1002523726746) "" (fun _ => EmptyString)
           5 1746878400 (tg.PeerChannel 2523726746) (Some tg.MessageMediaPhoto)
           (Sample.world [] true)).
  reflexivity.
Defined.

(** X5.  A document media without a document, or with an empty one, is
    answered by the error "Failed to cast document to *tg.Document" and
    nothing else: processDocument of Standalone, Integrated and SimpleBot
    and handleNewMessage of BotHandler execute no statement and draw no
    id. *)
Theorem broken_document_logged {S : Type} `{Store S} {tables : unicode.Tables}
    (channelId : Z) (parentId : string) (TypeByExtension : string -> string)
    (msgID channelID Date : Z) (PeerID : tg.PeerClass)
    (document : option tg.DocumentClass) (w : World S) :
  is_full_document document = false ->
  let failed := (tt, logged w Err "Failed to cast document to *tg.Document") in
  Standalone.processDocument document channelID w = failed /\
  Integrated.processDocument parentId document channelID w = failed /\
  SimpleBot.processDocument parentId TypeByExtension document channelID w
    = failed /\
  BotHandler.handleNewMessage channelId
    (tg.Message msgID PeerID (Some (tg.MessageMediaDocument document)) Date) w
    = failed.
Proof.
  intros Hdoc. cbv zeta.
  destruct document as [[id|id size attrs]|]; try discriminate;
    repeat split; reflexivity.
Qed.

Lemma broken_document_logged_witness :
  Standalone.processDocument (Some (tg.DocumentEmpty 77)) 2523726746
                             (Sample.world [] true)
  = (tt, logged (Sample.world [] true) Err
               "Failed to cast document to *tg.Document").
Proof.
  apply (broken_document_logged (tables := Sample.tables) 0 "" (fun _ => EmptyString) 1 2523726746 0
           (tg.PeerChannel 2523726746) (Some (tg.DocumentEmpty 77))
           (Sample.world [] true)).
  reflexivity.
Defined.

(** X6.  When the connection test before the insert fails, Standalone,
    BotHandler and SimpleBot execute no statement: the store is the one
    before, the error "Database connection test failed" is logged, and
    the id and the two readings of the clock taken for the entry are
    lost. *)
Theorem connection_test_failure {S : Type} `{Store S}
    (channelId : Z) (parentId : string) (TypeByExtension : string -> string)
    (msgID docID Size channelID Date : Z) (PeerID : tg.PeerClass)
    (Attributes : list tg.DocumentAttributeClass) (err : string) (w : World S) :
  findFileName Attributes <> EmptyString ->
  SelectOne (db w) = Some err ->
  let document := Some (tg.Document docID Size Attributes) in
  let dropped :=
    (tt, logged (advanced w 1 2) Err "Database connection test failed") in
  Standalone.processDocument document channelID w = dropped /\
  SimpleBot.processDocument parentId TypeByExtension document channelID w
    = dropped /\
  BotHandler.handleNewMessage channelId
    (tg.Message msgID PeerID (Some (tg.MessageMediaDocument document)) Date) w
    = dropped.
Proof.
  intros Hname Hping. cbv zeta.
  unfold Standalone.processDocument, SimpleBot.processDocument,
    BotHandler.handleNewMessage.
  rewrite (eqb_empty_false _ Hname).
  unfold bind, uuid_New, time_Now, db_SelectOne. cbn [db].
  rewrite Hping.
  repeat split; reflexivity.
Qed.

Lemma connection_test_failure_witness :
  Standalone.processDocument (Sample.document "report.pdf" 1024) 2523726746
                             (Sample.world [] false)
  = (tt, logged (advanced (Sample.world [] false) 1 2) Err
               "Database connection test failed").
Proof.
  apply (connection_test_failure 0 "" (fun _ => EmptyString) 1 77 1024
           2523726746 0 (tg.PeerChannel 2523726746)
           [tg.DocumentAttributeImageSize 10 10;
            tg.DocumentAttributeFilename "report.pdf"]
           Pg.connection_refused (Sample.world [] false)).
  - simpl. discriminate.
  - reflexivity.
Defined.

(** ** The insert that succeeds *)

(** X7.  When the store accepts the first insert of a named document,
    Standalone, SimpleBot and BotHandler are done: that statement is the
    only one executed, the store is the one it left, nothing is logged at
    Warn or Error, and one id and two readings of the clock have been
    used. *)
Theorem accepted_insert {S : Type} `{Store S}
    (channelId : Z) (parentId : string) (TypeByExtension : string -> string)
    (msgID docID Size channelID Date : Z) (PeerID : tg.PeerClass)
    (Attributes : list tg.DocumentAttributeClass) (w : World S) :
  findFileName Attributes <> EmptyString ->
  SelectOne (db w) = None ->
  let fileName := findFileName Attributes in
  let document := Some (tg.Document docID Size Attributes) in
  let done := fun q s' => (tt, executed (advanced w 1 2) q s') in
  (forall q s' r,
     first_statement (Standalone_plan w fileName Size channelID) q ->
     Exec (db w) q = (s', r) -> Error r = None ->
     Standalone.processDocument document channelID w = done q s') /\
  (forall q s' r,
     first_statement
       (SimpleBot_plan w parentId (SimpleBot.mimeTypeOf TypeByExtension Attributes)
                       fileName Size channelID) q ->
     Exec (db w) q = (s', r) -> Error r = None ->
     SimpleBot.processDocument parentId TypeByExtension document channelID w
       = done q s') /\
  (forall q s' r,
     first_statement (BotHandler_plan w channelId fileName Size) q ->
     Exec (db w) q = (s', r) -> Error r = None ->
     BotHandler.handleNewMessage channelId
       (tg.Message msgID PeerID (Some (tg.MessageMediaDocument document)) Date) w
       = done q s').
Proof.
  intros Hname Hping. cbv zeta.
  unfold Standalone.processDocument, SimpleBot.processDocument,
    BotHandler.handleNewMessage.
  rewrite (eqb_empty_false _ Hname).
  unfold bind, uuid_New, time_Now, db_SelectOne, db_Exec, ret. cbn [db].
  rewrite Hping. cbn [db execs logs uuid_src uuid_pos clock_src clock_pos].
  repeat split; intros q s' r [rest Hq] Hexec Herr;
    injection Hq as <- _; unfold uuid_at, time_at in Hexec; cbn [Nat.add] in Hexec;
    rewrite Hexec; rewrite Herr; reflexivity.
Qed.

Lemma accepted_insert_witness :
  let w := Sample.world [] true in
  let q := InsertFile
             (models.mkFile (Sample.uuid 0) "report.pdf" "file" octet_stream
                (Some 1024) "document" false ingesting_user "active"
                (Some 2523726746) None (Sample.clock 0) (Sample.clock 1)) in
  Standalone.processDocument (Sample.document "report.pdf" 1024) 2523726746 w
  = (tt, executed (advanced w 1 2) q (fst (Exec (db w) q))).
Proof.
  cbv zeta.
  apply (proj1 (accepted_insert 0 "" (fun _ => EmptyString) 1 77 1024
                  2523726746 0 (tg.PeerChannel 2523726746)
                  [tg.DocumentAttributeImageSize 10 10;
                   tg.DocumentAttributeFilename "report.pdf"]
                  (Sample.world [] true)
                  ltac:(simpl; discriminate) eq_refl)
          _ _ (mkExecResult None 1)).
  - exists [InsertFile
              (models.with_ID
                 (models.with_Name
                    (models.mkFile (Sample.uuid 0) "report.pdf" "file"
                       octet_stream (Some 1024) "document" false ingesting_user
                       "active" (Some 2523726746) None (Sample.clock 0)
                       (Sample.clock 1))
                    ("report.pdf" ++ "_" ++
                     time.Format_20060102_150405 (Sample.clock 2))%string)
                 (Sample.uuid 1))].
    reflexivity.
  - vm_compute. reflexivity.
  - reflexivity.
Defined.

(** ** Batches and short updates *)

Section Batches.

Context {S : Type} `{Store S} {tables : unicode.Tables}.
Variables (channelId : Z) (parentId : string).
Variable TypeByExtension : string -> string.

(** A loop over a batch skips the updates its body does nothing for. *)
Lemma forEach_filter {A : Type} (keep : A -> bool) (body : A -> M unit)
    (xs : list A) (w : World S) :
  (forall x v, keep x = false -> body x v = (tt, v)) ->
  forEach xs body w = forEach (filter keep xs) body w.
Proof.
  intros Hskip. revert w. induction xs as [|x rest IH]; intros w; simpl.
  - reflexivity.
  - destruct (keep x) eqn:Hk; simpl; unfold bind.
    + destruct (body x w) as [u w1]. apply IH.
    + rewrite (Hskip x w Hk). apply IH.
Qed.

End Batches.

(** X8.  A batch is handled update by update, in its order: handling
    the batch us ++ vs is handling us and then vs in the world that us
    left.  This holds in the four handlers. *)
Theorem batch_in_order {S : Type} `{Store S} {tables : unicode.Tables}
    (channelId : Z) (parentId : string) (TypeByExtension : string -> string)
    (us vs : list tg.UpdateClass) (w : World S) :
  Standalone.Handle channelId (tg.Updates (us ++ vs)) w
    = Standalone.Handle channelId (tg.Updates vs)
        (snd (Standalone.Handle channelId (tg.Updates us) w)) /\
  BotHandler.Handle channelId (tg.Updates (us ++ vs)) w
    = BotHandler.Handle channelId (tg.Updates vs)
        (snd (BotHandler.Handle channelId (tg.Updates us) w)) /\
  Integrated.Handle channelId parentId (tg.Updates (us ++ vs)) w
    = Integrated.Handle channelId parentId (tg.Updates vs)
        (snd (Integrated.Handle channelId parentId (tg.Updates us) w)) /\
  SimpleBot.Handle channelId parentId TypeByExtension (tg.Updates (us ++ vs)) w
    = SimpleBot.Handle channelId parentId TypeByExtension (tg.Updates vs)
        (snd (SimpleBot.Handle channelId parentId TypeByExtension
                (tg.Updates us) w)).
Proof.
  repeat split; apply forEach_app.
Qed.

(** X9.  Only the new channel messages of a batch count: a batch is
    handled as the batch of its UpdateNewChannelMessage updates, the other
    updates in it (new direct messages, edits, deletions) change nothing.
    This holds in the four handlers. *)
Theorem batch_of_channel_messages {S : Type} `{Store S} {tables : unicode.Tables}
    (channelId : Z) (parentId : string) (TypeByExtension : string -> string)
    (us : list tg.UpdateClass) (w : World S) :
  let kept := filter is_channel_update us in
  Standalone.Handle channelId (tg.Updates us) w
    = Standalone.Handle channelId (tg.Updates kept) w /\
  BotHandler.Handle channelId (tg.Updates us) w
    = BotHandler.Handle channelId (tg.Updates kept) w /\
  Integrated.Handle channelId parentId (tg.Updates us) w
    = Integrated.Handle channelId parentId (tg.Updates kept) w /\
  SimpleBot.Handle channelId parentId TypeByExtension (tg.Updates us) w
    = SimpleBot.Handle channelId parentId TypeByExtension (tg.Updates kept) w.
Proof.
  cbv zeta. repeat split; apply forEach_filter;
    intros u v Hu; destruct u; try discriminate; reflexivity.
Qed.

(** ** The unique name of Integrated *)

Section Strings.

Lemma append_nil_r (s : string) : (s ++ "")%string = s.
Proof. induction s as [|c s IH]; simpl; [reflexivity|rewrite IH; reflexivity]. Qed.

Lemma append_assoc (a b c : string) :
  ((a ++ b) ++ c)%string = (a ++ b ++ c)%string.
Proof. induction a as [|x a IH]; simpl; [reflexivity|rewrite IH; reflexivity]. Qed.

Lemma length_append (a b : string) :
  String.length (a ++ b) = (String.length a + String.length b)%nat.
Proof. induction a as [|x a IH]; simpl; [reflexivity|rewrite IH; reflexivity]. Qed.

Lemma substring_all (s : string) : substring 0 (String.length s) s = s.
Proof. induction s as [|c s IH]; simpl; [reflexivity|rewrite IH; reflexivity]. Qed.

(** The two slices of a string at the end of a prefix. *)
Lemma slice_to_append (a b : string) : slice_to (a ++ b) (String.length a) = a.
Proof.
  unfold slice_to. induction a as [|x a IH]; simpl.
  - destruct b; reflexivity.
  - rewrite IH. reflexivity.
Qed.

Lemma slice_from_append (a b : string) : slice_from (a ++ b) (String.length a) = b.
Proof.
  unfold slice_from. induction a as [|x a IH]; simpl.
  - rewrite Nat.sub_0_r. apply substring_all.
  - exact IH.
Qed.

Lemma lacks_append (c : ascii) (a b : string) :
  lacks c (a ++ b) = lacks c a && lacks c b.
Proof.
  induction a as [|x a IH]; simpl; [reflexivity|].
  rewrite IH. apply andb_assoc.
Qed.

Lemma prefix_dot (c : ascii) (s : string) :
  prefix "." (String c s) = Ascii.eqb c "."%char.
Proof.
  change (prefix "." (String c s))
    with (if ascii_dec "."%char c then prefix EmptyString s else false).
  destruct (ascii_dec "."%char c) as [<-|Hne].
  - rewrite Ascii.eqb_refl. destruct s; reflexivity.
  - symmetry. apply Ascii.eqb_neq. congruence.
Qed.

(** Where [strings.LastIndex] finds the last dot: the string is a base,
    the dot and a tail without dot, or it has no dot at all. *)
Lemma LastIndex_dot (s : string) (at_ : Z) :
  0 <= at_ ->
  (lacks "."%char s = true /\ strings.LastIndex_at s "." at_ = -1) \/
  (exists base tail,
     s = (base ++ String "."%char tail)%string /\
     lacks "."%char tail = true /\
     strings.LastIndex_at s "." at_ = at_ + Z.of_nat (String.length base)).
Proof.
  revert at_. induction s as [|c s IH]; intros at_ Hat.
  - left. split; reflexivity.
  - cbn [strings.LastIndex_at]. rewrite prefix_dot.
    destruct (IH (at_ + 1) ltac:(lia)) as [[Hno Hidx]|(base & tail & Hs & Htail & Hidx)].
    + rewrite Hidx. cbn [Z.leb Z.compare].
      destruct (Ascii.eqb_spec c "."%char) as [->|Hne].
      * right. exists EmptyString, s. simpl.
        split; [reflexivity|split; [exact Hno|lia]].
      * left. simpl. split; [|reflexivity].
        rewrite Hno. apply andb_true_iff. split; [|reflexivity].
        apply negb_true_iff. apply Ascii.eqb_neq. exact Hne.
    + rewrite Hidx.
      assert (Hle : (0 <=? at_ + 1 + Z.of_nat (String.length base)) = true)
        by (apply Z.leb_le; lia).
      rewrite Hle.
      right. exists (String c base), tail. simpl.
      split; [rewrite Hs; reflexivity|split; [exact Htail|lia]].
Qed.

(** The extension of a path that ends in a dot and a tail without dot:
    what comes before the dot does not matter. *)
Lemma ext_suffix_tail (tail : string) :
  lacks "."%char tail = true -> filepath.ext_suffix tail = None.
Proof.
  induction tail as [|c t IH]; simpl; intros Hno; [reflexivity|].
  apply andb_true_iff in Hno. destruct Hno as [Hc Ht].
  rewrite (IH Ht).
  apply negb_true_iff in Hc. rewrite Hc.
  destruct (filepath.has_separator t); reflexivity.
Qed.

Lemma has_separator_append (a b : string) :
  filepath.has_separator (a ++ b)
  = filepath.has_separator a || filepath.has_separator b.
Proof.
  induction a as [|x a IH]; simpl; [reflexivity|].
  rewrite IH. apply orb_assoc.
Qed.

Lemma ext_suffix_dotted (before tail : string) :
  lacks "."%char tail = true ->
  filepath.ext_suffix (before ++ String "."%char tail)
  = if filepath.has_separator tail then None else Some (String "."%char tail).
Proof.
  intros Hno. induction before as [|c b IH].
  - simpl. rewrite (ext_suffix_tail _ Hno). reflexivity.
  - cbn [append filepath.ext_suffix]. rewrite IH.
    destruct (filepath.has_separator tail) eqn:Hsep; [|reflexivity].
    rewrite has_separator_append. simpl. rewrite Hsep.
    rewrite !orb_true_r. reflexivity.
Qed.

Lemma Ext_dotted (before tail : string) :
  lacks "."%char tail = true ->
  filepath.Ext (before ++ String "."%char tail)
  = if filepath.has_separator tail then EmptyString else String "."%char tail.
Proof.
  intros Hno. unfold filepath.Ext. rewrite (ext_suffix_dotted _ _ Hno).
  destruct (filepath.has_separator tail); reflexivity.
Qed.

Lemma Ext_dotless (s : string) :
  lacks "."%char s = true -> filepath.Ext s = EmptyString.
Proof.
  intros Hno. unfold filepath.Ext. rewrite (ext_suffix_tail _ Hno). reflexivity.
Qed.

(** The unique name, by the place of the last dot. *)
Lemma uniqueName_dotted (base tail timestamp uniqueID : string) :
  lacks "."%char tail = true ->
  Integrated.uniqueName (base ++ String "."%char tail) timestamp uniqueID
  = (base ++ "_" ++ timestamp ++ "_" ++ uniqueID ++ String "."%char tail)%string.
Proof.
  intros Hno. unfold Integrated.uniqueName, strings.LastIndex.
  destruct (LastIndex_dot (base ++ String "."%char tail) 0 ltac:(lia))
    as [[Hnone _]|(b & t & Hs & Ht & Hidx)].
  - rewrite lacks_append in Hnone. simpl in Hnone.
    rewrite andb_false_r in Hnone. discriminate.
  - assert (Hsame : b = base /\ t = tail).
    { clear Hidx. revert b Hs. induction base as [|c base IH]; intros b Hs.
      - destruct b as [|x b]; simpl in Hs.
        + injection Hs as ->. split; reflexivity.
        + injection Hs as <- Hs. rewrite Hs in Hno.
          rewrite lacks_append in Hno. simpl in Hno.
          rewrite andb_false_r in Hno. discriminate.
      - destruct b as [|x b]; simpl in Hs.
        + injection Hs as -> Hs. rewrite <- Hs in Ht.
          rewrite lacks_append in Ht. simpl in Ht.
          rewrite andb_false_r in Ht. discriminate.
        + injection Hs as <- Hs. destruct (IH b Hs) as [-> ->].
          split; reflexivity. }
    destruct Hsame as [-> ->].
    rewrite Hidx.
    assert (Hle : (0 <=? 0 + Z.of_nat (String.length base)) = true)
      by (apply Z.leb_le; lia).
    rewrite Hle. rewrite Z.add_0_l, Nat2Z.id.
    rewrite slice_to_append, slice_from_append. reflexivity.
Qed.

Lemma uniqueName_dotless (fileName timestamp uniqueID : string) :
  lacks "."%char fileName = true ->
  Integrated.uniqueName fileName timestamp uniqueID
  = (fileName ++ "_" ++ timestamp ++ "_" ++ uniqueID)%string.
Proof.
  intros Hno. unfold Integrated.uniqueName, strings.LastIndex.
  destruct (LastIndex_dot fileName 0 ltac:(lia))
    as [[_ Hidx]|(b & t & Hs & Ht & _)].
  - rewrite Hidx. simpl. rewrite append_nil_r. reflexivity.
  - rewrite Hs in Hno. rewrite lacks_append in Hno. simpl in Hno.
    rewrite andb_false_r in Hno. discriminate.
Qed.

(** Every name is of one of the two kinds. *)
Lemma dotted_or_dotless (s : string) :
  lacks "."%char s = true \/
  exists base tail, s = (base ++ String "."%char tail)%string /\
                    lacks "."%char tail = true.
Proof.
  destruct (LastIndex_dot s 0 ltac:(lia)) as [[Hno _]|(b & t & Hs & Ht & _)].
  - left. exact Hno.
  - right. exists b, t. split; assumption.
Qed.

(** The unique name cut at the last dot of the name. *)
Lemma uniqueName_cut (fileName timestamp uniqueID : string) :
  exists base ext,
    fileName = (base ++ ext)%string /\
    (ext = EmptyString \/
     exists tail, ext = String "."%char tail /\ lacks "."%char tail = true) /\
    Integrated.uniqueName fileName timestamp uniqueID
    = (base ++ "_" ++ timestamp ++ "_" ++ uniqueID ++ ext)%string.
Proof.
  destruct (dotted_or_dotless fileName) as [Hno|(base & tail & -> & Htail)].
  - exists fileName, EmptyString.
    split; [symmetry; apply append_nil_r|split; [left; reflexivity|]].
    rewrite (uniqueName_dotless _ _ _ Hno). rewrite append_nil_r. reflexivity.
  - exists base, (String "."%char tail).
    split; [reflexivity|split].
    + right. exists tail. split; [reflexivity|exact Htail].
    + apply uniqueName_dotted. exact Htail.
Qed.

Lemma uniqueName_new (fileName timestamp uniqueID : string) :
  Integrated.uniqueName fileName timestamp uniqueID <> fileName.
Proof.
  destruct (uniqueName_cut fileName timestamp uniqueID)
    as (base & ext & Hf & _ & Hu).
  intros Heq. rewrite Hu in Heq.
  apply (f_equal String.length) in Heq.
  rewrite Hf in Heq.
  rewrite !length_append in Heq. simpl in Heq. lia.
Qed.

Lemma uniqueName_Ext (fileName timestamp uniqueID : string) :
  lacks "."%char timestamp = true ->
  lacks "."%char uniqueID = true ->
  filepath.Ext (Integrated.uniqueName fileName timestamp uniqueID)
    = filepath.Ext fileName.
Proof.
  intros Hts Hid.
  destruct (dotted_or_dotless fileName) as [Hno|(base & tail & -> & Htail)].
  - rewrite (uniqueName_dotless _ _ _ Hno).
    rewrite (Ext_dotless _ Hno). apply Ext_dotless.
    rewrite !lacks_append. rewrite Hno, Hts, Hid. reflexivity.
  - rewrite (uniqueName_dotted _ _ _ _ Htail).
    rewrite (Ext_dotted base tail Htail).
    replace (base ++ "_" ++ timestamp ++ "_" ++ uniqueID ++ String "."%char tail)%string
      with ((base ++ "_" ++ timestamp ++ "_" ++ uniqueID) ++ String "."%char tail)%string
      by (rewrite !append_assoc; reflexivity).
    apply Ext_dotted. exact Htail.
Qed.

Lemma uniqueName_mimeType {tables : unicode.Tables} (fileName timestamp uniqueID : string) :
  lacks "."%char timestamp = true ->
  lacks "."%char uniqueID = true ->
  Integrated.mimeTypeFor (Integrated.uniqueName fileName timestamp uniqueID)
    = Integrated.mimeTypeFor fileName.
Proof.
  intros Hts Hid. unfold Integrated.mimeTypeFor.
  rewrite (uniqueName_Ext _ _ _ Hts Hid). reflexivity.
Qed.

End Strings.


(** X11.  The unique name keeps the extension of the name, as
    filepath.Ext gives it, when the timestamp and the token have no dot in
    them; so Integrated finds the same MIME type for it as for the name
    itself. *)
Theorem uniqueName_keeps_extension {tables : unicode.Tables} (fileName timestamp uniqueID : string) :
  lacks "."%char timestamp = true ->
  lacks "."%char uniqueID = true ->
  filepath.Ext (Integrated.uniqueName fileName timestamp uniqueID)
    = filepath.Ext fileName /\
  Integrated.mimeTypeFor (Integrated.uniqueName fileName timestamp uniqueID)
    = Integrated.mimeTypeFor fileName.
Proof.
  intros Hts Hid.
  split; [apply uniqueName_Ext|apply uniqueName_mimeType]; assumption.
Qed.

Lemma uniqueName_keeps_extension_witness :
  let tables := Sample.tables in
  filepath.Ext (Integrated.uniqueName "Report.final.PDF" "20250510_120000" "ab12cd34")
    = filepath.Ext "Report.final.PDF" /\
  Integrated.mimeTypeFor
    (Integrated.uniqueName "Report.final.PDF" "20250510_120000" "ab12cd34")
    = Integrated.mimeTypeFor "Report.final.PDF".
Proof.
  apply (uniqueName_keeps_extension "Report.final.PDF" "20250510_120000" "ab12cd34");
    reflexivity.
Defined.

(** ** Integrated: one insert, never a second *)

Lemma digit_no_dot (n : nat) : Ascii.eqb (time.digit n) "."%char = false.
Proof.
  unfold time.digit.
  pose proof (Nat.mod_upper_bound n 10 ltac:(discriminate)) as Hlt.
  destruct (n mod 10)%nat as [|[|[|[|[|[|[|[|[|[|m]]]]]]]]]];
    try reflexivity; lia.
Qed.

(** The timestamp the handlers print has no dot. *)
Lemma Format_lacks_dot (t : time.Time) :
  lacks "."%char (time.Format_20060102_150405 t) = true.
Proof.
  unfold time.Format_20060102_150405, time.pad4, time.pad2.
  cbn [append lacks]. rewrite !digit_no_dot. reflexivity.
Qed.

(** X12.  For a document with a name Integrated executes one statement
    and stops, whatever the answer: after an error, a duplicate key
    included, it logs "Failed to insert file into database"; after an
    answer without error that touched no row it logs the warning "No rows
    affected when inserting file"; else it logs nothing.  The statement
    carries the name of the document exactly when the lookup by name and
    owner found no entry (or failed), and the MIME type of the name of the
    document in any case, provided the id the token is cut from has no
    dot. *)
Theorem Integrated_single_insert {S : Type} `{Store S} {tables : unicode.Tables}
    (parentId : string) (docID Size channelID : Z)
    (Attributes : list tg.DocumentAttributeClass) (w : World S) :
  findFileName Attributes <> EmptyString ->
  let fileName := findFileName Attributes in
  let w' := snd (Integrated.processDocument parentId
                   (Some (tg.Document docID Size Attributes)) channelID w) in
  exists q,
    Integrated_plan w parentId fileName Size = [q] /\
    execs w' = (execs w ++ [q])%list /\
    db w' = fst (Exec (db w) q) /\
    logs w' =
      (logs w ++
       match Error (snd (Exec (db w) q)) with
       | Some _ => [(Err, "Failed to insert file into database")]
       | None =>
           if RowsAffected (snd (Exec (db w) q)) =? 0
           then [(Warn, "No rows affected when inserting file")]
           else []
       end)%list /\
    (row_name (stmt_row q) = fileName <->
     FirstByName (db w) fileName ingesting_user <> None) /\
    (lacks "."%char (slice_to (uuid_at w 0) 8) = true ->
     row_mime_type (stmt_row q) = Integrated.mimeTypeFor fileName).
Proof.
  intros Hname. cbv zeta.
  unfold Integrated.processDocument, Integrated_plan.
  rewrite (eqb_empty_false _ Hname).
  unfold bind, ret, db_FirstByName, db_Exec, uuid_New, time_Now, logger,
    uuid_at, time_at.
  cbn [db execs logs uuid_src uuid_pos clock_src clock_pos Nat.add].
  destruct (FirstByName (db w) (findFileName Attributes) ingesting_user)
    as [e|] eqn:Hfind;
    cbn [db execs logs uuid_src uuid_pos clock_src clock_pos Nat.add];
    eexists; (split; [reflexivity|]);
    match goal with
    | |- context [Exec (db w) ?q] =>
        destruct (Exec (db w) q) as [s' [[err|] n]]
    end;
    cbn [fst snd Error RowsAffected db execs logs];
    try (destruct (n =? 0));
    cbn [fst snd Error RowsAffected db execs logs];
    rewrite ?app_nil_r;
    (split; [reflexivity|split; [reflexivity|split; [reflexivity|]]]);
    cbn [stmt_row row_name row_mime_type].
  all: split;
    [ first
        [ split; [intros _; discriminate | intros _; reflexivity]
        | split; [ intros Heq; exfalso;
                   exact (uniqueName_new _ _ _ Heq)
                 | intros Hx; exfalso; apply Hx; reflexivity ] ]
    | first
        [ intros _; reflexivity
        | intros Hid; apply uniqueName_mimeType;
          [apply Format_lacks_dot | exact Hid] ] ].
Qed.

Lemma Integrated_single_insert_witness :
  let tables := Sample.tables in
  findFileName [tg.DocumentAttributeFilename "report.pdf"] <> EmptyString /\
  List.length
    (execs (snd (Integrated.processDocument "dir-1"
                   (Some (tg.Document 77 1024
                            [tg.DocumentAttributeFilename "report.pdf"]))
                   2523726746
                   (Sample.world [Sample.entry "a" "report.pdf"] true))))
  = 1%nat.
Proof.
  assert (Hname : findFileName [tg.DocumentAttributeFilename "report.pdf"]
                  <> EmptyString) by (simpl; discriminate).
  split; [exact Hname|].
  destruct (Integrated_single_insert (tables := Sample.tables) "dir-1" 77 1024 2523726746
              [tg.DocumentAttributeFilename "report.pdf"]
              (Sample.world [Sample.entry "a" "report.pdf"] true) Hname)
    as (q & _ & Hexecs & _).
  rewrite Hexecs. reflexivity.
Defined.

(** ** The MIME type of an entry *)

(** X13.  SimpleBot reads the MIME type and the name of a document off
    the same attribute: for a document with a name, the type it stores is
    the type the table gives for the extension of that name, the generic
    type when the table has none.  The type is never empty. *)
Theorem SimpleBot_mime_of_name (TypeByExtension : string -> string)
    (Attributes : list tg.DocumentAttributeClass) :
  findFileName Attributes <> EmptyString ->
  let byTable := TypeByExtension (filepath.Ext (findFileName Attributes)) in
  SimpleBot.mimeTypeOf TypeByExtension Attributes
    = (if String.eqb byTable "" then octet_stream else byTable) /\
  SimpleBot.mimeTypeOf TypeByExtension Attributes <> EmptyString.
Proof.
  intros Hname. cbv zeta.
  assert (Heq : SimpleBot.mimeTypeOf TypeByExtension Attributes
    = (if String.eqb (TypeByExtension (filepath.Ext (findFileName Attributes))) ""
       then octet_stream
       else TypeByExtension (filepath.Ext (findFileName Attributes)))).
  { induction Attributes as [|a rest IH]; [exfalso; apply Hname; reflexivity|].
    destruct a; cbn [SimpleBot.mimeTypeOf findFileName] in *;
      try (apply IH; exact Hname); reflexivity. }
  split; [exact Heq|].
  rewrite Heq.
  destruct (String.eqb (TypeByExtension (filepath.Ext (findFileName Attributes))) "")
    eqn:He.
  - discriminate.
  - intros Hempty. rewrite Hempty in He. discriminate.
Qed.

Lemma SimpleBot_mime_of_name_witness :
  findFileName [tg.DocumentAttributeAnimated; tg.DocumentAttributeFilename "a.b.PDF"]
    <> EmptyString /\
  SimpleBot.mimeTypeOf
    (fun ext => if String.eqb ext ".PDF" then "application/pdf" else "")
    [tg.DocumentAttributeAnimated; tg.DocumentAttributeFilename "a.b.PDF"]
  = "application/pdf".
Proof.
  assert (Hname : findFileName
            [tg.DocumentAttributeAnimated; tg.DocumentAttributeFilename "a.b.PDF"]
          <> EmptyString) by (simpl; discriminate).
  split; [exact Hname|].
  rewrite (proj1 (SimpleBot_mime_of_name
                    (fun ext => if String.eqb ext ".PDF" then "application/pdf" else "")
                    _ Hname)).
  reflexivity.
Defined.

(** X14.  The table of Integrated looks at the extension of a name
    through strings.ToLower only, and never gives the empty type: two
    names whose extensions have the same lower case have the same MIME
    type, whatever the Unicode tables of the toolchain are.  With tables
    that lower the capital I with a dot above to i, as those of Go do,
    the name b.Z?p, with that letter for ?, has the type of b.zip. *)
Theorem Integrated_mime_ignores_case {tables : unicode.Tables} (a b : string) :
  strings.ToLower (filepath.Ext a) = strings.ToLower (filepath.Ext b) ->
  Integrated.mimeTypeFor a = Integrated.mimeTypeFor b /\
  Integrated.mimeTypeFor a <> EmptyString.
Proof.
  intros Hext. split.
  - unfold Integrated.mimeTypeFor. cbv zeta.
    destruct (String.eqb (filepath.Ext a) "") eqn:Ha;
      destruct (String.eqb (filepath.Ext b) "") eqn:Hb; cbn [negb].
    + reflexivity.
    + apply String.eqb_eq in Ha. rewrite Ha in Hext.
      change (strings.ToLower EmptyString) with EmptyString in Hext.
      unfold Integrated.mimeTypeOfExt. cbv zeta. rewrite <- Hext. reflexivity.
    + apply String.eqb_eq in Hb. rewrite Hb in Hext.
      change (strings.ToLower EmptyString) with EmptyString in Hext.
      unfold Integrated.mimeTypeOfExt. cbv zeta. rewrite Hext. reflexivity.
    + unfold Integrated.mimeTypeOfExt. cbv zeta. rewrite Hext. reflexivity.
  - unfold Integrated.mimeTypeFor, Integrated.mimeTypeOfExt, octet_stream.
    cbv zeta.
    repeat match goal with
           | |- context [if ?c then _ else _] => destruct c
           end; discriminate.
Qed.

Lemma Integrated_mime_ignores_case_witness :
  let tables := Sample.tables in
  let name := ("b.Z" ++ Sample.dotted_I ++ "p")%string in
  strings.ToLower (filepath.Ext name) = strings.ToLower (filepath.Ext "b.zip") /\
  Integrated.mimeTypeFor name = Integrated.mimeTypeFor "b.zip" /\
  Integrated.mimeTypeFor "b.zip" = "application/zip".
Proof.
  intros tables name.
  assert (Hext : strings.ToLower (filepath.Ext name)
                 = strings.ToLower (filepath.Ext "b.zip"))
    by (vm_compute; reflexivity).
  split; [exact Hext|].
  split; [|vm_compute; reflexivity].
  exact (proj1 (Integrated_mime_ignores_case name "b.zip" Hext)).
Defined.

(** ** The port of the server *)

Section Ports.

Variable Listen : string -> bool.

Let free (port : Z) : bool := Listen (":" ++ fmt.Sprintf_d port)%string.

(** The loop from [port] on, when no port before it is free. *)
Lemma findAvailablePort_loop_spec (startPort : Z) (fuel : nat) (port : Z) :
  Int64.min <= startPort -> startPort + 100 <= Int64.max ->
  startPort <= port <= startPort + 100 ->
  (Z.to_nat (startPort + 100 - port) < fuel)%nat ->
  (forall p, startPort <= p < port -> free p = false) ->
  (exists found,
     startup.findAvailablePort_loop Listen fuel startPort port = Some (Some found) /\
     startPort <= found < startPort + 100 /\ free found = true /\
     forall p, startPort <= p < found -> free p = false) \/
  (startup.findAvailablePort_loop Listen fuel startPort port = Some None /\
   forall p, startPort <= p < startPort + 100 -> free p = false).
Proof.
  intros Hmin Hmax. revert port.
  assert (Hlimit : Int64.wrap (startPort + 100) = startPort + 100).
  { apply wrap_in_range. unfold Int64.in_range, Int64.min, Int64.max in *. lia. }
  induction fuel as [|fuel IH]; intros port Hport Hfuel Hbefore; [lia|].
  cbn [startup.findAvailablePort_loop]. rewrite Hlimit.
  destruct (port <? startPort + 100) eqn:Hlt.
  - apply Z.ltb_lt in Hlt.
    fold (free port).
    destruct (free port) eqn:Hfree.
    + left. exists port. repeat split; try lia; assumption.
    + assert (Hnext : Int64.wrap (port + 1) = port + 1).
      { apply wrap_in_range.
        unfold Int64.in_range, Int64.min, Int64.max in *. lia. }
      rewrite Hnext. apply IH; [lia|lia|].
      intros p Hp. destruct (Z.eq_dec p port) as [->|Hne]; [exact Hfree|].
      apply Hbefore. lia.
  - apply Z.ltb_ge in Hlt. right. split; [reflexivity|].
    intros p Hp. apply Hbefore. lia.
Qed.

End Ports.

(** X15.  findAvailablePort returns the least port from the start port on,
    among a hundred, on which a listener can be opened, and an error,
    with port 0, exactly when there is none; a hundred and one iterations
    of its loop are enough.  runApplication then serves on that port,
    and ends the process on the error. *)
Theorem findAvailablePort_least (Listen : string -> bool) (startPort : Z)
    (fuel : nat) :
  Int64.min <= startPort -> startPort + 100 <= Int64.max ->
  (100 < fuel)%nat ->
  let free := fun port => Listen (":" ++ fmt.Sprintf_d port)%string in
  (exists port,
     startup.findAvailablePort Listen fuel startPort = Some (port, None) /\
     startup.serverPort Listen fuel startPort = Some (Done port) /\
     startPort <= port < startPort + 100 /\ free port = true /\
     forall p, startPort <= p < port -> free p = false) \/
  (exists msg,
     startup.findAvailablePort Listen fuel startPort = Some (0, Some msg) /\
     startup.serverPort Listen fuel startPort = Some Panic /\
     forall p, startPort <= p < startPort + 100 -> free p = false).
Proof.
  intros Hmin Hmax Hfuel. cbv zeta.
  unfold startup.serverPort, startup.findAvailablePort.
  assert (Hport : startPort <= startPort <= startPort + 100) by lia.
  assert (Hsteps : (Z.to_nat (startPort + 100 - startPort) < fuel)%nat) by lia.
  assert (Hbefore : forall p, startPort <= p < startPort ->
                              Listen (":" ++ fmt.Sprintf_d p)%string = false)
    by (intros p Hp; lia).
  destruct (findAvailablePort_loop_spec Listen startPort fuel startPort
              Hmin Hmax Hport Hsteps Hbefore)
    as [(found & Hloop & Hrange & Hfree & Hleast)|(Hloop & Hnone)].
  - left. exists found. rewrite Hloop.
    split; [reflexivity|]. split.
    + destruct (found =? startPort) eqn:He; cbn [negb]; [|reflexivity].
      apply Z.eqb_eq in He. rewrite He. reflexivity.
    + repeat split; try lia; assumption.
  - right. rewrite Hloop. eexists. split; [reflexivity|].
    split; [reflexivity|exact Hnone].
Qed.

Lemma findAvailablePort_least_witness :
  let Listen := fun addr => String.eqb addr ":8082" in
  Int64.min <= 8080 /\ 8080 + 100 <= Int64.max /\ (100 < 101)%nat /\
  ((exists port,
      startup.findAvailablePort Listen 101 8080 = Some (port, None) /\
      startup.serverPort Listen 101 8080 = Some (Done port) /\
      8080 <= port < 8080 + 100 /\
      Listen (":" ++ fmt.Sprintf_d port)%string = true /\
      forall p, 8080 <= p < port ->
                Listen (":" ++ fmt.Sprintf_d p)%string = false) \/
   (exists msg,
      startup.findAvailablePort Listen 101 8080 = Some (0, Some msg) /\
      startup.serverPort Listen 101 8080 = Some Panic /\
      forall p, 8080 <= p < 8080 + 100 ->
                Listen (":" ++ fmt.Sprintf_d p)%string = false)).
Proof.
  cbv zeta.
  assert (H1 : Int64.min <= 8080) by (unfold Int64.min; lia).
  assert (H2 : 8080 + 100 <= Int64.max) by (unfold Int64.max; lia).
  assert (H3 : (100 < 101)%nat) by lia.
  split; [exact H1|]. split; [exact H2|]. split; [exact H3|].
  exact (findAvailablePort_least (fun addr => String.eqb addr ":8082")
           8080 101 H1 H2 H3).
Defined.

(** ** The prefix of the token in the log *)

Lemma prefix_substring (n : nat) (s : string) :
  prefix (substring 0 n s) s = true.
Proof.
  revert n. induction s as [|c s IH]; intros [|n]; try reflexivity.
  cbn [substring prefix].
  destruct (ascii_dec c c) as [_|Hne]; [apply IH|exfalso; apply Hne; reflexivity].
Qed.

Lemma prefix_refl (s : string) : prefix s s = true.
Proof.
  induction s as [|c s IH]; [reflexivity|].
  cbn [prefix].
  destruct (ascii_dec c c) as [_|Hne]; [exact IH|exfalso; apply Hne; reflexivity].
Qed.

Lemma length_substring_le (n : nat) (s : string) :
  (String.length (substring 0 n s) <= n)%nat.
Proof.
  revert n. induction s as [|c s IH]; intros [|n]; cbn [substring String.length];
    try lia.
  specialize (IH n). lia.
Qed.

(** X16.  runApplication, when the integrated bot is enabled, and
    StandaloneBotHandler.Start log the first ten bytes of the token
    without looking at its length: they panic exactly when the token has
    fewer than ten bytes, the empty token included.  BotHandler.Start
    looks at the length first: its prefix is always there, a prefix of
    the token of at most ten bytes, and it turns the empty token down
    with an error before that. *)
Theorem token_prefix_panics (conf : run.BotConfig) :
  let botToken := run.BotToken conf in
  (startup.runApplication_token_prefix conf = Panic <->
     run.Enabled conf = true /\ (String.length botToken < 10)%nat) /\
  (startup.Standalone_token_prefix botToken = Panic <->
     (String.length botToken < 10)%nat) /\
  (exists p, startup.BotHandler_tokenPrefix botToken = Done p /\
             prefix p botToken = true /\ (String.length p <= 10)%nat) /\
  (forall channelId,
     BotHandler.Start_validate channelId EmptyString = Some "bot token is required").
Proof.
  cbv zeta.
  unfold startup.runApplication_token_prefix, startup.Standalone_token_prefix,
    startup.BotHandler_tokenPrefix, checked_slice_to, slice_to.
  split; [|split; [|split]].
  - destruct (run.Enabled conf);
      destruct (10 <=? String.length (run.BotToken conf))%nat eqn:Hlen.
    + apply Nat.leb_le in Hlen. split; [discriminate|intros [_ Hlt]; lia].
    + apply Nat.leb_gt in Hlen. split; [intros _; split; [reflexivity|lia]|reflexivity].
    + split; [discriminate|intros [Hf _]; discriminate].
    + split; [discriminate|intros [Hf _]; discriminate].
  - destruct (10 <=? String.length (run.BotToken conf))%nat eqn:Hlen.
    + apply Nat.leb_le in Hlen. split; [discriminate|lia].
    + apply Nat.leb_gt in Hlen. split; [intros _; lia|reflexivity].
  - destruct (10 <? String.length (run.BotToken conf))%nat eqn:Hlong.
    + apply Nat.ltb_lt in Hlong.
      assert (Hle : (10 <=? String.length (run.BotToken conf))%nat = true)
        by (apply Nat.leb_le; lia).
      rewrite Hle. eexists. split; [reflexivity|].
      split; [apply prefix_substring|apply length_substring_le].
    + apply Nat.ltb_ge in Hlong.
      destruct (0 <? String.length (run.BotToken conf))%nat.
      * eexists. split; [reflexivity|]. split; [apply prefix_refl|exact Hlong].
      * eexists. split; [reflexivity|].
        split; [destruct (run.BotToken conf); reflexivity|simpl; lia].
  - intros channelId. reflexivity.
Qed.

(** ** The bot id of a token *)

Lemma Split_nonempty (s : string) (sep : ascii) : startup.Split s sep <> [].
Proof.
  destruct s as [|c s]; cbn [startup.Split]; [discriminate|].
  destruct (Ascii.eqb c sep); [discriminate|].
  destruct (startup.Split s sep); discriminate.
Qed.

Lemma Join_Split (s : string) (sep : ascii) :
  startup.Join (startup.Split s sep) sep = s.
Proof.
  induction s as [|c s IH]; [reflexivity|].
  cbn [startup.Split].
  destruct (Ascii.eqb c sep) eqn:Hc.
  - apply Ascii.eqb_eq in Hc. subst c.
    pose proof (Split_nonempty s sep) as Hne.
    destruct (startup.Split s sep) as [|e rest]; [contradiction|].
    cbn [startup.Join append]. cbn [startup.Join] in IH.
    rewrite IH. reflexivity.
  - pose proof (Split_nonempty s sep) as Hne.
    destruct (startup.Split s sep) as [|e rest]; [contradiction|].
    destruct rest as [|e' rest].
    + cbn [startup.Join] in *. rewrite IH. reflexivity.
    + cbn [startup.Join append] in *. rewrite IH. reflexivity.
Qed.

Lemma Split_lacks (s : string) (sep : ascii) :
  Forall (fun e => lacks sep e = true) (startup.Split s sep).
Proof.
  induction s as [|c s IH]; [repeat constructor|].
  cbn [startup.Split].
  destruct (Ascii.eqb c sep) eqn:Hc.
  - constructor; [reflexivity|exact IH].
  - destruct (startup.Split s sep) as [|e rest].
    + repeat constructor. cbn [lacks]. rewrite Hc. reflexivity.
    + inversion IH as [|? ? He Hrest]; subst.
      constructor; [|exact Hrest].
      cbn [lacks]. rewrite Hc, He. reflexivity.
Qed.

(** X17.  BotClient takes, as the bot id the session is stored under,
    the part of the token before its first colon, the whole token when
    it has no colon; the index 0 is always in range, also for the empty
    token.  Split cuts at every colon: joining its parts with colons
    gives the token back, and no part has a colon. *)
Theorem BotClient_botID_before_colon (token : string) :
  exists botID,
    startup.BotClient_botID token = Done botID /\
    lacks ":"%char botID = true /\
    (token = botID \/ exists rest, token = (botID ++ ":" ++ rest)%string) /\
    startup.Join (startup.Split token ":"%char) ":"%char = token /\
    Forall (fun part => lacks ":"%char part = true)
           (startup.Split token ":"%char).
Proof.
  unfold startup.BotClient_botID.
  pose proof (Join_Split token ":"%char) as Hjoin.
  pose proof (Split_lacks token ":"%char) as Hlacks.
  destruct (startup.Split token ":"%char) as [|botID rest] eqn:Hsplit.
  - exfalso. exact (Split_nonempty _ _ Hsplit).
  - exists botID. split; [reflexivity|].
    split; [inversion Hlacks; assumption|].
    split; [|split; [exact Hjoin|exact Hlacks]].
    destruct rest as [|e rest].
    + left. symmetry. exact Hjoin.
    + right. exists (startup.Join (e :: rest) ":"%char).
      symmetry. exact Hjoin.
Qed.

(** ** The parent of the files, fifty at a time *)

Section Chunks.

Variable filesToUpdate : list models.File.

(** The loop from index [i] on. *)
Lemma updateLoop_spec (fuel i : nat) :
  (List.length filesToUpdate - i < fuel)%nat ->
  exists batches,
    parentfix.updateLoop fuel i filesToUpdate = Some batches /\
    concat batches = map models.ID (skipn i filesToUpdate) /\
    Forall (fun b => (1 <= List.length b <= 50)%nat) batches /\
    List.length batches = ((List.length filesToUpdate - i + 49) / 50)%nat /\
    (forall k, (S k < List.length batches)%nat ->
               List.length (nth k batches []) = 50%nat).
Proof.
  revert i. induction fuel as [|fuel IH]; intros i Hfuel; [lia|].
  cbn [parentfix.updateLoop]. unfold parentfix.batchSize.
  destruct (i <? List.length filesToUpdate)%nat eqn:Hi.
  - apply Nat.ltb_lt in Hi.
    destruct (IH (i + 50)%nat) as (later & Hloop & Hcat & Hsize & Hcount & Hfull);
      [lia|].
    rewrite Hloop. eexists. split; [reflexivity|].
    assert (Hbatch : List.length
              (map models.ID
                 (parentfix.slice filesToUpdate i
                    (if (List.length filesToUpdate <? i + 50)%nat then List.length filesToUpdate else (i + 50)%nat)))
            = Nat.min 50 (List.length filesToUpdate - i)).
    { rewrite length_map. unfold parentfix.slice.
      rewrite length_firstn, length_skipn.
      destruct (List.length filesToUpdate <? i + 50)%nat eqn:He;
        [apply Nat.ltb_lt in He|apply Nat.ltb_ge in He]; lia. }
    split; [|split; [|split]].
    + cbn [concat]. rewrite Hcat. rewrite <- map_app. f_equal.
      unfold parentfix.slice.
      replace (skipn (i + 50) filesToUpdate)
        with (skipn 50 (skipn i filesToUpdate))
        by (rewrite skipn_skipn; f_equal; lia).
      destruct (List.length filesToUpdate <? i + 50)%nat eqn:He.
      * apply Nat.ltb_lt in He.
        rewrite (skipn_all2 (n := 50)) by (rewrite length_skipn; lia).
        rewrite app_nil_r.
        apply firstn_all2. rewrite length_skipn.
        apply Nat.le_refl.
      * apply Nat.ltb_ge in He.
        replace (i + 50 - i)%nat with 50%nat by lia.
        apply firstn_skipn.
    + constructor; [rewrite Hbatch; lia|exact Hsize].
    + cbn [List.length]. rewrite Hcount.
      destruct (Nat.le_gt_cases (List.length filesToUpdate - i) 50) as [Hshort|Hlong].
      * replace (List.length filesToUpdate - (i + 50))%nat with 0%nat by lia.
        replace ((0 + 49) / 50)%nat with 0%nat by reflexivity.
        assert (Hup : ((List.length filesToUpdate - i + 49) / 50 < 2)%nat)
          by (apply Nat.Div0.div_lt_upper_bound; lia).
        assert (Hlow : (1 <= (List.length filesToUpdate - i + 49) / 50)%nat)
          by (apply Nat.div_le_lower_bound; lia).
        lia.
      * replace (List.length filesToUpdate - i + 49)%nat with (List.length filesToUpdate - (i + 50) + 49 + 1 * 50)%nat by lia.
        rewrite Nat.div_add by discriminate. lia.
    + intros [|k] Hk; cbn [nth List.length] in *.
      * rewrite Hbatch.
        assert (Hmore : (0 < List.length later)%nat) by lia.
        rewrite Hcount in Hmore.
        destruct (Nat.le_gt_cases (List.length filesToUpdate - i) 50) as [Hshort|Hlong]; [|lia].
        exfalso. replace (List.length filesToUpdate - (i + 50))%nat with 0%nat in Hmore by lia.
        cbn in Hmore. lia.
      * apply Hfull. lia.
  - apply Nat.ltb_ge in Hi. exists []. split; [reflexivity|].
    split; [|split; [constructor|split]].
    + rewrite skipn_all2 by lia. reflexivity.
    + replace (List.length filesToUpdate - i)%nat with 0%nat by lia. reflexivity.
    + intros k Hk. cbn in Hk. lia.
Qed.

End Chunks.

(** X18.  The program that gives the files without a parent a parent
    sends one UPDATE for every fifty files: the lists of ids of the
    statements, one after the other, are the ids of the files found, in
    order and each once; no list is empty or longer than fifty, all but
    the last have fifty, and there are ceil(n/50) of them.  As many
    iterations as there are files, and one more, are enough. *)
Theorem updateParents_batches (filesToUpdate : list models.File) (fuel : nat) :
  (List.length filesToUpdate < fuel)%nat ->
  exists batches,
    parentfix.updateParents fuel filesToUpdate = Some batches /\
    concat batches = map models.ID filesToUpdate /\
    Forall (fun b => (1 <= List.length b <= 50)%nat) batches /\
    List.length batches = ((List.length filesToUpdate + 49) / 50)%nat /\
    (forall k, (S k < List.length batches)%nat ->
               List.length (nth k batches []) = 50%nat).
Proof.
  intros Hfuel. unfold parentfix.updateParents.
  destruct (0 <? List.length filesToUpdate)%nat eqn:Hlen.
  - destruct (updateLoop_spec filesToUpdate fuel 0)
      as (batches & Hloop & Hcat & Hrest); [lia|].
    exists batches. split; [exact Hloop|].
    split; [exact Hcat|].
    rewrite Nat.sub_0_r in Hrest. exact Hrest.
  - apply Nat.ltb_ge in Hlen.
    destruct filesToUpdate as [|f rest]; [|cbn in Hlen; lia].
    exists []. split; [reflexivity|].
    split; [reflexivity|split; [constructor|split; [reflexivity|]]].
    intros k Hk. cbn in Hk. lia.
Qed.

Lemma updateParents_batches_witness :
  let f := models.mkFile "f-1" "a.txt" "file" "text/plain" (Some 1) "" false
             7331706161 "active" None None
             (time.mkTime 2025 5 10 12 0 0) (time.mkTime 2025 5 10 12 0 0) in
  (List.length (repeat f 51) < 52)%nat /\
  exists batches,
    parentfix.updateParents 52 (repeat f 51) = Some batches /\
    concat batches = map models.ID (repeat f 51) /\
    Forall (fun b => (1 <= List.length b <= 50)%nat) batches /\
    List.length batches = ((List.length (repeat f 51) + 49) / 50)%nat /\
    (forall k, (S k < List.length batches)%nat ->
               List.length (nth k batches []) = 50%nat).
Proof.
  intros f.
  assert (Hfuel : (List.length (repeat f 51) < 52)%nat)
    by (rewrite repeat_length; lia).
  split; [exact Hfuel|].
  exact (updateParents_batches (repeat f 51) 52 Hfuel).
Defined.

(** ** The names of the duplicates *)

Section Decimal.





End Decimal.

Section Duplicates.

Variable clock : nat -> time.Time.
Variable name : string.


End Duplicates.



(** ** The categorizers *)

Section Categories.

Context {tables : unicode.Tables}.
Variable categoryDirs : string -> string.

Lemma matched_In (ext : string) (extensions : list string) :
  categorize.matched ext extensions = true <-> In ext extensions.
Proof.
  induction extensions as [|e rest IH]; cbn [categorize.matched In].
  - split; [discriminate|intros []].
  - destruct (String.eqb ext e) eqn:He.
    + apply String.eqb_eq in He. split; [intros _; left; congruence|reflexivity].
    + apply String.eqb_neq in He. rewrite IH.
      split; [intros Hin; right; exact Hin|intros [Heq|Hin]; [congruence|exact Hin]].
Qed.

(** The statements for a file: none in a dry run, else one for each
    category with the extension of the file, in the order of the map. *)
Lemma moves_of_file_categories (dryRun : bool)
    (order : list (string * list string)) (file : models.File) :
  categorize.moves_of_file dryRun order categoryDirs file
  = if dryRun then []
    else map (fun category => (models.ID file, categoryDirs category))
             (categorize.categories_of order
                (strings.ToLower (filepath.Ext (models.Name file)))).
Proof.
  unfold categorize.categories_of.
  induction order as [|[category extensions] rest IH];
    cbn [categorize.moves_of_file filter map fst snd];
    [destruct dryRun; reflexivity|].
  destruct (categorize.matched _ extensions); cbn [map fst]; rewrite IH;
    destruct dryRun; reflexivity.
Qed.

Lemma categorized_of_file_categories (order : list (string * list string))
    (file : models.File) :
  categorize.categorized_of_file order file
  = List.length (categorize.categories_of order
                   (strings.ToLower (filepath.Ext (models.Name file)))).
Proof.
  unfold categorize.categories_of.
  induction order as [|[category extensions] rest IH];
    cbn [categorize.categorized_of_file filter map fst snd List.length];
    [reflexivity|].
  destruct (categorize.matched _ extensions); cbn [map List.length];
    rewrite IH; reflexivity.
Qed.

Lemma categories_of_Permutation (order table : list (string * list string))
    (ext : string) :
  Permutation order table ->
  Permutation (categorize.categories_of order ext) (categorize.categories_of table ext).
Proof.
  intros Hperm. unfold categorize.categories_of.
  apply Permutation_map.
  induction Hperm as [|x l l' _ IH|x y l|l l' l'' _ IH1 _ IH2];
    cbn [filter].
  - constructor.
  - destruct (categorize.matched ext (snd x)); [constructor|]; exact IH.
  - destruct (categorize.matched ext (snd x));
      destruct (categorize.matched ext (snd y));
      try apply Permutation_refl.
    constructor.
  - eapply Permutation_trans; eassumption.
Qed.

Lemma categories_of_outside (table : list (string * list string)) (ext : string) :
  ~ In ext (categorize.extensions_of table) -> categorize.categories_of table ext = [].
Proof.
  unfold categorize.categories_of, categorize.extensions_of.
  induction table as [|[category extensions] rest IH];
    cbn [filter flat_map snd map]; intros Hout; [reflexivity|].
  destruct (categorize.matched ext extensions) eqn:Hm.
  - exfalso. apply Hout. apply in_or_app. left. apply matched_In. exact Hm.
  - apply IH. intros Hin. apply Hout. apply in_or_app. right. exact Hin.
Qed.

(** A property of the categories of every extension follows from the
    property at the extensions of the table and at an extension outside
    it. *)
Lemma categories_of_cases (table : list (string * list string))
    (P : string -> list string -> bool) (ext : string) :
  forallb (fun e => P e (categorize.categories_of table e))
          (categorize.extensions_of table) = true ->
  (In ext (categorize.extensions_of table) /\
   P ext (categorize.categories_of table ext) = true) \/
  (~ In ext (categorize.extensions_of table) /\ categorize.categories_of table ext = []).
Proof.
  intros Hall.
  destruct (in_dec string_dec ext (categorize.extensions_of table)) as [Hin|Hout].
  - left. split; [exact Hin|].
    rewrite forallb_forall in Hall. exact (Hall ext Hin).
  - right. split; [exact Hout|apply categories_of_outside; exact Hout].
Qed.

Lemma autocategorize_at_most_one (ext : string) :
  (List.length (categorize.categories_of categorize.autocategorize_categories ext) <= 1)%nat.
Proof.
  destruct (categories_of_cases categorize.autocategorize_categories
              (fun _ cs => (List.length cs <=? 1)%nat) ext)
    as [(_ & Hle)|(_ & ->)].
  - vm_compute. reflexivity.
  - apply Nat.leb_le. exact Hle.
  - cbn. lia.
Qed.

Lemma Permutation_short {A : Type} (l l' : list A) :
  (List.length l' <= 1)%nat -> Permutation l l' -> l = l'.
Proof.
  intros Hlen Hperm.
  destruct l' as [|a [|b l']]; cbn in Hlen; try lia.
  - apply Permutation_sym in Hperm. apply Permutation_nil in Hperm. exact Hperm.
  - apply Permutation_sym in Hperm. apply Permutation_length_1_inv in Hperm.
    exact Hperm.
Qed.

Lemma foldercat_videos (ext : string) :
  ext = ".mp4" \/ ext = ".mkv" ->
  categorize.categories_of categorize.foldercat_categories ext = ["1080p"; "4K"] /\
  categorize.categories_of (rev categorize.foldercat_categories) ext
    = ["4K"; "1080p"].
Proof.
  intros [-> | ->]; split; vm_compute; reflexivity.
Qed.

Lemma foldercat_at_most_two (ext : string) :
  (List.length (categorize.categories_of categorize.foldercat_categories ext) <= 2)%nat /\
  (ext <> ".mp4" -> ext <> ".mkv" ->
   (List.length (categorize.categories_of categorize.foldercat_categories ext) <= 1)%nat).
Proof.
  destruct (categories_of_cases categorize.foldercat_categories
              (fun e cs => (List.length cs <=? 1)%nat
                           || ((String.eqb e ".mp4" || String.eqb e ".mkv")
                               && (List.length cs <=? 2)%nat)) ext)
    as [(_ & HP)|(_ & ->)].
  - vm_compute. reflexivity.
  - apply orb_true_iff in HP. destruct HP as [Hone|Htwo].
    + apply Nat.leb_le in Hone. split; [lia|intros _ _; exact Hone].
    + apply andb_true_iff in Htwo. destruct Htwo as [Hvideo Htwo].
      apply Nat.leb_le in Htwo. split; [exact Htwo|].
      intros Hmp4 Hmkv. exfalso.
      apply orb_true_iff in Hvideo.
      destruct Hvideo as [He|He]; apply String.eqb_eq in He; contradiction.
  - split; [cbn; lia|intros _ _; cbn; lia].
Qed.

End Categories.

(** X20.  autocategorize sends no statement in a dry run (the default).
    With -dry-run=false it moves a file at most once, and to the same
    directory in whatever order the map of categories is visited: the
    statements of a run are those of the run that visits the map in the
    order it is written in.  A file is moved to the directory of the one
    category that has its extension as strings.ToLower gives it; a file
    whose lower-cased extension is in no list is not moved. *)
Theorem autocategorize_order_free {tables : unicode.Tables}
    (order : list (string * list string))
    (categoryDirs : string -> string) (files : list models.File) :
  Permutation order categorize.autocategorize_categories ->
  (forall dryRun,
     categorize.moves dryRun order categoryDirs files
     = categorize.moves dryRun categorize.autocategorize_categories
         categoryDirs files) /\
  categorize.moves true order categoryDirs files = [] /\
  (forall dryRun file,
     (List.length (categorize.moves_of_file dryRun order categoryDirs file)
      <= 1)%nat) /\
  (forall file category,
     categorize.categories_of categorize.autocategorize_categories
       (strings.ToLower (filepath.Ext (models.Name file))) = [category] ->
     categorize.moves_of_file false order categoryDirs file
     = [(models.ID file, categoryDirs category)]) /\
  (forall dryRun file,
     ~ In (strings.ToLower (filepath.Ext (models.Name file)))
          (categorize.extensions_of categorize.autocategorize_categories) ->
     categorize.moves_of_file dryRun order categoryDirs file = []).
Proof.
  intros Hperm.
  assert (Hcats : forall file,
            categorize.categories_of order
              (strings.ToLower (filepath.Ext (models.Name file)))
            = categorize.categories_of categorize.autocategorize_categories
                (strings.ToLower (filepath.Ext (models.Name file)))).
  { intros file.
    apply Permutation_short; [apply autocategorize_at_most_one|].
    apply categories_of_Permutation. exact Hperm. }
  assert (Hsame : forall dryRun file,
            categorize.moves_of_file dryRun order categoryDirs file
            = categorize.moves_of_file dryRun
                categorize.autocategorize_categories categoryDirs file).
  { intros dryRun file. rewrite !moves_of_file_categories, Hcats. reflexivity. }
  split; [|split; [|split; [|split]]].
  - intros dryRun. unfold categorize.moves.
    induction files as [|file rest IH]; [reflexivity|].
    cbn [flat_map]. rewrite IH, Hsame. reflexivity.
  - unfold categorize.moves.
    induction files as [|file rest IH]; [reflexivity|].
    cbn [flat_map]. rewrite IH, moves_of_file_categories. reflexivity.
  - intros dryRun file. rewrite moves_of_file_categories, Hcats.
    destruct dryRun; [cbn; lia|].
    rewrite length_map. apply autocategorize_at_most_one.
  - intros file category Hcat.
    rewrite moves_of_file_categories, Hcats, Hcat. reflexivity.
  - intros dryRun file Hout. rewrite moves_of_file_categories, Hcats.
    rewrite (categories_of_outside _ _ Hout). destruct dryRun; reflexivity.
Qed.

Lemma autocategorize_order_free_witness :
  let tables := Sample.tables in
  let f := models.mkFile "f-1" ("clip.M" ++ Sample.kelvin ++ "V")%string "file"
             "video/x-matroska" (Some 1) "" false 7331706161 "active" None None
             (time.mkTime 2025 5 10 12 0 0) (time.mkTime 2025 5 10 12 0 0) in
  let order := rev categorize.autocategorize_categories in
  let dirs := fun category => ("dir-" ++ category)%string in
  Permutation order categorize.autocategorize_categories /\
  categorize.moves false order dirs [f] = [("f-1", "dir-Videos")] /\
  categorize.moves true order dirs [f] = [].
Proof.
  intros tables f order dirs.
  assert (Hperm : Permutation order categorize.autocategorize_categories)
    by (apply Permutation_sym; apply Permutation_rev).
  split; [exact Hperm|].
  destruct (autocategorize_order_free order dirs [f] Hperm)
    as (Hsame & Hdry & _).
  split; [|exact Hdry].
  rewrite (Hsame false). vm_compute. reflexivity.
Defined.

(** X21.  In foldercat the lists of the categories 1080p and 4K share
    .mp4 and .mkv, and the loop over the categories goes on after a
    match.  A file whose extension is one of these two, as
    strings.ToLower gives it, is counted twice in a run, also in a dry
    run; with -dry-run=false it is moved twice, once to each of the two
    directories, so the directory it ends in is that of the category the
    map happens to give last: 4K in the order the map is written in,
    1080p in the reverse order.  Every other file is counted and moved at
    most once, and to the same directory in any order.  In a dry run no
    statement is sent, and with -parent the files found are all moved to
    that folder, if it was found, and the categories are not looked at. *)
Theorem foldercat_moves_videos_twice {tables : unicode.Tables}
    (order : list (string * list string))
    (categoryDirs : string -> string) (file : models.File) :
  Permutation order categorize.foldercat_categories ->
  let ext := strings.ToLower (filepath.Ext (models.Name file)) in
  let to_dir := fun category => (models.ID file, categoryDirs category) in
  (ext = ".mp4" \/ ext = ".mkv" ->
     categorize.categorized_of_file order file = 2%nat /\
     Permutation (categorize.moves_of_file false order categoryDirs file)
                 [to_dir "1080p"; to_dir "4K"] /\
     categorize.final_dir
       (categorize.moves_of_file false categorize.foldercat_categories
          categoryDirs file)
     = Some (categoryDirs "4K") /\
     categorize.final_dir
       (categorize.moves_of_file false (rev categorize.foldercat_categories)
          categoryDirs file)
     = Some (categoryDirs "1080p")) /\
  (ext <> ".mp4" -> ext <> ".mkv" ->
     (categorize.categorized_of_file order file <= 1)%nat /\
     (List.length (categorize.moves_of_file false order categoryDirs file)
      <= 1)%nat /\
     categorize.moves_of_file false order categoryDirs file
     = categorize.moves_of_file false categorize.foldercat_categories
         categoryDirs file) /\
  categorize.moves_of_file true order categoryDirs file = [] /\
  (forall dryRun parentFound files,
     categorize.foldercat_moves dryRun "" parentFound order categoryDirs files
     = categorize.moves dryRun order categoryDirs files) /\
  (forall dryRun parentFolder parentFound files,
     parentFolder <> EmptyString ->
     categorize.foldercat_moves dryRun parentFolder parentFound order
       categoryDirs files
     = if parentFound && negb dryRun
       then map (fun f => (models.ID f, parentFolder)) files
       else []).
Proof.
  intros Hperm. cbv zeta.
  pose proof (categories_of_Permutation order categorize.foldercat_categories
                (strings.ToLower (filepath.Ext (models.Name file))) Hperm)
    as Hcats.
  split; [|split; [|split; [|split]]].
  - intros Hvideo.
    destruct (foldercat_videos _ Hvideo) as [Hwritten Hreverse].
    rewrite categorized_of_file_categories, !moves_of_file_categories.
    rewrite Hwritten in Hcats |- *. rewrite Hreverse.
    split; [|split; [|split; reflexivity]].
    + apply Permutation_length in Hcats. exact Hcats.
    + apply (Permutation_map
               (fun category => (models.ID file, categoryDirs category)))
        in Hcats.
      exact Hcats.
  - intros Hmp4 Hmkv.
    destruct (foldercat_at_most_two
                (strings.ToLower (filepath.Ext (models.Name file))))
      as [_ Hone].
    specialize (Hone Hmp4 Hmkv).
    rewrite categorized_of_file_categories, !moves_of_file_categories.
    rewrite (Permutation_short _ _ Hone Hcats).
    split; [exact Hone|split; [rewrite length_map; exact Hone|reflexivity]].
  - rewrite moves_of_file_categories. reflexivity.
  - intros dryRun parentFound files. reflexivity.
  - intros dryRun parentFolder parentFound files Hparent.
    unfold categorize.foldercat_moves, categorize.moves_to_parent.
    assert (Hne : String.eqb parentFolder "" = false)
      by (apply String.eqb_neq; exact Hparent).
    rewrite Hne. cbn [negb].
    destruct parentFound, dryRun; cbn [andb negb];
      try reflexivity;
      induction files as [|f rest IH]; cbn [flat_map map app];
      try reflexivity; rewrite IH; reflexivity.
Qed.

Lemma foldercat_moves_videos_twice_witness :
  let tables := Sample.tables in
  let f := models.mkFile "f-1" ("clip.M" ++ Sample.kelvin ++ "V")%string "file"
             "video/x-matroska" (Some 1) "" false 7331706161 "active" None None
             (time.mkTime 2025 5 10 12 0 0) (time.mkTime 2025 5 10 12 0 0) in
  let order := rev categorize.foldercat_categories in
  let dirs := fun category => ("dir-" ++ category)%string in
  Permutation order categorize.foldercat_categories /\
  categorize.categorized_of_file order f = 2%nat /\
  categorize.foldercat_moves false "" false order dirs [f]
    = [("f-1", "dir-4K"); ("f-1", "dir-1080p")] /\
  categorize.foldercat_moves true "" false order dirs [f] = [].
Proof.
  intros tables f order dirs.
  assert (Hperm : Permutation order categorize.foldercat_categories)
    by (apply Permutation_sym; apply Permutation_rev).
  split; [exact Hperm|].
  destruct (foldercat_moves_videos_twice order dirs f Hperm)
    as (Hvideo & _ & _ & _).
  split; [|split; vm_compute; reflexivity].
  apply Hvideo. right. vm_compute. reflexivity.
Defined.

(** ** The mapping of SimpleBot and the decimal digits of an id *)

Section Digits.

Local Open Scope N_scope.

Lemma digit_uint_cases (r : N) (t : Decimal.uint) :
  r < 10 ->
  (r = 0 /\ digit_uint r t = Decimal.D0 t) \/
  (r = 1 /\ digit_uint r t = Decimal.D1 t) \/
  (r = 2 /\ digit_uint r t = Decimal.D2 t) \/
  (r = 3 /\ digit_uint r t = Decimal.D3 t) \/
  (r = 4 /\ digit_uint r t = Decimal.D4 t) \/
  (r = 5 /\ digit_uint r t = Decimal.D5 t) \/
  (r = 6 /\ digit_uint r t = Decimal.D6 t) \/
  (r = 7 /\ digit_uint r t = Decimal.D7 t) \/
  (r = 8 /\ digit_uint r t = Decimal.D8 t) \/
  (r = 9 /\ digit_uint r t = Decimal.D9 t).
Proof.
  intros Hr. unfold digit_uint.
  assert (Hn : r = N.of_nat (N.to_nat r)) by (symmetry; apply N2Nat.id).
  destruct (N.to_nat r) as [|[|[|[|[|[|[|[|[|[|n]]]]]]]]]];
    cbn in Hn; try lia; tauto.
Qed.

Ltac digit_cases r t Hr :=
  destruct (digit_uint_cases r t Hr)
    as [[-> ->]|[[-> ->]|[[-> ->]|[[-> ->]|[[-> ->]|[[-> ->]|[[-> ->]|[[-> ->]
       |[[-> ->]|[-> ->]]]]]]]]]].

Lemma mod10_lt (x : N) : x mod 10 < 10.
Proof. apply N.mod_lt. discriminate. Qed.

Lemma revapp_digit (r : N) (t acc : Decimal.uint) :
  Decimal.revapp (digit_uint r t) acc = Decimal.revapp t (digit_uint r acc).
Proof.
  unfold digit_uint.
  destruct (N.to_nat r) as [|[|[|[|[|[|[|[|[|[|n]]]]]]]]]]; reflexivity.
Qed.

Lemma revapp_low_digits (k : nat) (x : N) (tail acc : Decimal.uint) :
  Decimal.revapp (low_digits k x tail) acc
  = Decimal.revapp tail (high_digits k x acc).
Proof.
  revert x acc. induction k as [|k IH]; intros x acc; [reflexivity|].
  cbn [low_digits high_digits]. rewrite revapp_digit. apply IH.
Qed.

Lemma of_lu_digit (r : N) (t : Decimal.uint) :
  r < 10 ->
  DecimalPos.Unsigned.of_lu (digit_uint r t)
  = r + 10 * DecimalPos.Unsigned.of_lu t.
Proof.
  intros Hr. digit_cases r t Hr; cbn [DecimalPos.Unsigned.of_lu]; lia.
Qed.

Lemma of_lu_low_digits (k : nat) (x : N) (tail : Decimal.uint) :
  DecimalPos.Unsigned.of_lu (low_digits k x tail)
  = x mod 10 ^ N.of_nat k + 10 ^ N.of_nat k * DecimalPos.Unsigned.of_lu tail.
Proof.
  revert x. induction k as [|k IH]; intros x.
  - cbn [low_digits]. change (10 ^ N.of_nat 0) with 1.
    rewrite N.mod_1_r. lia.
  - cbn [low_digits]. rewrite of_lu_digit by apply mod10_lt.
    rewrite IH. rewrite Nat2N.inj_succ, N.pow_succ_r'.
    rewrite (N.Div0.mod_mul_r x 10 (10 ^ N.of_nat k)). lia.
Qed.

Lemma to_uint_100 (x : N) :
  x < 10 ^ 10 ->
  N.to_uint (10 ^ 12 + x)
  = Decimal.D1 (Decimal.D0 (Decimal.D0 (high_digits 10 x Decimal.Nil))).
Proof.
  intros Hx.
  pose (low := low_digits 10 x
                 (Decimal.D0 (Decimal.D0 (Decimal.D1 Decimal.Nil)))).
  assert (Hrev : Decimal.rev low
            = Decimal.D1 (Decimal.D0 (Decimal.D0 (high_digits 10 x Decimal.Nil)))).
  { unfold Decimal.rev, low. rewrite revapp_low_digits. reflexivity. }
  assert (Hval : Pos.of_uint (Decimal.rev low) = 10 ^ 12 + x).
  { rewrite DecimalPos.Unsigned.of_lu_rev. unfold low.
    rewrite of_lu_low_digits.
    change (N.of_nat 10) with 10.
    rewrite N.mod_small by exact Hx.
    cbn [DecimalPos.Unsigned.of_lu].
    change (10 ^ 12) with (10 ^ 10 * 100). lia. }
  rewrite <- Hval. rewrite DecimalPos.Unsigned.to_of. rewrite Hrev.
  reflexivity.
Qed.

End Digits.

Section Printing.

Lemma to_int_nonneg (z : Z) :
  0 <= z -> Z.to_int z = Decimal.Pos (N.to_uint (Z.to_N z)).
Proof.
  destruct z; [reflexivity|reflexivity|lia].
Qed.

Lemma string_of_digit (r : N) (t : Decimal.uint) :
  (r < 10)%N ->
  exists c,
    NilEmpty.string_of_uint (digit_uint r t)
      = String c (NilEmpty.string_of_uint t) /\
    strconv.is_digit c = true /\
    Z.of_nat (nat_of_ascii c) - 48 = Z.of_N r.
Proof.
  intros Hr.
  destruct (digit_uint_cases r t Hr)
    as [[-> ->]|[[-> ->]|[[-> ->]|[[-> ->]|[[-> ->]|[[-> ->]|[[-> ->]|[[-> ->]
       |[[-> ->]|[-> ->]]]]]]]]]];
    eexists; (split; [reflexivity|split; reflexivity]).
Qed.

Lemma digits_value_high (k : nat) (x : N) (acc : Decimal.uint) (v : Z) :
  strconv.digits_value (NilEmpty.string_of_uint (high_digits k x acc)) v
  = strconv.digits_value (NilEmpty.string_of_uint acc)
      (v * 10 ^ Z.of_nat k + Z.of_N (x mod 10 ^ N.of_nat k)).
Proof.
  revert x acc. induction k as [|k IH]; intros x acc.
  - cbn [high_digits]. change (10 ^ N.of_nat 0)%N with 1%N.
    rewrite N.mod_1_r. f_equal. change (10 ^ Z.of_nat 0) with 1. lia.
  - cbn [high_digits]. rewrite IH.
    destruct (string_of_digit (x mod 10) acc (mod10_lt x))
      as (c & Hstr & Hdigit & Hval).
    rewrite Hstr. cbn [strconv.digits_value]. rewrite Hdigit, Hval.
    f_equal.
    rewrite Nat2N.inj_succ, N.pow_succ_r'.
    rewrite (N.Div0.mod_mul_r x 10 (10 ^ N.of_nat k)).
    rewrite Nat2Z.inj_succ, Z.pow_succ_r by lia.
    lia.
Qed.

Lemma high_digits_head (k : nat) (x : N) (acc : Decimal.uint) :
  exists r t, (r < 10)%N /\ high_digits (S k) x acc = digit_uint r t.
Proof.
  revert x acc. induction k as [|k IH]; intros x acc.
  - exists (x mod 10)%N, acc. split; [apply mod10_lt|reflexivity].
  - change (high_digits (S (S k)) x acc)
      with (high_digits (S k) (x / 10) (digit_uint (x mod 10) acc)).
    apply IH.
Qed.

Lemma length_high_digits (k : nat) (x : N) (acc : Decimal.uint) :
  String.length (NilEmpty.string_of_uint (high_digits k x acc))
  = (k + String.length (NilEmpty.string_of_uint acc))%nat.
Proof.
  revert x acc. induction k as [|k IH]; intros x acc; [reflexivity|].
  cbn [high_digits]. rewrite IH.
  destruct (string_of_digit (x mod 10) acc (mod10_lt x)) as (c & Hstr & _).
  rewrite Hstr. cbn [String.length]. lia.
Qed.

Lemma ParseInt_digits (s : string) (v : Z) :
  strconv.digits_value s 0 = Some v ->
  s <> EmptyString ->
  Int64.in_range v ->
  strconv.ParseInt s = Some v.
Proof.
  intros Hvalue Hne Hrange.
  destruct s as [|c rest]; [contradiction|].
  unfold strconv.ParseInt.
  assert (Hdigit : strconv.is_digit c = true).
  { cbn [strconv.digits_value] in Hvalue.
    destruct (strconv.is_digit c); [reflexivity|discriminate]. }
  destruct (Ascii.eqb c "-"%char) eqn:Hminus.
  { apply Ascii.eqb_eq in Hminus. subst c. discriminate. }
  destruct (Ascii.eqb c "+"%char) eqn:Hplus.
  { apply Ascii.eqb_eq in Hplus. subst c. discriminate. }
  rewrite Hvalue. unfold strconv.in_int64.
  unfold Int64.in_range in Hrange.
  destruct (Int64.min <=? v) eqn:H1; [|apply Z.leb_gt in H1; lia].
  destruct (v <=? Int64.max) eqn:H2; [|apply Z.leb_gt in H2; lia].
  reflexivity.
Qed.

(** The decimal digits of 10^12 + x, for x of at most ten digits: 100,
    then the ten digits of x. *)
Lemma Sprintf_d_100 (x : Z) :
  0 <= x < 10 ^ 10 ->
  exists digits,
    fmt.Sprintf_d (1000000000000 + x) = ("100" ++ digits)%string /\
    String.length digits = 10%nat /\
    strconv.ParseInt digits = Some x.
Proof.
  intros Hx.
  exists (NilEmpty.string_of_uint (high_digits 10 (Z.to_N x) Decimal.Nil)).
  assert (HxN : (Z.to_N x < 10 ^ 10)%N).
  { change (10 ^ 10)%N with (Z.to_N (10 ^ 10)). apply Z2N.inj_lt; lia. }
  split; [|split].
  - unfold fmt.Sprintf_d. rewrite to_int_nonneg by lia.
    replace (Z.to_N (1000000000000 + x)) with (10 ^ 12 + Z.to_N x)%N
      by (rewrite Z2N.inj_add by lia; reflexivity).
    rewrite (to_uint_100 _ HxN). reflexivity.
  - rewrite length_high_digits. reflexivity.
  - apply ParseInt_digits.
    + rewrite digits_value_high.
      cbn [NilEmpty.string_of_uint strconv.digits_value].
      f_equal. change (N.of_nat 10) with 10%N.
      rewrite N.mod_small by exact HxN. rewrite Z2N.id by lia. lia.
    + destruct (high_digits_head 9 (Z.to_N x) Decimal.Nil) as (r & t & Hr & ->).
      destruct (string_of_digit r t Hr) as (c & -> & _). discriminate.
    + unfold Int64.in_range, Int64.min, Int64.max. lia.
Qed.

End Printing.

(** X22.  SimpleBot reads the id it filters on off the decimal digits of
    the configured id: for a broadcast id -100x with x of at most ten
    digits (the digits of x filled up to ten with zeros) it finds x, the
    id the mapping of the other handlers computes. *)
Theorem SimpleBot_reads_broadcast_id (x : Z) :
  0 < x < 10 ^ 10 ->
  let configured := -1000000000000 - x in
  SimpleBot.actualConfiguredID configured = x /\
  normalize configured = x.
Proof.
  intros Hx. cbv zeta. split.
  - unfold SimpleBot.actualConfiguredID.
    assert (H0 : (-1000000000000 - x <? 0) = true) by (apply Z.ltb_lt; lia).
    assert (H1 : (-1000000000000 - x <=? -1000000000) = true)
      by (apply Z.leb_le; lia).
    rewrite H0, H1. cbv zeta.
    assert (Hneg : Int64.neg (-1000000000000 - x) = 1000000000000 + x).
    { unfold Int64.neg.
      replace (- (-1000000000000 - x)) with (1000000000000 + x) by lia.
      apply wrap_in_range. unfold Int64.in_range, Int64.min, Int64.max. lia. }
    rewrite Hneg.
    destruct (Sprintf_d_100 x ltac:(lia)) as (digits & Hprint & Hlen & Hparse).
    rewrite Hprint.
    rewrite (slice_to_append "100" digits : slice_to ("100" ++ digits) 3 = "100").
    rewrite (slice_from_append "100" digits
             : slice_from ("100" ++ digits) 3 = digits).
    rewrite Hparse.
    rewrite length_append, Hlen. reflexivity.
  - rewrite normalize_broadcast by lia.
    rewrite wrap_in_range by (unfold Int64.in_range, Int64.min, Int64.max; lia).
    lia.
Qed.

Lemma SimpleBot_reads_broadcast_id_witness :
  0 < 2523726746 < 10 ^ 10 /\
  SimpleBot.actualConfiguredID (-1002523726746) = 2523726746.
Proof.
  assert (Hx : 0 < 2523726746 < 10 ^ 10) by lia.
  split; [exact Hx|].
  exact (proj1 (SimpleBot_reads_broadcast_id 2523726746 Hx)).
Defined.

(** X23.  A configured id between -10^9 and -10^6, a legacy id for the
    other handlers, is only negated by SimpleBot: it filters on -c, the
    others on -c - 10^6.  So a message of the channel the other handlers
    accept for this id is dropped by SimpleBot, without a trace. *)
Theorem SimpleBot_keeps_legacy_prefix {S : Type} `{Store S} (c : Z)
    (parentID : string) (TypeByExtension : string -> string)
    (ID Date : Z) (Media : option tg.MessageMediaClass) (w : World S) :
  -1000000000 < c < -1000000 ->
  SimpleBot.actualConfiguredID c = - c /\
  normalize c = - c - 1000000 /\
  accepts c (normalize c) = true /\
  SimpleBot.handleChannelMessage c parentID TypeByExtension
    (tg.Message ID (tg.PeerChannel (normalize c)) Media Date) w = (tt, w).
Proof.
  intros Hc.
  assert (Hactual : SimpleBot.actualConfiguredID c = - c).
  { unfold SimpleBot.actualConfiguredID.
    assert (H0 : (c <? 0) = true) by (apply Z.ltb_lt; lia).
    assert (H1 : (c <=? -1000000000) = false) by (apply Z.leb_gt; lia).
    rewrite H0, H1. unfold Int64.neg.
    apply wrap_in_range. unfold Int64.in_range, Int64.min, Int64.max. lia. }
  assert (Hnorm : normalize c = - c - 1000000).
  { rewrite normalize_legacy by lia.
    rewrite wrap_in_range by (unfold Int64.in_range, Int64.min, Int64.max; lia).
    lia. }
  split; [exact Hactual|]. split; [exact Hnorm|]. split.
  - unfold accepts. rewrite Z.eqb_refl. apply orb_true_r.
  - unfold SimpleBot.handleChannelMessage. rewrite Hactual, Hnorm.
    assert (Hne : (- c - 1000000 =? - c) = false) by (apply Z.eqb_neq; lia).
    rewrite Hne. reflexivity.
Qed.

Lemma SimpleBot_keeps_legacy_prefix_witness :
  -1000000000 < -1000123 < -1000000 /\
  SimpleBot.actualConfiguredID (-1000123) = 1000123 /\
  normalize (-1000123) = 123 /\
  SimpleBot.handleChannelMessage (-1000123) "" (fun _ => "")
    (Sample.message (tg.PeerChannel 123) "report.pdf") (Sample.world [] true)
  = (tt, Sample.world [] true).
Proof.
  assert (Hc : -1000000000 < -1000123 < -1000000) by lia.
  split; [exact Hc|].
  destruct (SimpleBot_keeps_legacy_prefix (-1000123) "" (fun _ => "")
              1 1746878400
              (Some (tg.MessageMediaDocument (Sample.document "report.pdf" 1024)))
              (Sample.world [] true) Hc)
    as (Hactual & Hnorm & _ & Hdrop).
  split; [exact Hactual|]. split; [exact Hnorm|].
  rewrite Hnorm in Hdrop. exact Hdrop.
Defined.
